(** * WareHouseWeb: the counting and performance edge functions

    A shallow embedding of the two HTTP handlers of the repository
    ([worker-performance] and [counting-data]) over the relational schema
    they run against, together with the properties of the specification
    that concern them, and of what the worker's dashboard and counting
    screen compute on their own.

    Conventions of the embedding:
    - a table is the list of its rows, in insertion order;
    - columns hold what the TypeScript interfaces of the application declare
      for them: numbers and strings, null only where the interface marks the
      field optional;
    - [integer] columns hold values of the 32-bit signed range, and the
      store rejects a write outside it;
    - a [decimal(5,2)] value is carried as its number of hundredths;
    - timestamps are carried as the millisecond count [Date.getTime]
      returns for them, calendar dates and identifiers as strings, written
      as the store prints them (a date as year-month-day, a uuid in lower
      case), so that two values are equal when their texts are;
    - JavaScript arithmetic on integer values is written on [Z] (it is exact
      on the values the integer columns can hold); the two places where the
      handlers divide are computed on IEEE 754 binary64 numbers, through the
      Standard Library's [SpecFloat]. *)

From Stdlib Require Import ZArith List String Ascii Bool Lia.
From Stdlib Require Import QArith Qpower Lqa.
From Stdlib Require Import Sorting.Sorted Sorting.Permutation.
From Stdlib Require Import SpecFloat.
From Stdlib Require Import DecimalString.
From Stdlib Require DecimalPos.
Import ListNotations.
Open Scope string_scope.
Open Scope Z_scope.

(** ** JavaScript numbers *)

Module JSNumber.

Definition prec : Z := 53.
Definition emax : Z := 1024.

Definition number := spec_float.

(** The Number value of an integer literal or integer-valued field. *)
Definition of_int (z : Z) : number := binary_normalize prec emax z 0 false.

Definition div (x y : number) : number := SFdiv prec emax x y.
Definition mul (x y : number) : number := SFmul prec emax x y.

(** [Math.round]: the integer closest to [x], ties towards +infinity,
    that is [floor (x + 1/2)]. The handlers apply it to quotients of
    finite integers only; on NaN and the infinities this function
    answers 0. *)
Definition Math_round (x : number) : Z :=
  match x with
  | S754_finite s m e =>
      let sm := if s then Z.neg m else Z.pos m in
      if 0 <=? e then sm * 2 ^ e
      else (2 * sm + 2 ^ (- e)) / (2 * 2 ^ (- e))
  | _ => 0
  end.

(** The integer a Number stands for: the value of a finite Number that is
    a whole number; an infinite Number, which is beyond every finite one, is
    carried as 2^1024 with its sign. *)
Definition integer_value (x : number) : Z :=
  match x with
  | S754_finite s m e =>
      let sm := if s then Z.neg m else Z.pos m in
      if 0 <=? e then sm * 2 ^ e else sm / 2 ^ (- e)
  | S754_infinity s => if s then - 2 ^ 1024 else 2 ^ 1024
  | _ => 0
  end.

(** The Number nearest to an integer (ties to the even mantissa), as an
    integer: the integer itself below 2^53 in absolute value. *)
Definition nearest (z : Z) : Z := integer_value (of_int z).

(** [parseInt] on a text: leading white space, an optional sign, an
    optional [0x] prefix, then the longest run of digits; the result is the
    Number nearest to the integer the digits write, and [None] stands for
    NaN. Only ASCII white space is recognised. *)
Definition is_space (c : ascii) : bool :=
  let n := N_of_ascii c in
  (((9 <=? n) && (n <=? 13)) || (n =? 32))%N.

Definition digit_val (radix : Z) (c : ascii) : option Z :=
  let n := Z.of_N (N_of_ascii c) in
  let v := if (48 <=? n) && (n <=? 57) then Some (n - 48)
           else if (97 <=? n) && (n <=? 122) then Some (n - 87)
           else if (65 <=? n) && (n <=? 90) then Some (n - 55)
           else None in
  match v with
  | Some d => if d <? radix then Some d else None
  | None => None
  end.

Fixpoint skip_space (s : string) : string :=
  match s with
  | String c s' => if is_space c then skip_space s' else s
  | EmptyString => s
  end.

Fixpoint digits (radix : Z) (acc : option Z) (s : string) : option Z :=
  match s with
  | String c s' =>
      match digit_val radix c with
      | Some d =>
          digits radix (Some (match acc with Some a => a * radix + d | None => d end)) s'
      | None => acc
      end
  | EmptyString => acc
  end.

Definition strip_hex (s : string) : option string :=
  match s with
  | String "0" (String "x" s') => Some s'
  | String "0" (String "X" s') => Some s'
  | _ => None
  end.

Definition parseInt (s : string) : option Z :=
  let s := skip_space s in
  let '(neg, s) :=
    match s with
    | String "-" s' => (true, s')
    | String "+" s' => (false, s')
    | _ => (false, s)
    end in
  let v := match strip_hex s with
           | Some s' => digits 16 None s'
           | None => digits 10 None s
           end in
  option_map (fun n => nearest (if neg then - n else n)) v.

(** The decimal text of an integer, as template literals print it. *)
Definition to_string (z : Z) : string := NilZero.string_of_int (Z.to_int z).

End JSNumber.



(** ** The schema *)

Inductive Role := admin | vendor | team_leader | worker.

Inductive SessionStatus := active | completed.

Record User := {
  u_id : string;
  user_id : string;
  role : Role;
  u_warehouse_name : option string;
  u_vendor_id : option string;
  u_team_leader_id : option string;
  is_approved : bool
}.

Record CountingSession := {
  s_id : string;
  worker_id : string;
  team_leader_id : string;
  warehouse_name : string;
  start_time : Z;
  end_time : option Z;
  status : SessionStatus
}.

Record CountingData := {
  cd_id : string;
  session_id : string;
  cd_wh_name : string;
  cd_date : string;
  tl_name : string;
  cd_username : string;
  bin_no : string;
  qty_counted : Z;
  qty_recounted_tl : option Z;
  qty_as_per_books : Z;
  difference : Z;
  reason_for_difference : option string;
  cd_created_at : Z
}.

Record WorkerPerformance := {
  wp_id : string;
  wh_name : string;
  date : string;
  username : string;
  no_of_bins_counted : Z;
  no_of_qty_counted : Z;
  time_taken_minutes : Z;
  efficiency : Z;              (* decimal(5,2), in hundredths *)
  ranking : option Z;
  wp_created_at : Z
}.

Record AuditLog := {
  al_id : string;
  al_user_id : option string;
  action : string;
  details : string;
  al_created_at : Z
}.

Record DB := {
  users : list User;
  counting_sessions : list CountingSession;
  counting_data : list CountingData;
  worker_performance : list WorkerPerformance;
  audit_logs : list AuditLog
}.

(** What a request reads from its surroundings: the UTC calendar date of
    [new Date().toISOString().split('T')[0]] (which is also taken for the
    store's [CURRENT_DATE]) and the instant of [now()]. *)
Record Env := { today : string; now : Z }.

(** ** The store *)

Module Store.

Inductive Error :=
  | not_null_violation (column : string)
  | unique_violation (constraint : string)
  | foreign_key_violation (constraint : string)
  | numeric_out_of_range (column : string)
  | generated_column (column : string)
  | not_a_single_row
  | invalid_range.

(** [integer]: 32-bit signed. *)
Definition int4 (z : Z) : bool := (-2147483648 <=? z) && (z <=? 2147483647).

(** [decimal(5,2)], in hundredths: at most 999.99 in absolute value. *)
Definition dec52 (k : Z) : bool := (-99999 <=? k) && (k <=? 99999).

(** A value given for a column, if any, fits the column. *)
Definition value_ok (ok : Z -> bool) (v : option Z) : bool :=
  match v with Some z => ok z | None => true end.

(** [.single()]: the row when the query matches exactly one, no data (and
    an error) otherwise. *)
Definition single {A : Type} (rows : list A) : option A :=
  match rows with
  | [r] => Some r
  | _ => None
  end.

(** [gen_random_uuid()]: some identifier that no row of the table has. *)
Definition fresh_id (ids : list string) : string :=
  fold_right String.append "0" ids.

(** The generated column of [counting_data]:
    [COALESCE(qty_recounted_tl, qty_counted) - qty_as_per_books]. *)
Definition coalesce (a : option Z) (b : Z) : Z :=
  match a with Some v => v | None => b end.

Definition generated_difference (counted : Z) (recounted : option Z) (books : Z) : Z :=
  coalesce recounted counted - books.

(** *** counting_data *)

(** The columns an INSERT may name; [ci_difference] is an attempt to give
    the generated column a value. *)
Record CountingInsert := {
  ci_session_id : string;
  ci_wh_name : string;
  ci_tl_name : string;
  ci_username : string;
  ci_bin_no : string;
  ci_qty_counted : Z;
  ci_qty_as_per_books : Z;
  ci_qty_recounted_tl : option Z;
  ci_difference : option Z
}.

Definition counting_row_ok (r : CountingData) : bool :=
  int4 (qty_counted r) && int4 (qty_as_per_books r) &&
  match qty_recounted_tl r with Some v => int4 v | None => true end &&
  int4 (difference r).

Definition insert_counting_data (env : Env) (p : CountingInsert) (db : DB)
  : Error + (CountingData * DB) :=
  match ci_difference p with
  | Some _ => inl (generated_column "difference")
  | None =>
      if negb (existsb (fun s => s_id s =? ci_session_id p)%string (counting_sessions db))
      then inl (foreign_key_violation "counting_data_session_id_fkey")
      else
        let r := {|
          cd_id := fresh_id (map cd_id (counting_data db));
          session_id := ci_session_id p;
          cd_wh_name := ci_wh_name p;
          cd_date := today env;
          tl_name := ci_tl_name p;
          cd_username := ci_username p;
          bin_no := ci_bin_no p;
          qty_counted := ci_qty_counted p;
          qty_recounted_tl := ci_qty_recounted_tl p;
          qty_as_per_books := ci_qty_as_per_books p;
          difference :=
            generated_difference (ci_qty_counted p) (ci_qty_recounted_tl p)
                                 (ci_qty_as_per_books p);
          reason_for_difference := None;
          cd_created_at := now env |} in
        if counting_row_ok r
        then inr (r, {| users := users db;
                        counting_sessions := counting_sessions db;
                        counting_data := counting_data db ++ [r];
                        worker_performance := worker_performance db;
                        audit_logs := audit_logs db |})
        else inl (numeric_out_of_range "counting_data")
  end.

(** The columns an UPDATE may set ([None]: left alone). *)
Record CountingPatch := {
  cp_qty_counted : option Z;
  cp_qty_recounted_tl : option (option Z);
  cp_qty_as_per_books : option Z;
  cp_reason_for_difference : option (option string);
  cp_difference : option Z
}.

Definition or_else {A : Type} (o : option A) (d : A) : A :=
  match o with Some v => v | None => d end.

Definition patch_counting (p : CountingPatch) (r : CountingData) : CountingData :=
  let counted := or_else (cp_qty_counted p) (qty_counted r) in
  let recounted := or_else (cp_qty_recounted_tl p) (qty_recounted_tl r) in
  let books := or_else (cp_qty_as_per_books p) (qty_as_per_books r) in
  {| cd_id := cd_id r;
     session_id := session_id r;
     cd_wh_name := cd_wh_name r;
     cd_date := cd_date r;
     tl_name := tl_name r;
     cd_username := cd_username r;
     bin_no := bin_no r;
     qty_counted := counted;
     qty_recounted_tl := recounted;
     qty_as_per_books := books;
     difference := generated_difference counted recounted books;
     reason_for_difference :=
       or_else (cp_reason_for_difference p) (reason_for_difference r);
     cd_created_at := cd_created_at r |}.

(** [UPDATE counting_data SET ... WHERE id = ...]: refused as a whole when
    the generated column is named, when a value does not fit its column or
    when the difference of a row it touches does not. *)
Definition update_counting_data (id : string) (p : CountingPatch) (db : DB)
  : Error + DB :=
  match cp_difference p with
  | Some _ => inl (generated_column "difference")
  | None =>
      let hit r := (cd_id r =? id)%string in
      let rows :=
        map (fun r => if hit r then patch_counting p r else r) (counting_data db) in
      if value_ok int4 (cp_qty_counted p) && value_ok int4 (cp_qty_as_per_books p) &&
         match cp_qty_recounted_tl p with Some v => value_ok int4 v | None => true end &&
         forallb (fun r => int4 (difference r))
                 (map (patch_counting p) (filter hit (counting_data db)))
      then inr {| users := users db;
                  counting_sessions := counting_sessions db;
                  counting_data := rows;
                  worker_performance := worker_performance db;
                  audit_logs := audit_logs db |}
      else inl (numeric_out_of_range "counting_data")
  end.

(** *** worker_performance *)

(** The body of an INSERT: every column may be named or left to its
    default. *)
Record PerformanceInsert := {
  pi_id : option string;
  pi_wh_name : option string;
  pi_date : option string;
  pi_username : option string;
  pi_no_of_bins_counted : option Z;
  pi_no_of_qty_counted : option Z;
  pi_time_taken_minutes : option Z;
  pi_efficiency : option Z;
  pi_ranking : option Z
}.

Definition performance_row_ok (r : WorkerPerformance) : bool :=
  int4 (no_of_bins_counted r) && int4 (no_of_qty_counted r) &&
  int4 (time_taken_minutes r) && dec52 (efficiency r) &&
  match ranking r with Some v => int4 v | None => true end.

Definition set_worker_performance (rows : list WorkerPerformance) (db : DB) : DB :=
  {| users := users db;
     counting_sessions := counting_sessions db;
     counting_data := counting_data db;
     worker_performance := rows;
     audit_logs := audit_logs db |}.

Definition insert_worker_performance (env : Env) (p : PerformanceInsert) (db : DB)
  : Error + (WorkerPerformance * DB) :=
  match pi_wh_name p, pi_username p with
  | None, _ => inl (not_null_violation "wh_name")
  | _, None => inl (not_null_violation "username")
  | Some wh, Some un =>
      let ids := map wp_id (worker_performance db) in
      let r := {|
        wp_id := or_else (pi_id p) (fresh_id ids);
        wh_name := wh;
        date := or_else (pi_date p) (today env);
        username := un;
        no_of_bins_counted := or_else (pi_no_of_bins_counted p) 0;
        no_of_qty_counted := or_else (pi_no_of_qty_counted p) 0;
        time_taken_minutes := or_else (pi_time_taken_minutes p) 0;
        efficiency := or_else (pi_efficiency p) 0;
        ranking := pi_ranking p;
        wp_created_at := now env |} in
      if existsb (String.eqb (wp_id r)) ids
      then inl (unique_violation "worker_performance_pkey")
      else if performance_row_ok r
      then inr (r, set_worker_performance (worker_performance db ++ [r]) db)
      else inl (numeric_out_of_range "worker_performance")
  end.

Record PerformancePatch := {
  pp_no_of_bins_counted : option Z;
  pp_no_of_qty_counted : option Z;
  pp_time_taken_minutes : option Z;
  pp_efficiency : option Z;
  pp_ranking : option Z
}.

Definition patch_performance (p : PerformancePatch) (r : WorkerPerformance)
  : WorkerPerformance :=
  {| wp_id := wp_id r;
     wh_name := wh_name r;
     date := date r;
     username := username r;
     no_of_bins_counted := or_else (pp_no_of_bins_counted p) (no_of_bins_counted r);
     no_of_qty_counted := or_else (pp_no_of_qty_counted p) (no_of_qty_counted r);
     time_taken_minutes := or_else (pp_time_taken_minutes p) (time_taken_minutes r);
     efficiency := or_else (pp_efficiency p) (efficiency r);
     ranking := match pp_ranking p with Some v => Some v | None => ranking r end;
     wp_created_at := wp_created_at r |}.

Definition performance_patch_ok (p : PerformancePatch) : bool :=
  value_ok int4 (pp_no_of_bins_counted p) && value_ok int4 (pp_no_of_qty_counted p) &&
  value_ok int4 (pp_time_taken_minutes p) && value_ok dec52 (pp_efficiency p) &&
  value_ok int4 (pp_ranking p).

(** [UPDATE worker_performance SET ... WHERE id = ...]: refused as a whole
    when a value does not fit its column. *)
Definition update_worker_performance (id : string) (p : PerformancePatch) (db : DB)
  : Error + DB :=
  if performance_patch_ok p
  then inr (set_worker_performance
              (map (fun r => if (wp_id r =? id)%string then patch_performance p r else r)
                   (worker_performance db)) db)
  else inl (numeric_out_of_range "worker_performance").

(** [ORDER BY key DESC]: rows of equal key keep the order they have in the
    table. *)
Fixpoint insert_desc {A : Type} (key : A -> Z) (r : A) (l : list A) : list A :=
  match l with
  | [] => [r]
  | x :: l' => if key x <=? key r then r :: l else x :: insert_desc key r l'
  end.

Definition order_desc {A : Type} (key : A -> Z) (l : list A) : list A :=
  fold_right (insert_desc key) [] l.

(** [SELECT * FROM worker_performance WHERE date = ... [AND wh_name = ...]
    ORDER BY efficiency DESC LIMIT ...]. The date is taken to be written as
    the store prints dates (year-month-day), so that it is compared as
    text; a limit that is not a natural number is taken to be refused. *)
Definition select_performance (d : string) (wh : option string) (limit : option Z)
  (db : DB) : Error + list WorkerPerformance :=
  match limit with
  | None => inl invalid_range
  | Some n =>
      if n <? 0 then inl invalid_range
      else
        let on_date := filter (fun r => (date r =? d)%string) (worker_performance db) in
        let rows :=
          match wh with
          | Some w => filter (fun r => (wh_name r =? w)%string) on_date
          | None => on_date
          end in
        inr (firstn (Z.to_nat n) (order_desc efficiency rows))
  end.

(** [SELECT * FROM counting_data [WHERE ...] ORDER BY created_at DESC].
    The filter values are taken to be written as the store prints the
    values of their columns (an id in the lower-case form of a uuid, a date
    as year-month-day), so that they are compared as text; what the store
    makes of other texts is outside this function. *)
Definition select_counting_data (sid un d : option string) (db : DB)
  : Error + list CountingData :=
  let keep (col : CountingData -> string) (v : option string) (l : list CountingData) :=
    match v with
    | Some x => filter (fun r => (col r =? x)%string) l
    | None => l
    end in
  inr (order_desc cd_created_at
         (keep cd_date d (keep cd_username un (keep session_id sid (counting_data db))))).

(** [SELECT * FROM worker_performance WHERE username = ... AND date = ...] *)
Definition day_rows (un d : string) (db : DB) : list WorkerPerformance :=
  filter (fun r => (username r =? un)%string && (date r =? d)%string)
         (worker_performance db).

(** [SELECT ... FROM users WHERE id = ...], [.single()] *)
Definition user_by_id (id : string) (db : DB) : option User :=
  single (filter (fun u => (u_id u =? id)%string) (users db)).

(** *** counting_sessions *)

(** The body of an INSERT into [counting_sessions]: every column may be
    named or left to its default. *)
Record SessionInsert := {
  si_id : option string;
  si_worker_id : option string;
  si_team_leader_id : option string;
  si_warehouse_name : option string;
  si_start_time : option Z;
  si_end_time : option Z;
  si_status : option SessionStatus
}.

(** The table asks for a worker and a team leader that are users, for a
    warehouse and for an id of its own; it has no constraint on the sessions
    a worker already has. *)
Definition insert_counting_session (env : Env) (p : SessionInsert) (db : DB)
  : Error + (CountingSession * DB) :=
  match si_worker_id p, si_team_leader_id p, si_warehouse_name p with
  | None, _, _ => inl (not_null_violation "worker_id")
  | _, None, _ => inl (not_null_violation "team_leader_id")
  | _, _, None => inl (not_null_violation "warehouse_name")
  | Some w, Some tl, Some wh =>
      let ids := map s_id (counting_sessions db) in
      let s := {|
        s_id := or_else (si_id p) (fresh_id ids);
        worker_id := w;
        team_leader_id := tl;
        warehouse_name := wh;
        start_time := or_else (si_start_time p) (now env);
        end_time := si_end_time p;
        status := or_else (si_status p) active |} in
      if existsb (String.eqb (s_id s)) ids
      then inl (unique_violation "counting_sessions_pkey")
      else if negb (existsb (fun u => u_id u =? w)%string (users db))
      then inl (foreign_key_violation "counting_sessions_worker_id_fkey")
      else if negb (existsb (fun u => u_id u =? tl)%string (users db))
      then inl (foreign_key_violation "counting_sessions_team_leader_id_fkey")
      else inr (s, {| users := users db;
                      counting_sessions := counting_sessions db ++ [s];
                      counting_data := counting_data db;
                      worker_performance := worker_performance db;
                      audit_logs := audit_logs db |})
  end.

(** *** audit_logs *)

Definition insert_audit_log (env : Env) (uid : string) (act det : string) (db : DB)
  : Error + DB :=
  if negb (existsb (fun u => u_id u =? uid)%string (users db))
  then inl (foreign_key_violation "audit_logs_user_id_fkey")
  else
    inr {| users := users db;
           counting_sessions := counting_sessions db;
           counting_data := counting_data db;
           worker_performance := worker_performance db;
           audit_logs := audit_logs db ++
             [ {| al_id := fresh_id (map al_id (audit_logs db));
                  al_user_id := Some uid;
                  action := act;
                  details := det;
                  al_created_at := now env |} ] |}.

End Store.

(** ** Requests, responses and handler code *)

Record Request (B : Type) := {
  method : string;
  pathname : string;
  searchParams : list (string * string);
  authorization : option string;     (* the Authorization header *)
  json : option B                    (* [None]: the body is not JSON *)
}.
Arguments method {B} _.
Arguments pathname {B} _.
Arguments searchParams {B} _.
Arguments authorization {B} _.
Arguments json {B} _.

(** [error.message] of whatever was caught or returned. *)
Inductive Message :=
  | text (s : string)
  | store_error (e : Store.Error)
  | body_not_json
  | null_dereference (field : string).

Record Stats := {
  todayBins : Z;
  todayQuantity : Z;
  todayTime : Z;
  stats_efficiency : Z;
  stats_ranking : Z
}.

Inductive Body :=
  | no_body
  | error_body (m : Message)
  | stats_body (s : Stats)
  | performance_body (r : WorkerPerformance)
  | performance_list (l : list WorkerPerformance)
  | counting_body (r : CountingData)
  | counting_list (l : list CountingData).

(** All responses carry the CORS headers; they are left out. *)
Record Response := { http_status : Z; body : Body }.

Definition json_response (b : Body) : Response := {| http_status := 200; body := b |}.
Definition error_response (m : Message) (code : Z) : Response :=
  {| http_status := code; body := error_body m |}.

(** A handler body runs over the store and either goes on with a value or
    leaves with a response ([return new Response(...)], or a throw that the
    enclosing [try]/[catch] turns into a 500). Writes made before leaving
    stay. *)
Definition Handler (A : Type) : Type := DB -> DB * (Response + A).

Definition ret {A : Type} (a : A) : Handler A := fun db => (db, inr a).

Definition bind {A B : Type} (h : Handler A) (k : A -> Handler B) : Handler B :=
  fun db =>
    match h db with
    | (db', inl r) => (db', inl r)
    | (db', inr a) => k a db'
    end.

Definition leave {A : Type} (r : Response) : Handler A := fun db => (db, inl r).

Definition throw {A : Type} (m : Message) : Handler A :=
  leave (error_response m 500).

(** A query: reads the store. *)
Definition query {A : Type} (q : DB -> A) : Handler A := fun db => (db, inr (q db)).

(** A statement: its error is handed to the caller, the store changes only
    when it succeeds. *)
Definition exec0 (st : DB -> Store.Error + DB) : Handler (option Store.Error) :=
  fun db =>
    match st db with
    | inl e => (db, inr (Some e))
    | inr db' => (db', inr None)
    end.

Definition exec {A : Type} (st : DB -> Store.Error + (A * DB))
  : Handler (Store.Error + A) :=
  fun db =>
    match st db with
    | inl e => (db, inr (inl e))
    | inr (a, db') => (db', inr (inr a))
    end.

Definition run (h : Handler Response) (db : DB) : DB * Response :=
  match h db with
  | (db', inl r) => (db', r)
  | (db', inr r) => (db', r)
  end.

Declare Scope handler_scope.
Delimit Scope handler_scope with handler.
Notation "x <- c ;; k" := (bind c (fun x => k))
  (at level 61, c at next level, right associativity) : handler_scope.
Notation "c ;;; k" := (bind c (fun _ => k))
  (at level 61, right associativity) : handler_scope.
Open Scope handler_scope.

(** [for (const x of xs) await f(x)] *)
Fixpoint for_each {A : Type} (xs : list A) (f : A -> Handler unit) : Handler unit :=
  match xs with
  | [] => ret tt
  | x :: xs' => f x ;;; for_each xs' f
  end.

(** *** Small library functions the handlers call *)

(** [s.split('/')] *)
Fixpoint split_slash_aux (acc : string) (s : string) : list string :=
  match s with
  | EmptyString => [acc]
  | String c s' =>
      if Ascii.eqb c "/" then acc :: split_slash_aux "" s'
      else split_slash_aux (acc ++ String c "") s'
  end.

Definition split_slash (s : string) : list string := split_slash_aux "" s.

Definition includes (x : string) (l : list string) : bool := existsb (String.eqb x) l.

(** [searchParams.get]: the first value under the name, or null. *)
Fixpoint get (name : string) (ps : list (string * string)) : option string :=
  match ps with
  | [] => None
  | (k, v) :: ps' => if (k =? name)%string then Some v else get name ps'
  end.

(** [a || b] on a nullable string: the empty string is falsy too. *)
Definition truthy (o : option string) : option string :=
  match o with
  | Some "" => None
  | _ => o
  end.


(** ** The worker-performance function *)

Module WorkerPerformanceFunction.

Definition today_stats (performance : option WorkerPerformance) : Stats :=
  match performance with
  | Some p =>
      {| todayBins := no_of_bins_counted p;
         todayQuantity := no_of_qty_counted p;
         todayTime := time_taken_minutes p;
         stats_efficiency := efficiency p;
         stats_ranking := Store.or_else (ranking p) 0 |}
  | None =>
      {| todayBins := 0; todayQuantity := 0; todayTime := 0;
         stats_efficiency := 0; stats_ranking := 0 |}
  end.

Definition with_ranking (item : WorkerPerformance) (rk : Z) : WorkerPerformance :=
  {| wp_id := wp_id item;
     wh_name := wh_name item;
     date := date item;
     username := username item;
     no_of_bins_counted := no_of_bins_counted item;
     no_of_qty_counted := no_of_qty_counted item;
     time_taken_minutes := time_taken_minutes item;
     efficiency := efficiency item;
     ranking := Some rk;
     wp_created_at := wp_created_at item |}.

(** [data.map((item, index) => ({...item, ranking: index + 1}))], from
    position [index]. *)
Fixpoint rank_from (index : Z) (data : list WorkerPerformance)
  : list WorkerPerformance :=
  match data with
  | [] => []
  | item :: data' => with_ranking item (index + 1) :: rank_from (index + 1) data'
  end.

Definition ranking_patch (rk : option Z) : Store.PerformancePatch :=
  {| Store.pp_no_of_bins_counted := None;
     Store.pp_no_of_qty_counted := None;
     Store.pp_time_taken_minutes := None;
     Store.pp_efficiency := None;
     Store.pp_ranking := rk |}.

Definition today_row (un d : string) (db : DB) : option WorkerPerformance :=
  Store.single (Store.day_rows un d db).

Definition serve (env : Env) (req : Request Store.PerformanceInsert)
  : Handler Response :=
  if (method req =? "OPTIONS")%string then ret (json_response no_body)
  else if (method req =? "GET")%string then
    let pathParts := split_slash (pathname req) in
    if includes "today" pathParts then
      let workerId := last pathParts "" in
      user <- query (Store.user_by_id workerId) ;;
      match user with
      | None => leave (error_response (text "User not found") 404)
      | Some user =>
          performance <- query (today_row (user_id user) (today env)) ;;
          ret (json_response (stats_body (today_stats performance)))
      end
    else
      let warehouse := get "warehouse" (searchParams req) in
      let date := Store.or_else (truthy (get "date" (searchParams req))) (today env) in
      let limit :=
        JSNumber.parseInt (Store.or_else (truthy (get "limit" (searchParams req))) "50") in
      result <- query (Store.select_performance date (truthy warehouse) limit) ;;
      match result with
      | inl error => leave (error_response (store_error error) 400)
      | inr data =>
          let rankedData := rank_from 0 data in
          for_each rankedData (fun item =>
            _ <- exec0 (Store.update_worker_performance (wp_id item)
                          (ranking_patch (ranking item))) ;;
            ret tt) ;;;
          ret (json_response (performance_list rankedData))
      end
  else if (method req =? "POST")%string then
    match json req with
    | None => throw body_not_json
    | Some performanceData =>
        result <- exec (Store.insert_worker_performance env performanceData) ;;
        match result with
        | inl error => leave (error_response (store_error error) 400)
        | inr data => ret (json_response (performance_body data))
        end
    end
  else ret (error_response (text "Method not allowed") 405).

Definition handle (env : Env) (req : Request Store.PerformanceInsert) (db : DB)
  : DB * Response :=
  run (serve env req) db.

End WorkerPerformanceFunction.

(** ** The counting-data function *)

Module CountingDataFunction.

(** The JSON body of a POST; [other_keys] are whatever further keys the
    client sent, which the destructuring leaves aside. *)
Record CountBody := {
  sessionId : string;
  binNo : string;
  qtyCountedWorker : Z;
  qtyAsPerBooks : Z;
  other_keys : list (string * Z)
}.

(** A session row with its two embedded users
    ([worker:users!...(user_id, warehouse_name)], [team_leader:users!...(user_id)]). *)
Record SessionDetails := {
  session : CountingSession;
  sd_worker : option User;
  sd_team_leader : option User
}.

Definition select_session (id : string) (db : DB) : option SessionDetails :=
  match Store.single (filter (fun s => (s_id s =? id)%string) (counting_sessions db)) with
  | Some s =>
      Some {| session := s;
              sd_worker := Store.user_by_id (worker_id s) db;
              sd_team_leader := Store.user_by_id (team_leader_id s) db |}
  | None => None
  end.

(** [Math.round((endTime.getTime() - startTime.getTime()) / (1000 * 60))] *)
Definition elapsed_minutes (start_ms end_ms : Z) : Z :=
  JSNumber.Math_round
    (JSNumber.div (JSNumber.of_int (end_ms - start_ms)) (JSNumber.of_int (1000 * 60))).

(** [timeTaken > 0 ? Math.round((newBinsCount / (timeTaken / 60)) * 100) / 100 : 0],
    in hundredths: the value is [Math.round(...)] hundredths, and its decimal
    text has at most two fraction digits, which [decimal(5,2)] keeps as
    they are. *)
Definition efficiency_of (newBinsCount timeTaken : Z) : Z :=
  if 0 <? timeTaken then
    JSNumber.Math_round
      (JSNumber.mul
         (JSNumber.div (JSNumber.of_int newBinsCount)
                       (JSNumber.div (JSNumber.of_int timeTaken) (JSNumber.of_int 60)))
         (JSNumber.of_int 100))
  else 0.

Definition existing_or_0 (existingPerf : option WorkerPerformance)
  (col : WorkerPerformance -> Z) : Z :=
  match existingPerf with Some p => col p | None => 0 end.

Definition time_taken (s : CountingSession) (existingPerf : option WorkerPerformance) : Z :=
  match end_time s with
  | Some e => elapsed_minutes (start_time s) e
  | None => existing_or_0 existingPerf time_taken_minutes
  end.

(** The "update worker performance" step of a POST: read the worker's row
    of the day, add the count, write the row back (or create it). Neither
    write is checked. *)
Definition update_performance (env : Env) (s : CountingSession) (w : User)
  (qtyCountedWorker : Z) : Handler unit :=
  existingPerf <- query (WorkerPerformanceFunction.today_row (user_id w) (today env)) ;;
  let newBinsCount := existing_or_0 existingPerf no_of_bins_counted + 1 in
  let newQtyCount := existing_or_0 existingPerf no_of_qty_counted + qtyCountedWorker in
  let timeTaken := time_taken s existingPerf in
  let efficiency := efficiency_of newBinsCount timeTaken in
  match existingPerf with
  | Some p =>
      _ <- exec0 (Store.update_worker_performance (wp_id p)
                    {| Store.pp_no_of_bins_counted := Some newBinsCount;
                       Store.pp_no_of_qty_counted := Some newQtyCount;
                       Store.pp_time_taken_minutes := Some timeTaken;
                       Store.pp_efficiency := Some efficiency;
                       Store.pp_ranking := None |}) ;;
      ret tt
  | None =>
      _ <- exec (Store.insert_worker_performance env
                   {| Store.pi_id := None;
                      Store.pi_wh_name := Some (warehouse_name s);
                      Store.pi_date := Some (today env);
                      Store.pi_username := Some (user_id w);
                      Store.pi_no_of_bins_counted := Some newBinsCount;
                      Store.pi_no_of_qty_counted := Some newQtyCount;
                      Store.pi_time_taken_minutes := Some timeTaken;
                      Store.pi_efficiency := Some efficiency;
                      Store.pi_ranking := None |}) ;;
      ret tt
  end.

(** The "create audit log" step; its outcome is not looked at. *)
Definition audit_count (env : Env) (s : CountingSession) (b : CountBody)
  : Handler unit :=
  _ <- exec0 (Store.insert_audit_log env (worker_id s) "COUNT_BIN"
                ("Counted bin " ++ binNo b ++ ": " ++
                 JSNumber.to_string (qtyCountedWorker b) ++ " units")) ;;
  ret tt.

Definition counting_insert (s : CountingSession) (tl w : User) (b : CountBody)
  : Store.CountingInsert :=
  {| Store.ci_session_id := sessionId b;
     Store.ci_wh_name := warehouse_name s;
     Store.ci_tl_name := user_id tl;
     Store.ci_username := user_id w;
     Store.ci_bin_no := binNo b;
     Store.ci_qty_counted := qtyCountedWorker b;
     Store.ci_qty_as_per_books := qtyAsPerBooks b;
     Store.ci_qty_recounted_tl := None;
     Store.ci_difference := None |}.

Definition record_count (env : Env) (b : CountBody) : Handler Response :=
  found <- query (select_session (sessionId b)) ;;
  match found with
  | None => leave (error_response (text "Session not found") 404)
  | Some sd =>
      let s := session sd in
      match sd_team_leader sd, sd_worker sd with
      | None, _ => throw (null_dereference "team_leader")
      | _, None => throw (null_dereference "worker")
      | Some tl, Some w =>
          inserted <- exec (Store.insert_counting_data env (counting_insert s tl w b)) ;;
          match inserted with
          | inl insertError => leave (error_response (store_error insertError) 400)
          | inr countingData =>
              update_performance env s w (qtyCountedWorker b) ;;;
              audit_count env s b ;;;
              ret (json_response (counting_body countingData))
          end
      end
  end.

Definition list_counts (req : Request CountBody) : Handler Response :=
  let sessionId := truthy (get "sessionId" (searchParams req)) in
  let workerId := truthy (get "workerId" (searchParams req)) in
  let date := truthy (get "date" (searchParams req)) in
  result <- query (Store.select_counting_data sessionId workerId date) ;;
  match result with
  | inl error => leave (error_response (store_error error) 400)
  | inr data => ret (json_response (counting_list data))
  end.

Definition serve (env : Env) (req : Request CountBody) : Handler Response :=
  if (method req =? "OPTIONS")%string then ret (json_response no_body)
  else
    match truthy (authorization req) with
    | None => leave (error_response (text "No authorization header") 401)
    | Some authHeader =>
        if (method req =? "POST")%string then
          match json req with
          | None => throw body_not_json
          | Some b => record_count env b
          end
        else if (method req =? "GET")%string then list_counts req
        else ret (error_response (text "Method not allowed") 405)
    end.

Definition handle (env : Env) (req : Request CountBody) (db : DB) : DB * Response :=
  run (serve env req) db.

End CountingDataFunction.

(** ** Sessions *)

Module SessionManager.

Definition is_active (s : CountingSession) : bool :=
  match status s with active => true | completed => false end.

End SessionManager.

(** ** Notions used by the properties *)

Definition with_authorization {B : Type} (h : option string) (req : Request B)
  : Request B :=
  {| method := method req;
     pathname := pathname req;
     searchParams := searchParams req;
     authorization := h;
     json := json req |}.

(** The value of a finite Number of mantissa [m] and exponent [e], and the
    relative size of a unit in the last place of a normal Number. *)
Definition F2Q (m : positive) (e : Z) : Q := (inject_Z (Z.pos m) * 2 ^ e)%Q.

Definition signed (s : bool) (v : Q) : Q := if s then (- v)%Q else v.

Definition ulp52 : Q := 1 # 4503599627370496.

Definition with_other_keys (keys : list (string * Z))
  (req : Request CountingDataFunction.CountBody)
  : Request CountingDataFunction.CountBody :=
  {| method := method req;
     pathname := pathname req;
     searchParams := searchParams req;
     authorization := authorization req;
     json :=
       match json req with
       | Some b =>
           Some {| CountingDataFunction.sessionId := CountingDataFunction.sessionId b;
                   CountingDataFunction.binNo := CountingDataFunction.binNo b;
                   CountingDataFunction.qtyCountedWorker :=
                     CountingDataFunction.qtyCountedWorker b;
                   CountingDataFunction.qtyAsPerBooks :=
                     CountingDataFunction.qtyAsPerBooks b;
                   CountingDataFunction.other_keys := keys |}
       | None => None
       end |}.

(** What a team leader's recount sets on a counting record. *)
Definition recount_patch (v : Z) : Store.CountingPatch :=
  {| Store.cp_qty_counted := None;
     Store.cp_qty_recounted_tl := Some (Some v);
     Store.cp_qty_as_per_books := None;
     Store.cp_reason_for_difference := None;
     Store.cp_difference := None |}.

(** The totals a count leads to fit the columns of [worker_performance], so
    that the store takes the write. *)
Definition totals_fit (s : CountingSession) (existingPerf : option WorkerPerformance)
  (q : Z) : bool :=
  let bins := CountingDataFunction.existing_or_0 existingPerf no_of_bins_counted + 1 in
  let t := CountingDataFunction.time_taken s existingPerf in
  Store.int4 bins &&
  Store.int4 (CountingDataFunction.existing_or_0 existingPerf no_of_qty_counted + q) &&
  Store.int4 t &&
  Store.dec52 (CountingDataFunction.efficiency_of bins t).

(** The worker's row of the day once a count of [q] units has been added
    to it, and the row a first count of the day creates. *)
Definition row_after_count (s : CountingSession) (p : WorkerPerformance) (q : Z)
  : WorkerPerformance :=
  {| wp_id := wp_id p; wh_name := wh_name p; date := date p;
     username := username p;
     no_of_bins_counted := no_of_bins_counted p + 1;
     no_of_qty_counted := no_of_qty_counted p + q;
     time_taken_minutes := CountingDataFunction.time_taken s (Some p);
     efficiency :=
       CountingDataFunction.efficiency_of (no_of_bins_counted p + 1)
         (CountingDataFunction.time_taken s (Some p));
     ranking := ranking p;
     wp_created_at := wp_created_at p |}.

Definition row_of_first_count (env : Env) (s : CountingSession) (w : User) (q : Z)
  (db : DB) : WorkerPerformance :=
  {| wp_id := Store.fresh_id (map wp_id (worker_performance db));
     wh_name := warehouse_name s; date := today env;
     username := user_id w;
     no_of_bins_counted := 1;
     no_of_qty_counted := q;
     time_taken_minutes := CountingDataFunction.time_taken s None;
     efficiency :=
       CountingDataFunction.efficiency_of 1 (CountingDataFunction.time_taken s None);
     ranking := None;
     wp_created_at := now env |}.

(** Row [a] comes before row [b] in descending order of efficiency. *)
Definition efficiency_desc (a b : WorkerPerformance) : Prop :=
  efficiency b <= efficiency a.

(** The rows a leaderboard query selects: those of the date (and of the
    warehouse, when one is given), by descending efficiency, cut at the
    limit. *)
Definition leaderboard (d : string) (wh : option string) (n : Z) (db : DB)
  : list WorkerPerformance :=
  let on_date := filter (fun r => (date r =? d)%string) (worker_performance db) in
  let rows :=
    match wh with
    | Some w => filter (fun r => (wh_name r =? w)%string) on_date
    | None => on_date
    end in
  firstn (Z.to_nat n) (Store.order_desc efficiency rows).

(** One pass of the "update rankings in database" loop on the table. *)
Definition persist_rank (rows : list WorkerPerformance) (item : WorkerPerformance)
  : list WorkerPerformance :=
  map (fun r => if (wp_id r =? wp_id item)%string
                then Store.patch_performance
                       (WorkerPerformanceFunction.ranking_patch (ranking item)) r
                else r) rows.

(** The ranks 1, 2, ..., n. *)
Definition ranks (n : nat) : list (option Z) :=
  map (fun i => Some (Z.of_nat i)) (seq 1 n).

(** The generated column holds what its expression gives. *)
Definition difference_recomputed (r : CountingData) : Prop :=
  difference r = Store.coalesce (qty_recounted_tl r) (qty_counted r) - qty_as_per_books r.

(** The sessions of a worker that are active. *)
Definition active_sessions (w : string) (db : DB) : list CountingSession :=
  filter (fun s => (worker_id s =? w)%string && SessionManager.is_active s)
         (counting_sessions db).

Definition one_active_session_per_worker (db : DB) : Prop :=
  forall w, (List.length (active_sessions w db) <= 1)%nat.

(** ** Sample data *)

Module Sample.

Definition env : Env := {| today := "2024-03-01"; now := 1709280000000 |}.

Definition W : User :=
  {| u_id := "w-1"; user_id := "workerW"; role := worker;
     u_warehouse_name := Some "A"; u_vendor_id := None;
     u_team_leader_id := Some "t-1"; is_approved := true |}.

Definition T : User :=
  {| u_id := "t-1"; user_id := "leaderT"; role := team_leader;
     u_warehouse_name := Some "A"; u_vendor_id := None;
     u_team_leader_id := None; is_approved := true |}.

Definition empty : DB :=
  {| users := [W; T]; counting_sessions := []; counting_data := [];
     worker_performance := []; audit_logs := [] |}.

(** A session of W under T in warehouse A, while it is active and once it
    has ended, one minute after its start. *)
Definition session_active : CountingSession :=
  {| s_id := "s-1"; worker_id := "w-1"; team_leader_id := "t-1";
     warehouse_name := "A"; start_time := now env; end_time := None;
     status := active |}.

Definition session_completed : CountingSession :=
  {| s_id := "s-1"; worker_id := "w-1"; team_leader_id := "t-1";
     warehouse_name := "A"; start_time := now env;
     end_time := Some (now env + 60000); status := completed |}.

Definition started : DB :=
  {| users := [W; T]; counting_sessions := [session_active]; counting_data := [];
     worker_performance := []; audit_logs := [] |}.

Definition ended : DB :=
  {| users := [W; T]; counting_sessions := [session_completed]; counting_data := [];
     worker_performance := []; audit_logs := [] |}.

Definition details_active : CountingDataFunction.SessionDetails :=
  {| CountingDataFunction.session := session_active;
     CountingDataFunction.sd_worker := Some W;
     CountingDataFunction.sd_team_leader := Some T |}.

Definition details_completed : CountingDataFunction.SessionDetails :=
  {| CountingDataFunction.session := session_completed;
     CountingDataFunction.sd_worker := Some W;
     CountingDataFunction.sd_team_leader := Some T |}.

Definition count (sid bin : string) (qty book : Z)
  : Request CountingDataFunction.CountBody :=
  {| method := "POST"; pathname := "/counting-data"; searchParams := [];
     authorization := Some "Bearer token";
     json := Some {| CountingDataFunction.sessionId := sid;
                     CountingDataFunction.binNo := bin;
                     CountingDataFunction.qtyCountedWorker := qty;
                     CountingDataFunction.qtyAsPerBooks := book;
                     CountingDataFunction.other_keys := [] |} |}.

Definition get_performance (path : string) (params : list (string * string))
  : Request Store.PerformanceInsert :=
  {| method := "GET"; pathname := path; searchParams := params;
     authorization := None; json := None |}.

Definition performance (id wh un : string) (bins qty mins eff : Z) (rk : option Z)
  : WorkerPerformance :=
  {| wp_id := id; wh_name := wh; date := today env; username := un;
     no_of_bins_counted := bins; no_of_qty_counted := qty;
     time_taken_minutes := mins; efficiency := eff; ranking := rk;
     wp_created_at := 0 |}.

Definition with_performance (rows : list WorkerPerformance) (db : DB) : DB :=
  Store.set_worker_performance rows db.

Definition post_performance (p : Store.PerformanceInsert)
  : Request Store.PerformanceInsert :=
  {| method := "POST"; pathname := "/worker-performance"; searchParams := [];
     authorization := None; json := Some p |}.

(** A row for workerW and today, as an admin would submit it. *)
Definition submitted : Store.PerformanceInsert :=
  {| Store.pi_id := None;
     Store.pi_wh_name := Some "A";
     Store.pi_date := Some (today env);
     Store.pi_username := Some "workerW";
     Store.pi_no_of_bins_counted := Some 7;
     Store.pi_no_of_qty_counted := Some 70;
     Store.pi_time_taken_minutes := Some 60;
     Store.pi_efficiency := Some 700;
     Store.pi_ranking := None |}.

(** [n] counts of ten units each, one after the other, on session ["s-1"]. *)
Fixpoint counts (n : nat) (db : DB) : DB :=
  match n with
  | O => db
  | S n' => fst (CountingDataFunction.handle env (count "s-1" "BIN001" 10 10) (counts n' db))
  end.

(** Three workers of warehouse A with efficiencies 5.00, 3.00 and 4.00. *)
Definition workerA := performance "p-a" "A" "workerA" 10 100 120 500 None.
Definition workerB := performance "p-b" "A" "workerB" 6 60 120 300 None.
Definition workerC := performance "p-c" "A" "workerC" 8 80 120 400 None.

Definition three_workers : DB :=
  with_performance [workerA; workerB; workerC] started.

Definition top_two : Request Store.PerformanceInsert :=
  get_performance "/worker-performance"
    [("date", today env); ("warehouse", "A"); ("limit", "2")].

End Sample.

(** ** Further library functions *)

Module JSMath.

(** [Math.floor] of a finite Number, as an integer. The dashboard applies
    it to a quotient of integers only; on NaN and the infinities this
    function answers 0. *)
Definition floor (x : JSNumber.number) : Z :=
  match x with
  | S754_finite s m e =>
      let sm := if s then Z.neg m else Z.pos m in
      if 0 <=? e then sm * 2 ^ e else sm / 2 ^ (- e)
  | _ => 0
  end.

(** [a % b] on integer values: the remainder has the sign of [a]. *)
Definition remainder (a b : Z) : Z := Z.rem a b.

End JSMath.

Module JSString.



(** [s.includes(sub)]: [sub] occurs in [s] at some position. *)
Fixpoint includes (s sub : string) : bool :=
  String.prefix sub s ||
  match s with
  | EmptyString => false
  | String _ s' => includes s' sub
  end.

(** [trim]: white space is taken off both ends (ASCII white space, as for
    [parseInt]). *)
Fixpoint trim_end (s : string) : string :=
  match s with
  | EmptyString => EmptyString
  | String c s' =>
      match trim_end s' with
      | EmptyString => if JSNumber.is_space c then EmptyString else String c EmptyString
      | t => String c t
      end
  end.

Definition trim (s : string) : string := trim_end (JSNumber.skip_space s).

End JSString.

(** ** The worker dashboard *)

Module WorkerDashboard.

(** [formatTime], on the whole number of minutes the statistics carry:
    [hours = Math.floor(minutes / 60)], [mins = minutes % 60], the hours
    being printed only when positive. *)
Definition formatTime (minutes : Z) : string :=
  let hours := JSMath.floor (JSNumber.div (JSNumber.of_int minutes) (JSNumber.of_int 60)) in
  let mins := JSMath.remainder minutes 60 in
  if 0 <? hours
  then JSNumber.to_string hours ++ "h " ++ JSNumber.to_string mins ++ "m"
  else JSNumber.to_string mins ++ "m".

End WorkerDashboard.

(** ** The counting screen *)

Module CountingInterface.

Record BinMaster := {
  bm_id : string;
  bm_bin_no : string;
  bm_warehouse_name : string;
  bm_qty_as_per_books : Z
}.

Record QuantityConfirmation := {
  qc_binNo : string;
  qc_quantity : Z;
  qc_show : bool
}.

(** The state variables of the component. *)
Record State := {
  session : option CountingSession;
  bins : list BinMaster;
  selectedBin : option BinMaster;
  quantity : string;
  searchTerm : string;
  confirmation : QuantityConfirmation;
  loading : bool;
  error : string
}.

Definition setError (e : string) (st : State) : State :=
  {| session := session st; bins := bins st; selectedBin := selectedBin st;
     quantity := quantity st; searchTerm := searchTerm st;
     confirmation := confirmation st; loading := loading st; error := e |}.

Definition setConfirmation (c : QuantityConfirmation) (st : State) : State :=
  {| session := session st; bins := bins st; selectedBin := selectedBin st;
     quantity := quantity st; searchTerm := searchTerm st;
     confirmation := c; loading := loading st; error := error st |}.

(** [handleQuantitySubmit]: nothing happens without a selected bin or with
    a blank quantity; a quantity that does not parse or is negative sets
    the error; otherwise the confirmation dialog is opened on the parsed
    quantity. *)
Definition handleQuantitySubmit (st : State) : State :=
  match selectedBin st with
  | None => st
  | Some bin =>
      if (JSString.trim (quantity st) =? "")%string then st
      else
        match JSNumber.parseInt (quantity st) with
        | None => setError "Please enter a valid quantity" st
        | Some qty =>
            if qty <? 0 then setError "Please enter a valid quantity" st
            else setConfirmation
                   {| qc_binNo := bm_bin_no bin; qc_quantity := qty; qc_show := true |} st
        end
  end.

(** The body [confirmQuantity] posts to [/counting-data]; there is none
    without a session or without a selected bin. *)
Definition counting_request (st : State) : option CountingDataFunction.CountBody :=
  match session st, selectedBin st with
  | Some s, Some bin =>
      Some {| CountingDataFunction.sessionId := s_id s;
              CountingDataFunction.binNo := bm_bin_no bin;
              CountingDataFunction.qtyCountedWorker := qc_quantity (confirmation st);
              CountingDataFunction.qtyAsPerBooks := bm_qty_as_per_books bin;
              CountingDataFunction.other_keys := [] |}
  | _, _ => None
  end.

(** The difference the confirmation dialog prints:
    [confirmation.quantity - (selectedBin?.qty_as_per_books || 0)]. *)
Definition shown_difference (st : State) : Z :=
  qc_quantity (confirmation st)
  - match selectedBin st with Some bin => bm_qty_as_per_books bin | None => 0 end.


End CountingInterface.

(** ** Further notions used by the properties *)

(** A path segment: a string without a slash. *)
Fixpoint no_slash (s : string) : bool :=
  match s with
  | EmptyString => true
  | String c s' => negb (Ascii.eqb c "/") && no_slash s'
  end.

(** ASCII text: every character is below 128. *)
Fixpoint ascii_text (s : string) : bool :=
  match s with
  | EmptyString => true
  | String c s' => (N_of_ascii c <? 128)%N && ascii_text s'
  end.

(** A calendar date written as the store prints it and as
    [toISOString().split('T')[0]] gives it: four digits of a year from 0001
    on, two of a month, two of a day of that month. *)
Definition is_digit (c : ascii) : bool :=
  let n := N_of_ascii c in ((48 <=? n) && (n <=? 57))%N.

Definition digit_of (c : ascii) : Z := Z.of_N (N_of_ascii c) - 48.

Definition leap_year (y : Z) : bool :=
  ((y mod 4 =? 0) && negb (y mod 100 =? 0)) || (y mod 400 =? 0).

Definition days_in_month (y m : Z) : Z :=
  if (m =? 2) then (if leap_year y then 29 else 28)
  else if (m =? 4) || (m =? 6) || (m =? 9) || (m =? 11) then 30
  else 31.

Definition iso_date (s : string) : bool :=
  match s with
  | String y1 (String y2 (String y3 (String y4 (String "-"
      (String m1 (String m2 (String "-" (String d1 (String d2 EmptyString))))))))) =>
      let y := ((digit_of y1 * 10 + digit_of y2) * 10 + digit_of y3) * 10 + digit_of y4 in
      let m := digit_of m1 * 10 + digit_of m2 in
      let d := digit_of d1 * 10 + digit_of d2 in
      forallb is_digit [y1; y2; y3; y4; m1; m2; d1; d2] &&
      (1 <=? y) && (1 <=? m) && (m <=? 12) && (1 <=? d) && (d <=? days_in_month y m)
  | _ => false
  end.

(** An id written as the store prints a uuid: lower-case hexadecimal
    digits in groups of 8, 4, 4, 4 and 12, with a hyphen between them. *)
Definition is_hex_lower (c : ascii) : bool :=
  let n := N_of_ascii c in
  (((48 <=? n) && (n <=? 57)) || ((97 <=? n) && (n <=? 102)))%N.

Fixpoint hex_run (n : nat) (s : string) : option string :=
  match n with
  | O => Some s
  | S n' =>
      match s with
      | String c s' => if is_hex_lower c then hex_run n' s' else None
      | EmptyString => None
      end
  end.

Definition hex_group (n : nat) (s : option string) : option string :=
  match s with
  | Some t =>
      match hex_run n t with
      | Some (String "-" t') => Some t'
      | _ => None
      end
  | None => None
  end.

Definition uuid_text (s : string) : bool :=
  match hex_group 4 (hex_group 4 (hex_group 4 (hex_group 8 (Some s)))) with
  | Some t =>
      match hex_run 12 t with
      | Some EmptyString => true
      | _ => false
      end
  | None => false
  end.

(** A parameter that is absent or empty, or meets a condition. *)
Definition absent_or (ok : string -> bool) (param : option string) : bool :=
  match truthy param with
  | Some x => ok x
  | None => true
  end.

(** Two performance rows that differ in their ranking at most. *)
Definition same_but_ranking (r r' : WorkerPerformance) : Prop :=
  wp_id r' = wp_id r /\ wh_name r' = wh_name r /\ date r' = date r /\
  username r' = username r /\ no_of_bins_counted r' = no_of_bins_counted r /\
  no_of_qty_counted r' = no_of_qty_counted r /\
  time_taken_minutes r' = time_taken_minutes r /\ efficiency r' = efficiency r /\
  wp_created_at r' = wp_created_at r.

(** A filter of the listing of counts: a parameter that is absent or empty
    lets every row through. *)
Definition passes (param : option string) (v : string) : bool :=
  match truthy param with
  | Some x => (v =? x)%string
  | None => true
  end.

Definition listed (req : Request CountingDataFunction.CountBody) (r : CountingData) : bool :=
  passes (get "sessionId" (searchParams req)) (session_id r) &&
  passes (get "workerId" (searchParams req)) (cd_username r) &&
  passes (get "date" (searchParams req)) (cd_date r).

Definition newest_first (a b : CountingData) : Prop := cd_created_at b <= cd_created_at a.

(** The audit entry of a count. *)
Definition count_entry (env : Env) (db : DB) (workerId binNo : string) (qty : Z) : AuditLog :=
  {| al_id := Store.fresh_id (map al_id (audit_logs db));
     al_user_id := Some workerId;
     action := "COUNT_BIN";
     details := "Counted bin " ++ binNo ++ ": " ++ JSNumber.to_string qty ++ " units";
     al_created_at := now env |}.

Definition zero_stats : Stats :=
  {| todayBins := 0; todayQuantity := 0; todayTime := 0;
     stats_efficiency := 0; stats_ranking := 0 |}.

(** A request with the given method and path, whatever else it carries. *)
Definition with_route {B : Type} (m path : string) (req : Request B) : Request B :=
  {| method := m;
     pathname := path;
     searchParams := searchParams req;
     authorization := authorization req;
     json := json req |}.

(** What the "update rankings in database" loop makes of one row: each
    item in turn whose rank fits the column and whose id is the row's sets
    the row's ranking (the store refuses the update of an item whose rank
    does not fit, and the loop goes on). *)
Definition set_ranking (rk : option Z) (r : WorkerPerformance) : WorkerPerformance :=
  {| wp_id := wp_id r; wh_name := wh_name r; date := date r; username := username r;
     no_of_bins_counted := no_of_bins_counted r;
     no_of_qty_counted := no_of_qty_counted r;
     time_taken_minutes := time_taken_minutes r;
     efficiency := efficiency r;
     ranking := rk;
     wp_created_at := wp_created_at r |}.

Definition rank_row (item r : WorkerPerformance) : WorkerPerformance :=
  if Store.performance_patch_ok (WorkerPerformanceFunction.ranking_patch (ranking item))
     && (wp_id r =? wp_id item)%string
  then Store.patch_performance (WorkerPerformanceFunction.ranking_patch (ranking item)) r
  else r.

Definition rank_rows (items : list WorkerPerformance) (r : WorkerPerformance)
  : WorkerPerformance :=
  fold_left (fun r item => rank_row item r) items r.

(** The ranking the loop leaves on a row of id [id] that had ranking [rk]. *)
Definition final_rank (items : list WorkerPerformance) (id : string) (rk : option Z)
  : option Z :=
  fold_left
    (fun rk item =>
       if Store.performance_patch_ok (WorkerPerformanceFunction.ranking_patch (ranking item))
          && (id =? wp_id item)%string
       then match ranking item with Some v => Some v | None => rk end
       else rk)
    items rk.

(** ** The login form *)

Module LoginForm.

(** The two fields of the form. *)
Record State := { userId : string; password : string }.

(** [handleSubmit]: the arguments [onLogin] is called with, if it is
    called: with both fields non-blank, the user id trimmed and the
    password as typed. *)
Definition handleSubmit (st : State) : option (string * string) :=
  if negb (JSString.trim (userId st) =? "")%string
     && negb (JSString.trim (password st) =? "")%string
  then Some (JSString.trim (userId st), password st)
  else None.

End LoginForm.

(** ** Sample data with ids as the store generates them *)

Module Registered.

Definition worker_uuid : string := "11111111-1111-4111-8111-111111111111".
Definition leader_uuid : string := "22222222-2222-4222-8222-222222222222".
Definition first_session : string := "33333333-3333-4333-8333-333333333333".
Definition second_session : string := "44444444-4444-4444-8444-444444444444".

Definition W : User :=
  {| u_id := worker_uuid; user_id := "workerW"; role := worker;
     u_warehouse_name := Some "A"; u_vendor_id := None;
     u_team_leader_id := Some leader_uuid; is_approved := true |}.

Definition T : User :=
  {| u_id := leader_uuid; user_id := "leaderT"; role := team_leader;
     u_warehouse_name := Some "A"; u_vendor_id := None;
     u_team_leader_id := None; is_approved := true |}.

(** A session of W under T that has ended, and the one that followed it. *)
Definition session_ended : CountingSession :=
  {| s_id := first_session; worker_id := worker_uuid; team_leader_id := leader_uuid;
     warehouse_name := "A"; start_time := now Sample.env - 7200000;
     end_time := Some (now Sample.env - 3600000); status := completed |}.

Definition session_running : CountingSession :=
  {| s_id := second_session; worker_id := worker_uuid; team_leader_id := leader_uuid;
     warehouse_name := "A"; start_time := now Sample.env; end_time := None;
     status := active |}.

Definition started : DB :=
  {| users := [W; T]; counting_sessions := [session_ended; session_running];
     counting_data := []; worker_performance := []; audit_logs := [] |}.

(** The store after a count on the first session and two on the second. *)
Definition three_counts : DB :=
  fst (CountingDataFunction.handle Sample.env (Sample.count second_session "BIN003" 7 7)
    (fst (CountingDataFunction.handle Sample.env (Sample.count first_session "BIN002" 5 5)
      (fst (CountingDataFunction.handle Sample.env (Sample.count second_session "BIN001" 10 12)
              started))))).

Definition get_counts (params : list (string * string))
  : Request CountingDataFunction.CountBody :=
  {| method := "GET"; pathname := "/counting-data"; searchParams := params;
     authorization := Some "Bearer token"; json := None |}.

End Registered.

(** * Properties *)

(** ** Sample evaluations *)

Example of_int_60000 :
  JSNumber.of_int 60000 = S754_finite false 8246337208320000 (-37).
Proof. reflexivity. Qed.

Example parseInt_samples :
  JSNumber.parseInt "50" = Some 50 /\ JSNumber.parseInt " -7px" = Some (-7) /\
  JSNumber.parseInt "0x1f" = Some 31 /\ JSNumber.parseInt "abc" = None /\
  JSNumber.to_string 90 = "90" /\ JSNumber.to_string 0 = "0" /\
  JSNumber.to_string (-3) = "-3".
Proof. repeat split; reflexivity. Qed.

Example split_today :
  split_slash "/worker-performance/today/w-1" = [""; "worker-performance"; "today"; "w-1"].
Proof. reflexivity. Qed.

(** ** Authorization (C10) and unresolved sessions (C4) *)


Lemma filter_nil_when {A : Type} (p : A -> bool) (l : list A) :
  (forall x, In x l -> p x = false) -> filter p l = [].
Proof.
  induction l as [|a l IH]; intros H; simpl; [reflexivity|].
  rewrite (H a (or_introl eq_refl)). apply IH. intros x Hx. apply H. now right.
Qed.

(** C10: a POST or GET to counting-data without an Authorization header is
    answered 401 [No authorization header] and the store is left as it was;
    worker-performance never looks at the header. *)
Theorem counting_data_requires_authorization :
  (forall env (req : Request CountingDataFunction.CountBody) db,
      (method req = "POST" \/ method req = "GET") ->
      authorization req = None ->
      CountingDataFunction.handle env req db
      = (db, error_response (text "No authorization header") 401))
  /\
  (forall env (req : Request Store.PerformanceInsert) db h1 h2,
      WorkerPerformanceFunction.handle env (with_authorization h1 req) db
      = WorkerPerformanceFunction.handle env (with_authorization h2 req) db).
Proof.
  split.
  - intros env req db Hm Hauth.
    unfold CountingDataFunction.handle, CountingDataFunction.serve.
    rewrite Hauth. destruct Hm as [Hm | Hm]; rewrite Hm; reflexivity.
  - intros env req db h1 h2. reflexivity.
Qed.

(** C4: an authorized POST whose sessionId matches no session is answered
    404 [Session not found], and nothing is written. *)
Theorem record_count_session_not_found :
  forall env (req : Request CountingDataFunction.CountBody) db b h,
    method req = "POST" ->
    authorization req = Some h -> h <> "" ->
    json req = Some b ->
    (forall s, In s (counting_sessions db) -> s_id s <> CountingDataFunction.sessionId b) ->
    CountingDataFunction.handle env req db
    = (db, error_response (text "Session not found") 404).
Proof.
  intros env req db b h Hm Hauth Hh Hjson Hnone.
  unfold CountingDataFunction.handle, CountingDataFunction.serve.
  rewrite Hm, Hauth, Hjson. simpl.
  destruct h as [|c h']; [contradiction|].
  unfold CountingDataFunction.record_count, run, bind, query.
  unfold CountingDataFunction.select_session.
  rewrite filter_nil_when; [reflexivity|].
  intros s Hs. apply String.eqb_neq. now apply Hnone.
Qed.

Lemma counting_data_requires_authorization_witness :
  CountingDataFunction.handle Sample.env
    (with_authorization None (Sample.count "s-1" "BIN001" 90 100)) Sample.started
  = (Sample.started, error_response (text "No authorization header") 401).
Proof.
  apply (proj1 counting_data_requires_authorization);
    [left; reflexivity | reflexivity].
Defined.

Lemma record_count_session_not_found_witness :
  CountingDataFunction.handle Sample.env (Sample.count "no-such-session" "BIN001" 90 100)
    Sample.started
  = (Sample.started, error_response (text "Session not found") 404).
Proof.
  eapply (record_count_session_not_found Sample.env
            (Sample.count "no-such-session" "BIN001" 90 100) Sample.started).
  - reflexivity.
  - reflexivity.
  - discriminate.
  - reflexivity.
  - simpl. intros s [<- | []]. discriminate.
Defined.

(** ** Today's statistics (C8) *)

(** A worker with two rows for today, of 3 and of 7 bins: the statistics of
    the day are all zeros, not a row of the worker. *)
Lemma two_rows_for_today_read_as_zeros :
  let db := Sample.with_performance
              [Sample.performance "p-1" "A" "workerW" 3 30 60 300 None;
               Sample.performance "p-2" "A" "workerW" 7 70 60 700 (Some 1)]
              Sample.started in
  Store.day_rows "workerW" (today Sample.env) db
  = [Sample.performance "p-1" "A" "workerW" 3 30 60 300 None;
     Sample.performance "p-2" "A" "workerW" 7 70 60 700 (Some 1)] /\
  WorkerPerformanceFunction.handle Sample.env
    (Sample.get_performance "/worker-performance/today/w-1" []) db
  = (db, json_response (stats_body
           {| todayBins := 0; todayQuantity := 0; todayTime := 0;
              stats_efficiency := 0; stats_ranking := 0 |})).
Proof. vm_compute. split; reflexivity. Qed.

(** C8, as amended: GET .../today/{workerId} never writes. For a worker
    id, written as a uuid, that the users table does not have it answers
    404 "User not found". For the id of a user it answers 200: with the figures of the worker's row
    for today when there is exactly one (a missing ranking reads 0), and
    with all-zero statistics when there is none and also when there are
    two or more. *)
Theorem get_today_single_row_or_zeros :
  forall env (req : Request Store.PerformanceInsert) db,
    method req = "GET" ->
    includes "today" (split_slash (pathname req)) = true ->
    let zeros := {| todayBins := 0; todayQuantity := 0; todayTime := 0;
                    stats_efficiency := 0; stats_ranking := 0 |} in
    (uuid_text (last (split_slash (pathname req)) "") = true ->
     Store.user_by_id (last (split_slash (pathname req)) "") db = None ->
     WorkerPerformanceFunction.handle env req db
     = (db, error_response (text "User not found") 404))
    /\
    (forall u,
        Store.user_by_id (last (split_slash (pathname req)) "") db = Some u ->
        (Store.day_rows (user_id u) (today env) db = [] ->
         WorkerPerformanceFunction.handle env req db
         = (db, json_response (stats_body zeros)))
        /\
        (forall r,
            Store.day_rows (user_id u) (today env) db = [r] ->
            WorkerPerformanceFunction.handle env req db
            = (db, json_response (stats_body
                     {| todayBins := no_of_bins_counted r;
                        todayQuantity := no_of_qty_counted r;
                        todayTime := time_taken_minutes r;
                        stats_efficiency := efficiency r;
                        stats_ranking :=
                          match ranking r with Some k => k | None => 0 end |})))
        /\
        (forall r1 r2 rest,
            Store.day_rows (user_id u) (today env) db = r1 :: r2 :: rest ->
            WorkerPerformanceFunction.handle env req db
            = (db, json_response (stats_body zeros)))).
Proof.
  intros env req db Hm Hpath zeros.
  unfold WorkerPerformanceFunction.handle, WorkerPerformanceFunction.serve.
  rewrite Hm, Hpath. simpl.
  unfold run, bind, query, leave, ret.
  split.
  - intros _ Hnone. rewrite Hnone. reflexivity.
  - intros u Huser. rewrite Huser.
    unfold WorkerPerformanceFunction.today_row.
    split; [|split].
    + intros H0. rewrite H0. reflexivity.
    + intros r H1. rewrite H1. reflexivity.
    + intros r1 r2 rest H2. rewrite H2. reflexivity.
Qed.

Lemma get_today_single_row_or_zeros_witness :
  WorkerPerformanceFunction.handle Sample.env
    (Sample.get_performance "/worker-performance/today/w-1" [])
    (Sample.with_performance
       [Sample.performance "p-1" "A" "workerW" 3 30 60 300 None] Sample.started)
  = (Sample.with_performance
       [Sample.performance "p-1" "A" "workerW" 3 30 60 300 None] Sample.started,
     json_response (stats_body
       {| todayBins := 3; todayQuantity := 30; todayTime := 60;
          stats_efficiency := 300; stats_ranking := 0 |}))
  /\
  WorkerPerformanceFunction.handle Sample.env
    (Sample.get_performance "/worker-performance/today/w-1" []) Sample.started
  = (Sample.started, json_response (stats_body
       {| todayBins := 0; todayQuantity := 0; todayTime := 0;
          stats_efficiency := 0; stats_ranking := 0 |})).
Proof.
  split.
  - apply (proj1 (proj2 (proj2 (get_today_single_row_or_zeros Sample.env
             (Sample.get_performance "/worker-performance/today/w-1" [])
             (Sample.with_performance
                [Sample.performance "p-1" "A" "workerW" 3 30 60 300 None] Sample.started)
             eq_refl eq_refl) Sample.W eq_refl))
             (Sample.performance "p-1" "A" "workerW" 3 30 60 300 None)).
    reflexivity.
  - apply (proj1 (proj2 (get_today_single_row_or_zeros Sample.env
             (Sample.get_performance "/worker-performance/today/w-1" [])
             Sample.started eq_refl eq_refl) Sample.W eq_refl)).
    reflexivity.
Defined.

(** ** Submitting a performance row (C9) *)

Lemma string_length_append (s1 s2 : string) :
  String.length (s1 ++ s2) = (String.length s1 + String.length s2)%nat.
Proof.
  induction s1 as [|c s1 IH]; simpl; [reflexivity|]. now rewrite IH.
Qed.

Lemma fresh_id_longer (ids : list string) (x : string) :
  In x ids -> (String.length x < String.length (Store.fresh_id ids))%nat.
Proof.
  unfold Store.fresh_id.
  induction ids as [|a ids IH]; simpl; [contradiction|].
  intros [-> | Hx].
  - rewrite string_length_append. simpl.
    assert (0 < String.length (fold_right append "0" ids))%nat.
    { clear. induction ids as [|b ids IH]; simpl; [lia|].
      rewrite string_length_append. lia. }
    lia.
  - specialize (IH Hx). rewrite string_length_append. lia.
Qed.

Lemma fresh_id_fresh (ids : list string) : ~ In (Store.fresh_id ids) ids.
Proof.
  intros H. apply fresh_id_longer in H. lia.
Qed.

(** POST /worker-performance with an existing (username, date): the row that
    was there stays as it was and a second row for the pair is stored. *)
Lemma post_performance_stores_a_second_row :
  let db := Sample.with_performance
              [Sample.performance "p-1" "A" "workerW" 3 30 60 300 None] Sample.started in
  let '(db', response) :=
    WorkerPerformanceFunction.handle Sample.env
      (Sample.post_performance Sample.submitted) db in
  http_status response = 200 /\
  Store.day_rows "workerW" (today Sample.env) db
  = [Sample.performance "p-1" "A" "workerW" 3 30 60 300 None] /\
  Store.day_rows "workerW" (today Sample.env) db'
  = [Sample.performance "p-1" "A" "workerW" 3 30 60 300 None;
     {| wp_id := "p-10"; wh_name := "A"; date := today Sample.env;
        username := "workerW"; no_of_bins_counted := 7; no_of_qty_counted := 70;
        time_taken_minutes := 60; efficiency := 700; ranking := None;
        wp_created_at := now Sample.env |}].
Proof. vm_compute. repeat split. Qed.

(** C9, as amended: POST /worker-performance is a plain insert. For a
    body whose id, when it names one, is written as a uuid and whose date,
    when it names one, is a calendar date: the request is answered 200
    exactly when the body names a warehouse and a username, names no id in
    use, and its numbers fit their columns. Then the table is the former
    table followed by the new row (under a new id when the body names none,
    for today when it names no date, with 0 for the numbers it leaves out),
    whatever rows the same (username, date) already has; otherwise the
    answer is 400 and nothing changes. *)
Theorem post_performance_inserts :
  forall env (req : Request Store.PerformanceInsert) db p,
    method req = "POST" ->
    json req = Some p ->
    (forall i, Store.pi_id p = Some i -> uuid_text i = true) ->
    (forall d, Store.pi_date p = Some d -> iso_date d = true) ->
    let accepted :=
      (exists wh, Store.pi_wh_name p = Some wh) /\
      (exists un, Store.pi_username p = Some un) /\
      (forall i, Store.pi_id p = Some i -> ~ In i (map wp_id (worker_performance db))) /\
      Store.value_ok Store.int4 (Store.pi_no_of_bins_counted p) = true /\
      Store.value_ok Store.int4 (Store.pi_no_of_qty_counted p) = true /\
      Store.value_ok Store.int4 (Store.pi_time_taken_minutes p) = true /\
      Store.value_ok Store.dec52 (Store.pi_efficiency p) = true /\
      Store.value_ok Store.int4 (Store.pi_ranking p) = true in
    (http_status (snd (WorkerPerformanceFunction.handle env req db)) = 200 <-> accepted)
    /\
    (accepted ->
     exists r,
       WorkerPerformanceFunction.handle env req db
       = (Store.set_worker_performance (worker_performance db ++ [r]) db,
          json_response (performance_body r)) /\
       Store.pi_wh_name p = Some (wh_name r) /\
       Store.pi_username p = Some (username r) /\
       date r = Store.or_else (Store.pi_date p) (today env) /\
       no_of_bins_counted r = Store.or_else (Store.pi_no_of_bins_counted p) 0 /\
       no_of_qty_counted r = Store.or_else (Store.pi_no_of_qty_counted p) 0 /\
       time_taken_minutes r = Store.or_else (Store.pi_time_taken_minutes p) 0 /\
       efficiency r = Store.or_else (Store.pi_efficiency p) 0 /\
       ranking r = Store.pi_ranking p /\
       (forall i, Store.pi_id p = Some i -> wp_id r = i) /\
       ~ In (wp_id r) (map wp_id (worker_performance db)))
    /\
    (~ accepted ->
     exists e,
       WorkerPerformanceFunction.handle env req db
       = (db, error_response (store_error e) 400)).
Proof.
  intros env req db p Hm Hjson _ _ accepted.
  assert (Hrun :
    (accepted /\
     exists r,
       WorkerPerformanceFunction.handle env req db
       = (Store.set_worker_performance (worker_performance db ++ [r]) db,
          json_response (performance_body r)) /\
       Store.pi_wh_name p = Some (wh_name r) /\
       Store.pi_username p = Some (username r) /\
       date r = Store.or_else (Store.pi_date p) (today env) /\
       no_of_bins_counted r = Store.or_else (Store.pi_no_of_bins_counted p) 0 /\
       no_of_qty_counted r = Store.or_else (Store.pi_no_of_qty_counted p) 0 /\
       time_taken_minutes r = Store.or_else (Store.pi_time_taken_minutes p) 0 /\
       efficiency r = Store.or_else (Store.pi_efficiency p) 0 /\
       ranking r = Store.pi_ranking p /\
       (forall i, Store.pi_id p = Some i -> wp_id r = i) /\
       ~ In (wp_id r) (map wp_id (worker_performance db)))
    \/
    (~ accepted /\
     exists e,
       WorkerPerformanceFunction.handle env req db
       = (db, error_response (store_error e) 400))).
  { subst accepted.
    unfold WorkerPerformanceFunction.handle, WorkerPerformanceFunction.serve.
    rewrite Hm, Hjson. simpl.
    unfold run, bind, exec, leave, ret, Store.insert_worker_performance.
    destruct (Store.pi_wh_name p) as [wh|];
      [|right; split; [intros ([wh H] & _); discriminate | eexists; reflexivity]].
    destruct (Store.pi_username p) as [un|];
      [|right; split; [intros (_ & [un H] & _); discriminate | eexists; reflexivity]].
    match goal with |- context [existsb ?f ?l] => destruct (existsb f l) eqn:Hdup end.
    { right. split; [|eexists; reflexivity].
      intros (_ & _ & Hid & _).
      apply existsb_exists in Hdup. destruct Hdup as (x & Hx & E).
      apply String.eqb_eq in E. simpl in E.
      destruct (Store.pi_id p) as [i|]; simpl in E.
      - apply (Hid i eq_refl). now rewrite E.
      - apply (fresh_id_fresh (map wp_id (worker_performance db))). now rewrite E. }
    assert (Hfree : forall x, In x (map wp_id (worker_performance db)) ->
                              x <> Store.or_else (Store.pi_id p)
                                     (Store.fresh_id (map wp_id (worker_performance db)))).
    { intros x Hx E. apply Bool.not_true_iff_false in Hdup. apply Hdup.
      apply existsb_exists. exists x. split; [exact Hx|]. simpl.
      apply String.eqb_eq. now symmetry. }
    match goal with |- context [Store.performance_row_ok ?r] =>
      destruct (Store.performance_row_ok r) eqn:Hok end.
    - left. unfold Store.performance_row_ok in Hok. simpl in Hok.
      rewrite !Bool.andb_true_iff in Hok.
      destruct Hok as ((((Hb & Hq) & Ht) & He) & Hr).
      assert (Hv : forall ok v, ok (Store.or_else v 0) = true ->
                                Store.value_ok ok v = true).
      { intros ok [z|] H; exact H || reflexivity. }
      split.
      + split; [now exists wh|]. split; [now exists un|]. split.
        * intros i Hi Hin. apply (Hfree i Hin). rewrite Hi. reflexivity.
        * repeat split; try (apply Hv; assumption).
          destruct (Store.pi_ranking p); [exact Hr | reflexivity].
      + eexists. split; [reflexivity|]. simpl. repeat split.
        * intros i Hi. rewrite Hi. reflexivity.
        * intros Hin. exact (Hfree _ Hin eq_refl).
    - right. split; [|eexists; reflexivity].
      intros (_ & _ & _ & Hb & Hq & Ht & He & Hr).
      apply Bool.not_true_iff_false in Hok. apply Hok.
      unfold Store.performance_row_ok. simpl.
      assert (Hv : forall ok v, ok 0 = true -> Store.value_ok ok v = true ->
                                ok (Store.or_else v 0) = true).
      { intros ok [z|] H0 H; [exact H | exact H0]. }
      rewrite (Hv _ _ eq_refl Hb), (Hv _ _ eq_refl Hq), (Hv _ _ eq_refl Ht),
        (Hv _ _ eq_refl He). simpl.
      destruct (Store.pi_ranking p); [exact Hr | reflexivity]. }
  split; [|split].
  - destruct Hrun as [(Hacc & r & -> & _) | (Hnot & e & ->)]; simpl.
    + split; [intros _; exact Hacc | reflexivity].
    + split; [discriminate | intros H; contradiction].
  - intros Hacc. destruct Hrun as [(_ & H) | (Hnot & _)]; [exact H | contradiction].
  - intros Hnot. destruct Hrun as [(Hacc & _) | (_ & H)]; [contradiction | exact H].
Qed.

Lemma post_performance_inserts_witness :
  exists r,
    WorkerPerformanceFunction.handle Sample.env
      (Sample.post_performance Sample.submitted)
      (Sample.with_performance
         [Sample.performance "p-1" "A" "workerW" 3 30 60 300 None] Sample.started)
    = (Store.set_worker_performance
         ([Sample.performance "p-1" "A" "workerW" 3 30 60 300 None] ++ [r])
         (Sample.with_performance
            [Sample.performance "p-1" "A" "workerW" 3 30 60 300 None] Sample.started),
       json_response (performance_body r)) /\
    username r = "workerW" /\ date r = today Sample.env /\ no_of_bins_counted r = 7.
Proof.
  destruct (proj1 (proj2 (post_performance_inserts Sample.env
              (Sample.post_performance Sample.submitted)
              (Sample.with_performance
                 [Sample.performance "p-1" "A" "workerW" 3 30 60 300 None] Sample.started)
              Sample.submitted eq_refl eq_refl
              ltac:(intros i H; discriminate)
              ltac:(intros d H; injection H as <-; reflexivity))))
    as (r & Hh & _ & Hun & Hd & Hb & _).
  - split; [now exists "A"|]. split; [now exists "workerW"|].
    split; [intros i H; discriminate|]. repeat split.
  - exists r. split; [exact Hh|]. simpl in Hun, Hd, Hb.
    split; [now injection Hun as <-|]. split; assumption.
Defined.

(** ** How a POST to counting-data runs *)

Lemma insert_counting_data_inr env p db r db1 :
  Store.insert_counting_data env p db = inr (r, db1) ->
  Store.ci_difference p = None /\
  qty_counted r = Store.ci_qty_counted p /\
  qty_recounted_tl r = Store.ci_qty_recounted_tl p /\
  qty_as_per_books r = Store.ci_qty_as_per_books p /\
  difference_recomputed r /\
  Store.counting_row_ok r = true /\
  counting_data db1 = (counting_data db ++ [r])%list /\
  users db1 = users db /\ counting_sessions db1 = counting_sessions db /\
  worker_performance db1 = worker_performance db /\ audit_logs db1 = audit_logs db.
Proof.
  unfold Store.insert_counting_data.
  destruct (Store.ci_difference p); [discriminate|].
  destruct (negb _); [discriminate|].
  match goal with |- context [Store.counting_row_ok ?x] =>
    destruct (Store.counting_row_ok x) eqn:Hok end; [|discriminate].
  intros H. injection H as <- <-. simpl. repeat split. exact Hok.
Qed.

Lemma update_performance_runs env s w q db :
  exists db',
    CountingDataFunction.update_performance env s w q db = (db', inr tt) /\
    users db' = users db /\ counting_sessions db' = counting_sessions db /\
    counting_data db' = counting_data db /\ audit_logs db' = audit_logs db.
Proof.
  unfold CountingDataFunction.update_performance, bind, query, exec0, exec, ret.
  destruct (WorkerPerformanceFunction.today_row (user_id w) (today env) db) as [p|].
  - unfold Store.update_worker_performance.
    destruct (Store.performance_patch_ok _); eexists; (split; [reflexivity|]);
      repeat split.
  - destruct (Store.insert_worker_performance env _ db) as [e|[r db1]] eqn:Hins;
      eexists; (split; [reflexivity|]); repeat split.
    all: unfold Store.insert_worker_performance in Hins; simpl in Hins.
    all: destruct (existsb _ _); [discriminate|].
    all: destruct (Store.performance_row_ok _); [|discriminate].
    all: injection Hins as _ <-; reflexivity.
Qed.

Lemma audit_count_runs env s b db :
  exists db',
    CountingDataFunction.audit_count env s b db = (db', inr tt) /\
    users db' = users db /\ counting_sessions db' = counting_sessions db /\
    counting_data db' = counting_data db /\
    worker_performance db' = worker_performance db.
Proof.
  unfold CountingDataFunction.audit_count, bind, exec0, ret, Store.insert_audit_log.
  destruct (negb _); eexists; (split; [reflexivity|]); repeat split.
Qed.

(** Unfolds the handler combinators down to the store operations. *)
Ltac run_handler :=
  unfold run, bind, query, exec, exec0, leave, throw, ret.

(** Closes the branch of a case analysis in which the request is answered
    with an error and the store it was given. *)
Ltac turned_down := left; do 2 eexists; split; [reflexivity | discriminate].

(** A POST body either is turned down with the store untouched, or goes
    through the three writes in turn. *)
Lemma record_count_cases env b db :
  (exists m code,
      run (CountingDataFunction.record_count env b) db = (db, error_response m code) /\
      code <> 200)
  \/
  (exists sd tl w r db1 db2 db3,
      CountingDataFunction.select_session (CountingDataFunction.sessionId b) db = Some sd /\
      CountingDataFunction.sd_team_leader sd = Some tl /\
      CountingDataFunction.sd_worker sd = Some w /\
      Store.insert_counting_data env
        (CountingDataFunction.counting_insert (CountingDataFunction.session sd) tl w b) db
      = inr (r, db1) /\
      CountingDataFunction.update_performance env (CountingDataFunction.session sd) w
        (CountingDataFunction.qtyCountedWorker b) db1 = (db2, inr tt) /\
      CountingDataFunction.audit_count env (CountingDataFunction.session sd) b db2
      = (db3, inr tt) /\
      run (CountingDataFunction.record_count env b) db
      = (db3, json_response (counting_body r))).
Proof.
  destruct (CountingDataFunction.select_session (CountingDataFunction.sessionId b) db)
    as [sd|] eqn:Hsd.
  2:{ unfold CountingDataFunction.record_count. run_handler. rewrite Hsd. turned_down. }
  destruct (CountingDataFunction.sd_team_leader sd) as [tl|] eqn:Htl.
  2:{ unfold CountingDataFunction.record_count. run_handler. rewrite Hsd, Htl.
      turned_down. }
  destruct (CountingDataFunction.sd_worker sd) as [w|] eqn:Hw.
  2:{ unfold CountingDataFunction.record_count. run_handler. rewrite Hsd, Htl, Hw.
      turned_down. }
  destruct (Store.insert_counting_data env
              (CountingDataFunction.counting_insert (CountingDataFunction.session sd) tl w b)
              db) as [e|[r db1]] eqn:Hins.
  { unfold CountingDataFunction.record_count. run_handler. rewrite Hsd, Htl, Hw, Hins.
    turned_down. }
  right.
  destruct (update_performance_runs env (CountingDataFunction.session sd) w
              (CountingDataFunction.qtyCountedWorker b) db1) as (db2 & H2 & _).
  destruct (audit_count_runs env (CountingDataFunction.session sd) b db2)
    as (db3 & H3 & _).
  exists sd, tl, w, r, db1, db2, db3.
  repeat (split; [first [reflexivity | eassumption]|]).
  unfold CountingDataFunction.record_count, run, bind, query, exec.
  rewrite Hsd, Htl, Hw, Hins, H2, H3. reflexivity.
Qed.

(** Whatever the request, counting-data either answers without writing, or
    it is an authorized POST with a JSON body and runs [record_count]. *)
Lemma counting_data_cases env (req : Request CountingDataFunction.CountBody) db :
  (exists response, CountingDataFunction.handle env req db = (db, response) /\
     forall r, body response <> counting_body r)
  \/
  (exists b, json req = Some b /\ method req = "POST" /\
     CountingDataFunction.handle env req db
     = run (CountingDataFunction.record_count env b) db).
Proof.
  unfold CountingDataFunction.handle, CountingDataFunction.serve.
  destruct (method req =? "OPTIONS")%string eqn:Ho;
    [left; eexists; split; [reflexivity|discriminate]|].
  destruct (truthy (authorization req));
    [|left; eexists; split; [reflexivity|discriminate]].
  destruct (method req =? "POST")%string eqn:Hp.
  - apply String.eqb_eq in Hp.
    destruct (json req) as [b|];
      [right; exists b; repeat split; assumption
      |left; eexists; split; [reflexivity|discriminate]].
  - destruct (method req =? "GET")%string;
      [|left; eexists; split; [reflexivity|discriminate]].
    left. unfold CountingDataFunction.list_counts, run, bind, query,
      Store.select_counting_data.
    eexists; split; [reflexivity|discriminate].
Qed.

(** ** The difference of a counting record (C1) *)

Lemma patch_counting_recomputed p r : difference_recomputed (Store.patch_counting p r).
Proof. reflexivity. Qed.

Lemma update_counting_data_inr id p db db' :
  Store.update_counting_data id p db = inr db' ->
  Store.cp_difference p = None /\
  counting_data db'
  = map (fun r => if (cd_id r =? id)%string then Store.patch_counting p r else r)
        (counting_data db).
Proof.
  unfold Store.update_counting_data.
  destruct (Store.cp_difference p); [discriminate|].
  match goal with |- context [if ?c then _ else _] => destruct c end; [|discriminate].
  intros H. injection H as <-. split; reflexivity.
Qed.

Lemma handle_counting_data_rows env (req : Request CountingDataFunction.CountBody) db :
  counting_data (fst (CountingDataFunction.handle env req db)) = counting_data db
  \/ exists r, difference_recomputed r /\
       counting_data (fst (CountingDataFunction.handle env req db))
       = (counting_data db ++ [r])%list.
Proof.
  destruct (counting_data_cases env req db) as [(resp & -> & _) | (b & _ & _ & ->)];
    [left; reflexivity|].
  destruct (record_count_cases env b db)
    as [(m & code & -> & _) | (sd & tl & w & r & db1 & db2 & db3 & _ & _ & _ & Hins & H2 & H3 & ->)];
    [left; reflexivity|].
  right. exists r.
  apply insert_counting_data_inr in Hins.
  destruct Hins as (_ & _ & _ & _ & Hr & _ & Hrows & _).
  destruct (update_performance_runs env (CountingDataFunction.session sd) w
              (CountingDataFunction.qtyCountedWorker b) db1) as (x & Hx & _ & _ & Hcd2 & _).
  rewrite H2 in Hx. injection Hx as <-.
  destruct (audit_count_runs env (CountingDataFunction.session sd) b db2)
    as (y & Hy & _ & _ & Hcd3 & _).
  rewrite H3 in Hy. injection Hy as <-.
  split; [exact Hr|]. simpl. congruence.
Qed.

(** C1: the record a POST produces is stored with
    [difference = COALESCE(qty_recounted_tl, qty_counted) - qty_as_per_books],
    here the counted quantity minus the book quantity of the request; every
    stored record keeps satisfying the equation across requests and across
    updates of the table such as a team leader's recount; further keys in
    the request body change nothing, and an INSERT or UPDATE that names the
    column is refused by the store. *)
Theorem difference_always_recomputed :
  (forall env (req : Request CountingDataFunction.CountBody) db db' response r,
      CountingDataFunction.handle env req db = (db', response) ->
      body response = counting_body r ->
      In r (counting_data db') /\
      difference_recomputed r /\
      exists b, json req = Some b /\
        difference r
        = CountingDataFunction.qtyCountedWorker b - CountingDataFunction.qtyAsPerBooks b)
  /\
  (forall env (req : Request CountingDataFunction.CountBody) db,
      Forall difference_recomputed (counting_data db) ->
      Forall difference_recomputed
             (counting_data (fst (CountingDataFunction.handle env req db))))
  /\
  (forall env (req : Request CountingDataFunction.CountBody) db keys,
      CountingDataFunction.handle env (with_other_keys keys req) db
      = CountingDataFunction.handle env req db)
  /\
  (forall env p db d,
      Store.ci_difference p = Some d ->
      Store.insert_counting_data env p db = inl (Store.generated_column "difference"))
  /\
  (forall id p db d,
      Store.cp_difference p = Some d ->
      Store.update_counting_data id p db = inl (Store.generated_column "difference"))
  /\
  (forall id p db db',
      Store.update_counting_data id p db = inr db' ->
      Forall difference_recomputed (counting_data db) ->
      Forall difference_recomputed (counting_data db'))
  /\
  (forall id v db db' r,
      Store.update_counting_data id (recount_patch v) db = inr db' ->
      In r (counting_data db) -> cd_id r = id ->
      exists r', In r' (counting_data db') /\ cd_id r' = id /\
                 qty_recounted_tl r' = Some v /\
                 difference r' = v - qty_as_per_books r).
Proof.
  repeat apply conj.
  - intros env req db db' response r Hh Hbody.
    destruct (counting_data_cases env req db) as [(resp & H1 & Hno) | (b & Hjson & _ & H1)].
    { rewrite Hh in H1. injection H1 as <- <-. now apply Hno in Hbody. }
    rewrite H1 in Hh.
    destruct (record_count_cases env b db)
      as [(m & code & H2 & Hne) | (sd & tl & w & r0 & db1 & db2 & db3 & _ & _ & _ & Hins & H2 & H3 & H4)].
    { rewrite Hh in H2. injection H2 as <- ->. discriminate Hbody. }
    rewrite Hh in H4. injection H4 as -> ->. simpl in Hbody. injection Hbody as <-.
    apply insert_counting_data_inr in Hins.
    destruct Hins as (_ & Hc & Hrc & Hb & Hr & _ & Hrows & _).
    destruct (update_performance_runs env (CountingDataFunction.session sd) w
                (CountingDataFunction.qtyCountedWorker b) db1) as (x & Hx & _ & _ & Hcd2 & _).
    rewrite H2 in Hx. injection Hx as <-.
    destruct (audit_count_runs env (CountingDataFunction.session sd) b db2)
      as (y & Hy & _ & _ & Hcd3 & _).
    rewrite H3 in Hy. injection Hy as <-.
    split; [|split; [exact Hr|]].
    + rewrite Hcd3, Hcd2, Hrows. apply in_or_app. right. now left.
    + exists b. split; [exact Hjson|].
      rewrite Hr, Hrc, Hc, Hb. reflexivity.
  - intros env req db Hall.
    destruct (handle_counting_data_rows env req db) as [-> | (r & Hr & ->)];
      [exact Hall|].
    apply Forall_app. split; [exact Hall|]. now constructor.
  - intros env req db keys.
    unfold CountingDataFunction.handle, CountingDataFunction.serve, with_other_keys.
    simpl. destruct (json req) as [b|]; reflexivity.
  - intros env p db d H. unfold Store.insert_counting_data. now rewrite H.
  - intros id p db d H. unfold Store.update_counting_data. now rewrite H.
  - intros id p db db' Hup Hall.
    apply update_counting_data_inr in Hup. destruct Hup as [_ ->].
    apply Forall_map. eapply Forall_impl; [|exact Hall].
    intros r Hr. simpl. destruct (cd_id r =? id)%string;
      [apply patch_counting_recomputed | exact Hr].
  - intros id v db db' r Hup Hin Hid.
    apply update_counting_data_inr in Hup. destruct Hup as [_ ->].
    exists (Store.patch_counting (recount_patch v) r).
    split; [|repeat split; exact Hid].
    apply in_map_iff. exists r. split; [|exact Hin].
    apply String.eqb_eq in Hid. now rewrite Hid.
Qed.

Lemma difference_always_recomputed_witness :
  let '(db', response) :=
    CountingDataFunction.handle Sample.env (Sample.count "s-1" "BIN001" 90 100)
      Sample.started in
  exists r, body response = counting_body r /\ In r (counting_data db') /\
            difference r = -10.
Proof.
  pose proof (proj1 difference_always_recomputed Sample.env
                (Sample.count "s-1" "BIN001" 90 100) Sample.started) as H.
  destruct (CountingDataFunction.handle Sample.env (Sample.count "s-1" "BIN001" 90 100)
              Sample.started) as [db' response] eqn:E.
  vm_compute in E. injection E as <- <-.
  eexists. split; [reflexivity|].
  destruct (H _ _ _ eq_refl eq_refl) as (Hin & _ & b & Hb & Hd).
  split; [exact Hin|]. injection Hb as <-. exact Hd.
Defined.

(** ** The per-day aggregate (C5, C7) *)

Lemma filter_map_same {A : Type} (p : A -> bool) (f : A -> A) (l : list A) :
  (forall x, p (f x) = p x) -> filter p (map f l) = map f (filter p l).
Proof.
  intros H. induction l as [|a l IH]; simpl; [reflexivity|].
  rewrite H. destruct (p a); simpl; now rewrite IH.
Qed.

Lemma filter_single_in {A : Type} (p : A -> bool) (l : list A) (x : A) :
  filter p l = [x] -> In x l /\ p x = true.
Proof.
  intros H. apply filter_In. rewrite H. now left.
Qed.

Lemma totals_fit_patch_ok s existing q :
  totals_fit s existing q = true ->
  let bins := CountingDataFunction.existing_or_0 existing no_of_bins_counted + 1 in
  let t := CountingDataFunction.time_taken s existing in
  Store.performance_patch_ok
    {| Store.pp_no_of_bins_counted := Some bins;
       Store.pp_no_of_qty_counted :=
         Some (CountingDataFunction.existing_or_0 existing no_of_qty_counted + q);
       Store.pp_time_taken_minutes := Some t;
       Store.pp_efficiency := Some (CountingDataFunction.efficiency_of bins t);
       Store.pp_ranking := None |} = true.
Proof.
  unfold totals_fit, Store.performance_patch_ok. simpl.
  intros H. rewrite H. reflexivity.
Qed.

(** The worker has one row for the day and the new totals fit: the row gets
    them. *)
Lemma update_performance_existing env s w q db p :
  Store.day_rows (user_id w) (today env) db = [p] ->
  totals_fit s (Some p) q = true ->
  exists db',
    CountingDataFunction.update_performance env s w q db = (db', inr tt) /\
    Store.day_rows (user_id w) (today env) db' = [row_after_count s p q].
Proof.
  intros Hrows Hfit.
  unfold CountingDataFunction.update_performance, bind, query, exec0, ret.
  unfold WorkerPerformanceFunction.today_row. rewrite Hrows.
  change (Store.single [p]) with (Some p). cbv beta iota.
  unfold Store.update_worker_performance.
  rewrite (totals_fit_patch_ok s (Some p) q Hfit).
  eexists. split; [reflexivity|].
  unfold Store.day_rows in *. simpl worker_performance.
  rewrite filter_map_same.
  - rewrite Hrows. simpl. rewrite String.eqb_refl. reflexivity.
  - intros x. destruct (wp_id x =? wp_id p)%string; reflexivity.
Qed.

(** The worker has one row for the day and the new totals do not fit: the
    unchecked update is refused and the table stays as it was. *)
Lemma update_performance_refused env s w q db p :
  Store.day_rows (user_id w) (today env) db = [p] ->
  totals_fit s (Some p) q = false ->
  CountingDataFunction.update_performance env s w q db = (db, inr tt).
Proof.
  intros Hrows Hfit.
  unfold CountingDataFunction.update_performance, bind, query, exec0, ret.
  unfold WorkerPerformanceFunction.today_row. rewrite Hrows.
  change (Store.single [p]) with (Some p). cbv beta iota.
  unfold Store.update_worker_performance.
  replace (Store.performance_patch_ok _) with false; [reflexivity|].
  symmetry. unfold totals_fit in Hfit. unfold Store.performance_patch_ok. simpl.
  simpl in Hfit. rewrite Hfit. reflexivity.
Qed.

(** The worker has no row for the day and the totals fit: a row is created
    from zero. *)
Lemma update_performance_first env s w q db :
  Store.day_rows (user_id w) (today env) db = [] ->
  totals_fit s None q = true ->
  exists db',
    CountingDataFunction.update_performance env s w q db = (db', inr tt) /\
    Store.day_rows (user_id w) (today env) db' = [row_of_first_count env s w q db].
Proof.
  intros Hrows Hfit.
  unfold CountingDataFunction.update_performance, bind, query, exec0, exec, ret.
  unfold WorkerPerformanceFunction.today_row. rewrite Hrows.
  change (Store.single (@nil WorkerPerformance)) with (@None WorkerPerformance).
  cbv beta iota.
  unfold Store.insert_worker_performance. simpl.
  replace (existsb _ _) with false.
  2:{ symmetry. apply Bool.not_true_iff_false. intros H.
      apply existsb_exists in H. destruct H as (x & Hx & Heq).
      apply String.eqb_eq in Heq. subst x. now apply fresh_id_fresh in Hx. }
  unfold totals_fit in Hfit. simpl in Hfit.
  unfold Store.performance_row_ok. simpl. rewrite Hfit. simpl.
  eexists. split; [reflexivity|].
  unfold Store.day_rows in *. simpl. rewrite filter_app, Hrows. simpl.
  now rewrite !String.eqb_refl.
Qed.

Lemma update_performance_first_refused env s w q db :
  Store.day_rows (user_id w) (today env) db = [] ->
  totals_fit s None q = false ->
  CountingDataFunction.update_performance env s w q db = (db, inr tt).
Proof.
  intros Hrows Hfit.
  unfold CountingDataFunction.update_performance, bind, query, exec0, exec, ret.
  unfold WorkerPerformanceFunction.today_row. rewrite Hrows.
  change (Store.single (@nil WorkerPerformance)) with (@None WorkerPerformance).
  cbv beta iota.
  unfold Store.insert_worker_performance. simpl.
  destruct (existsb _ _); [reflexivity|].
  unfold totals_fit in Hfit. simpl in Hfit.
  unfold Store.performance_row_ok. simpl. rewrite Hfit. reflexivity.
Qed.

Lemma day_rows_ext un d db1 db2 :
  worker_performance db1 = worker_performance db2 ->
  Store.day_rows un d db1 = Store.day_rows un d db2.
Proof. unfold Store.day_rows. now intros ->. Qed.

(** A POST answered 200 went through [record_count]: the session resolved,
    the counting record was stored, then the aggregate step ran on the
    table of performance rows as it was before the request. *)
Lemma counting_post_ok env (req : Request CountingDataFunction.CountBody) db db' response b :
  method req = "POST" -> json req = Some b ->
  CountingDataFunction.handle env req db = (db', response) ->
  http_status response = 200 ->
  exists sd tl w db1 db2,
    CountingDataFunction.select_session (CountingDataFunction.sessionId b) db = Some sd /\
    CountingDataFunction.sd_team_leader sd = Some tl /\
    CountingDataFunction.sd_worker sd = Some w /\
    worker_performance db1 = worker_performance db /\
    CountingDataFunction.update_performance env (CountingDataFunction.session sd) w
      (CountingDataFunction.qtyCountedWorker b) db1 = (db2, inr tt) /\
    worker_performance db' = worker_performance db2.
Proof.
  intros Hm Hjson Hh Hok.
  assert (Hrun : CountingDataFunction.handle env req db
                 = run (CountingDataFunction.record_count env b) db
                 \/ exists m code, code <> 200 /\
                      CountingDataFunction.handle env req db = (db, error_response m code)).
  { unfold CountingDataFunction.handle, CountingDataFunction.serve.
    rewrite Hm, Hjson. simpl.
    destruct (truthy (authorization req)); [left; reflexivity|].
    right. do 2 eexists. split; [|reflexivity]. discriminate. }
  destruct Hrun as [Hrun | (m & code & Hne & Hrun)].
  2:{ rewrite Hh in Hrun. injection Hrun as _ ->. contradiction. }
  rewrite Hh in Hrun. symmetry in Hrun.
  destruct (record_count_cases env b db)
    as [(m & code & H2 & Hne)
       | (sd & tl & w & r & db1 & db2 & db3 & Hsd & Htl & Hw & Hins & H2 & H3 & H4)].
  { rewrite Hrun in H2. injection H2 as _ ->. contradiction. }
  rewrite Hrun in H4. injection H4 as -> _.
  exists sd, tl, w, db1, db2. repeat (split; [assumption|]).
  apply insert_counting_data_inr in Hins.
  destruct Hins as (_ & _ & _ & _ & _ & _ & _ & _ & _ & Hwp & _).
  split; [exact Hwp|]. split; [exact H2|].
  destruct (audit_count_runs env (CountingDataFunction.session sd) b db2)
    as (y & Hy & _ & _ & _ & Hwp3).
  rewrite H3 in Hy. injection Hy as <-. exact Hwp3.
Qed.

(** Two counts of 2,000,000,000 units on the active sample session. Both are
    answered 200 and both counting records are stored. The first creates the
    worker's row with 1 bin and 2,000,000,000 units; the second asks the
    store for 2 bins and 4,000,000,000 units, which the integer column
    no_of_qty_counted cannot hold: the update is refused, the handler does
    not look at its outcome, and the row still says 1 bin. *)
Lemma second_large_count_not_added :
  let db1 := fst (CountingDataFunction.handle Sample.env
                    (Sample.count "s-1" "BIN001" 2000000000 2000000000) Sample.started) in
  let '(db2, response) :=
    CountingDataFunction.handle Sample.env
      (Sample.count "s-1" "BIN002" 2000000000 2000000000) db1 in
  http_status response = 200 /\
  map qty_counted (counting_data db2) = [2000000000; 2000000000] /\
  map (fun r => (no_of_bins_counted r, no_of_qty_counted r))
      (Store.day_rows "workerW" (today Sample.env) db1) = [(1, 2000000000)] /\
  map (fun r => (no_of_bins_counted r, no_of_qty_counted r))
      (Store.day_rows "workerW" (today Sample.env) db2) = [(1, 2000000000)].
Proof. vm_compute. repeat split. Qed.

(** Likewise for the efficiency: on a session that ended one minute after it
    began, sixteen counts bring the worker's row to 16 bins at 960.00 bins
    an hour; the seventeenth is answered 200, but 1020.00 does not fit
    [decimal(5,2)] and the row still says 16. *)
Example seventeenth_count_not_added :
  let db16 := Sample.counts 16 Sample.ended in
  let '(db17, response) :=
    CountingDataFunction.handle Sample.env (Sample.count "s-1" "BIN001" 10 10) db16 in
  http_status response = 200 /\
  List.length (counting_data db17) = 17%nat /\
  map (fun r => (no_of_bins_counted r, no_of_qty_counted r, efficiency r))
      (Store.day_rows "workerW" (today Sample.env) db16) = [(16, 160, 96000)] /\
  map (fun r => (no_of_bins_counted r, no_of_qty_counted r, efficiency r))
      (Store.day_rows "workerW" (today Sample.env) db17) = [(16, 160, 96000)].
Proof. vm_compute. repeat split. Qed.

(** C5, as amended: when a POST is answered 200, the worker has at most
    one row for the day and the new totals fit the columns of
    worker_performance, then the row of the day has one bin more and the
    counted quantity more than before, or, when there was none, is created
    with one bin and the counted quantity; so two counts of 90 and 110 on
    the sample session leave bins_counted = 2 and quantity_counted = 200. *)
Theorem count_adds_to_the_day_row :
  (forall env (req : Request CountingDataFunction.CountBody) db db' response b sd w,
      method req = "POST" -> json req = Some b ->
      CountingDataFunction.handle env req db = (db', response) ->
      http_status response = 200 ->
      CountingDataFunction.select_session (CountingDataFunction.sessionId b) db = Some sd ->
      CountingDataFunction.sd_worker sd = Some w ->
      (forall p,
          Store.day_rows (user_id w) (today env) db = [p] ->
          totals_fit (CountingDataFunction.session sd) (Some p)
                     (CountingDataFunction.qtyCountedWorker b) = true ->
          exists p',
            Store.day_rows (user_id w) (today env) db' = [p'] /\
            wp_id p' = wp_id p /\
            no_of_bins_counted p' = no_of_bins_counted p + 1 /\
            no_of_qty_counted p'
            = no_of_qty_counted p + CountingDataFunction.qtyCountedWorker b)
      /\
      (Store.day_rows (user_id w) (today env) db = [] ->
       totals_fit (CountingDataFunction.session sd) None
                  (CountingDataFunction.qtyCountedWorker b) = true ->
       exists p',
         Store.day_rows (user_id w) (today env) db' = [p'] /\
         no_of_bins_counted p' = 1 /\
         no_of_qty_counted p' = CountingDataFunction.qtyCountedWorker b))
  /\
  (let db1 := fst (CountingDataFunction.handle Sample.env
                     (Sample.count "s-1" "BIN001" 90 100) Sample.started) in
   let db2 := fst (CountingDataFunction.handle Sample.env
                     (Sample.count "s-1" "BIN002" 110 150) db1) in
   map (fun r => (no_of_bins_counted r, no_of_qty_counted r))
       (Store.day_rows "workerW" (today Sample.env) db1) = [(1, 90)] /\
   map (fun r => (no_of_bins_counted r, no_of_qty_counted r))
       (Store.day_rows "workerW" (today Sample.env) db2) = [(2, 200)]).
Proof.
  split; [|vm_compute; split; reflexivity].
  intros env req db db' response b sd w Hm Hjson Hh Hok Hsd Hw.
  destruct (counting_post_ok env req db db' response b Hm Hjson Hh Hok)
    as (sd' & tl & w' & db1 & db2 & Hsd' & _ & Hw' & Hwp1 & Hup & Hwp').
  rewrite Hsd in Hsd'. injection Hsd' as <-.
  rewrite Hw in Hw'. injection Hw' as <-.
  split.
  - intros p Hrows Hfit.
    rewrite <- (day_rows_ext _ _ db1 db Hwp1) in Hrows.
    destruct (update_performance_existing env _ w _ db1 p Hrows Hfit) as (x & Hx & Hrows').
    rewrite Hup in Hx. injection Hx as <-.
    rewrite (day_rows_ext _ _ db' db2 Hwp'), Hrows'.
    eexists. split; [reflexivity|]. simpl. repeat split.
  - intros Hrows Hfit.
    rewrite <- (day_rows_ext _ _ db1 db Hwp1) in Hrows.
    destruct (update_performance_first env _ w _ db1 Hrows Hfit) as (x & Hx & Hrows').
    rewrite Hup in Hx. injection Hx as <-.
    rewrite (day_rows_ext _ _ db' db2 Hwp'), Hrows'.
    eexists. split; [reflexivity|]. simpl. repeat split.
Qed.

Lemma count_adds_to_the_day_row_witness :
  let db1 := fst (CountingDataFunction.handle Sample.env
                    (Sample.count "s-1" "BIN001" 90 100) Sample.started) in
  exists p',
    Store.day_rows "workerW" (today Sample.env)
      (fst (CountingDataFunction.handle Sample.env
              (Sample.count "s-1" "BIN002" 110 150) db1)) = [p'] /\
    no_of_bins_counted p' = 2 /\ no_of_qty_counted p' = 200.
Proof.
  intros db1.
  destruct (CountingDataFunction.handle Sample.env
              (Sample.count "s-1" "BIN002" 110 150) db1) as [db2 response] eqn:E.
  pose proof (proj1 count_adds_to_the_day_row Sample.env
                (Sample.count "s-1" "BIN002" 110 150) db1 db2 response) as H.
  assert (Hok : http_status response = 200).
  { vm_compute in E. injection E as _ <-. reflexivity. }
  specialize (H _
    Sample.details_active
    Sample.W eq_refl eq_refl E Hok eq_refl eq_refl).
  destruct H as [H _].
  destruct (H {| wp_id := "0"; wh_name := "A"; date := today Sample.env;
                 username := "workerW"; no_of_bins_counted := 1;
                 no_of_qty_counted := 90; time_taken_minutes := 0;
                 efficiency := 0; ranking := None;
                 wp_created_at := now Sample.env |}
              ltac:(vm_compute; reflexivity) ltac:(vm_compute; reflexivity))
    as (p' & Hrows & _ & Hbins & Hqty).
  exists p'. split; [exact Hrows|]. split; [exact Hbins | exact Hqty].
Defined.

(** ** Arithmetic on Numbers

    What follows relates [SpecFloat]'s division and multiplication on
    normal binary64 numbers to exact rational arithmetic: the result is
    within one unit in the last place of the exact one. *)

Lemma digits2_pos_bounds (p : positive) :
  2 ^ (Z.pos (digits2_pos p) - 1) <= Z.pos p < 2 ^ Z.pos (digits2_pos p).
Proof.
  induction p as [p IH | p IH |]; simpl digits2_pos.
  - rewrite Pos2Z.inj_succ.
    replace (Z.succ (Z.pos (digits2_pos p)) - 1) with (Z.succ (Z.pos (digits2_pos p) - 1)) by lia.
    rewrite !Z.pow_succ_r by lia. lia.
  - rewrite Pos2Z.inj_succ.
    replace (Z.succ (Z.pos (digits2_pos p)) - 1) with (Z.succ (Z.pos (digits2_pos p) - 1)) by lia.
    rewrite !Z.pow_succ_r by lia. lia.
  - simpl. lia.
Qed.

Lemma digits2_unique (m d : Z) :
  0 < d -> 2 ^ (d - 1) <= m < 2 ^ d -> Zdigits2 m = d.
Proof.
  intros Hd [Hlo Hhi].
  assert (0 < m) by (pose proof (Z.pow_pos_nonneg 2 (d - 1)); lia).
  destruct m as [|p|p]; try lia. simpl.
  pose proof (digits2_pos_bounds p) as [Hlo' Hhi'].
  set (d' := Z.pos (digits2_pos p)) in *.
  assert (0 < d') by (unfold d'; lia).
  destruct (Z.lt_trichotomy d d') as [Hlt | [Heq | Hgt]]; [|exact (eq_sym Heq)|].
  - exfalso. assert (2 ^ d <= 2 ^ (d' - 1)) by (apply Z.pow_le_mono_r; lia). lia.
  - exfalso. assert (2 ^ d' <= 2 ^ (d - 1)) by (apply Z.pow_le_mono_r; lia). lia.
Qed.

Lemma shr_1_m (mrs : shr_record) :
  0 <= shr_m mrs -> shr_m (shr_1 mrs) = shr_m mrs / 2.
Proof.
  destruct mrs as [m r s]. simpl. intros Hm.
  destruct m as [|p|p]; try lia; [reflexivity|].
  destruct p as [p|p|]; simpl.
  - rewrite Pos2Z.inj_xI. apply Z.div_unique with 1; lia.
  - rewrite Pos2Z.inj_xO. apply Z.div_unique with 0; lia.
  - reflexivity.
Qed.

Lemma iter_shr_1_m (p : positive) (mrs : shr_record) :
  0 <= shr_m mrs ->
  shr_m (SpecFloat.iter_pos shr_1 p mrs) = shr_m mrs / 2 ^ Z.pos p.
Proof.
  revert mrs. induction p as [p IH | p IH |]; intros mrs Hm; simpl SpecFloat.iter_pos.
  - assert (H1 : 0 <= shr_m (shr_1 mrs)) by (rewrite shr_1_m by lia; apply Z.div_pos; lia).
    assert (H2 : 0 <= shr_m (SpecFloat.iter_pos shr_1 p (shr_1 mrs)))
      by (rewrite IH by lia; apply Z.div_pos; [lia | apply Z.pow_pos_nonneg; lia]).
    rewrite IH by lia. rewrite IH by lia. rewrite shr_1_m by lia.
    rewrite !Z.div_div by (try apply Z.pow_pos_nonneg; lia).
    f_equal.
    replace (Z.pos p~1) with (1 + Z.pos p + Z.pos p) by lia.
    rewrite !Z.pow_add_r by lia. lia.
  - assert (H2 : 0 <= shr_m (SpecFloat.iter_pos shr_1 p mrs))
      by (rewrite IH by lia; apply Z.div_pos; [lia | apply Z.pow_pos_nonneg; lia]).
    rewrite IH by lia. rewrite IH by lia.
    rewrite !Z.div_div by (try apply Z.pow_pos_nonneg; lia).
    f_equal.
    replace (Z.pos p~0) with (Z.pos p + Z.pos p) by lia.
    rewrite !Z.pow_add_r by lia. lia.
  - rewrite shr_1_m by lia. reflexivity.
Qed.

Lemma shr_m_of_loc (m : Z) (l : location) : shr_m (shr_record_of_loc m l) = m.
Proof. destruct l as [|[]]; reflexivity. Qed.

Lemma shr_spec (mrs : shr_record) (e n : Z) :
  0 <= shr_m mrs -> 0 <= n ->
  shr_m (fst (shr mrs e n)) = shr_m mrs / 2 ^ n /\ snd (shr mrs e n) = e + n.
Proof.
  intros Hm Hn. destruct n as [|p|p]; try lia; simpl.
  - rewrite Z.div_1_r. split; [reflexivity | lia].
  - split; [apply iter_shr_1_m; exact Hm | reflexivity].
Qed.

Lemma shr_fexp_spec (m e : Z) (l : location) (d : Z) :
  0 < d -> 2 ^ (d - 1) <= m < 2 ^ d ->
  0 <= fexp 53 1024 (d + e) - e ->
  shr_m (fst (shr_fexp 53 1024 m e l)) = m / 2 ^ (fexp 53 1024 (d + e) - e) /\
  snd (shr_fexp 53 1024 m e l) = fexp 53 1024 (d + e).
Proof.
  intros Hd Hm Hn. unfold shr_fexp.
  rewrite (digits2_unique m d Hd Hm).
  assert (0 <= m) by (pose proof (Z.pow_pos_nonneg 2 (d - 1)); lia).
  destruct (shr_spec (shr_record_of_loc m l) e (fexp 53 1024 (d + e) - e)) as [H1 H2];
    [rewrite shr_m_of_loc; lia | lia |].
  rewrite H1, H2, shr_m_of_loc. split; [reflexivity | lia].
Qed.

Lemma round_nearest_even_range (m : Z) (l : location) :
  m <= round_nearest_even m l <= m + 1.
Proof.
  destruct l as [|[]]; simpl; try lia. destruct (Z.even m); lia.
Qed.

Lemma fexp_normal (e : Z) : -1074 <= e - 53 -> fexp 53 1024 e = e - 53.
Proof. unfold fexp, emin. lia. Qed.

(** Rounding a mantissa of at least 53 bits: the result is a normal number
    one unit in the last place away from the mantissa at most. *)
Lemma binary_round_aux_faithful (sx : bool) (mx ex : Z) (lx : location) (d : Z) :
  53 <= d -> 2 ^ (d - 1) <= mx < 2 ^ d ->
  -1074 <= ex + d - 53 -> ex + d <= 1023 ->
  exists (m : positive) (s : Z),
    binary_round_aux 53 1024 sx mx ex lx = S754_finite sx m (ex + s) /\
    d - 53 <= s <= d - 52 /\ 2 ^ 52 <= Z.pos m < 2 ^ 53 /\
    (Z.pos m - 1) * 2 ^ s <= mx /\ mx + 1 <= (Z.pos m + 1) * 2 ^ s.
Proof.
  intros Hd Hmx Hlo Hhi.
  set (s0 := d - 53).
  assert (Hf : fexp 53 1024 (d + ex) = ex + s0) by (rewrite fexp_normal; unfold s0; lia).
  destruct (shr_fexp_spec mx ex lx d) as [H1 H2]; [lia | exact Hmx | lia |].
  rewrite Hf in H1, H2. replace (ex + s0 - ex) with s0 in H1 by lia.
  unfold binary_round_aux.
  destruct (shr_fexp 53 1024 mx ex lx) as [mrs' e'] eqn:E1. cbn [fst snd] in H1, H2. subst e'.
  assert (Hp : 0 < 2 ^ s0) by (apply Z.pow_pos_nonneg; unfold s0; lia).
  assert (Hsplit : 2 ^ (d - 1) = 2 ^ s0 * 2 ^ 52 /\ 2 ^ d = 2 ^ s0 * 2 ^ 53).
  { split; rewrite <- Z.pow_add_r by (unfold s0; lia); f_equal; unfold s0; lia. }
  destruct Hsplit as [Hs1 Hs2].
  assert (Hm1 : 2 ^ 52 <= shr_m mrs' < 2 ^ 53).
  { rewrite H1. split.
    - apply Z.div_le_lower_bound; lia.
    - apply Z.div_lt_upper_bound; lia. }
  assert (Hdiv : shr_m mrs' * 2 ^ s0 <= mx < (shr_m mrs' + 1) * 2 ^ s0).
  { rewrite H1. pose proof (Z.mul_div_le mx (2 ^ s0) Hp).
    pose proof (Z.mul_succ_div_gt mx (2 ^ s0) Hp). lia. }
  pose proof (round_nearest_even_range (shr_m mrs') (loc_of_shr_record mrs')) as Hr.
  set (mr := round_nearest_even (shr_m mrs') (loc_of_shr_record mrs')) in *.
  destruct (Z.eq_dec mr (2 ^ 53)) as [Heq | Hne].
  - (* the rounded mantissa overflowed to 2^53 *)
    destruct (shr_fexp_spec mr (ex + s0) loc_Exact 54) as [H3 H4];
      [lia | rewrite Heq; simpl; lia | rewrite fexp_normal; lia |].
    rewrite fexp_normal in H3, H4 by lia.
    replace (54 + (ex + s0) - 53 - (ex + s0)) with 1 in H3 by lia.
    destruct (shr_fexp 53 1024 mr (ex + s0) loc_Exact) as [mrs'' e''] eqn:E2.
    cbn [fst snd] in H3, H4. subst e''. rewrite H3, Heq.
    change (2 ^ 53 / 2 ^ 1) with (Z.pos (2 ^ 52)).
    replace (54 + (ex + s0) - 53 <=? 1024 - 53) with true by (symmetry; apply Z.leb_le; lia).
    exists (2 ^ 52)%positive, (s0 + 1).
    split; [replace (ex + (s0 + 1)) with (54 + (ex + s0) - 53) by lia; reflexivity|].
    split; [unfold s0; lia|].
    split; [simpl; lia|].
    rewrite Z.pow_add_r by (unfold s0; lia).
    change (Z.pos (2 ^ 52)) with (2 ^ 52). change (2 ^ 1) with 2.
    assert (shr_m mrs' = 2 ^ 53 - 1) by lia.
    change (2 ^ 53) with 9007199254740992 in *.
    change (2 ^ 52) with 4503599627370496 in *. nia.
  - destruct (shr_fexp_spec mr (ex + s0) loc_Exact 53) as [H3 H4];
      [lia | simpl; lia | rewrite fexp_normal; lia |].
    rewrite fexp_normal in H3, H4 by lia.
    replace (53 + (ex + s0) - 53 - (ex + s0)) with 0 in H3 by lia.
    destruct (shr_fexp 53 1024 mr (ex + s0) loc_Exact) as [mrs'' e''] eqn:E2.
    cbn [fst snd] in H3, H4. subst e''. rewrite H3. rewrite Z.div_1_r.
    destruct mr as [|m|m] eqn:Em; try lia.
    replace (53 + (ex + s0) - 53 <=? 1024 - 53) with true by (symmetry; apply Z.leb_le; lia).
    exists m, s0.
    split; [replace (53 + (ex + s0) - 53) with (ex + s0) by lia; reflexivity|].
    split; [unfold s0; lia|].
    split; [lia|]. nia.
Qed.

Lemma binary_round_aux_exact (sx : bool) (m : positive) (e : Z) :
  2 ^ 52 <= Z.pos m < 2 ^ 53 -> -1074 <= e <= 971 ->
  binary_round_aux 53 1024 sx (Z.pos m) e loc_Exact = S754_finite sx m e.
Proof.
  intros Hm He.
  assert (Hs : shr_fexp 53 1024 (Z.pos m) e loc_Exact
               = (shr_record_of_loc (Z.pos m) loc_Exact, e)).
  { unfold shr_fexp. rewrite (digits2_unique (Z.pos m) 53) by (simpl; lia).
    rewrite fexp_normal by lia. replace (53 + e - 53 - e) with 0 by lia. reflexivity. }
  unfold binary_round_aux. rewrite Hs. cbn [shr_m shr_record_of_loc loc_of_shr_record
    round_nearest_even]. rewrite Hs. cbn [shr_m shr_record_of_loc].
  replace (e <=? 1024 - 53) with true by (symmetry; apply Z.leb_le; lia).
  reflexivity.
Qed.

Lemma iter_xO (p d : positive) : Z.pos (Pos.iter xO p d) = Z.pos p * 2 ^ Z.pos d.
Proof.
  induction d as [|d IH] using Pos.peano_ind.
  - simpl. lia.
  - rewrite Pos.iter_succ, Pos2Z.inj_xO, IH, Pos2Z.inj_succ, Z.pow_succ_r by lia. lia.
Qed.

(** An integer below 2^53 in absolute value is a Number, exactly. *)
Lemma binary_round_exact (sx : bool) (p : positive) :
  Z.pos p < 2 ^ 53 ->
  exists (m : positive) (e : Z),
    binary_round 53 1024 sx p 0 = S754_finite sx m e /\
    2 ^ 52 <= Z.pos m < 2 ^ 53 /\ -52 <= e <= 0 /\ Z.pos m = Z.pos p * 2 ^ (- e).
Proof.
  intros Hz. unfold binary_round.
  pose proof (digits2_pos_bounds p) as Hd.
  set (d := Z.pos (digits2_pos p)) in *.
  assert (Hd53 : d <= 53).
  { destruct (Z.le_gt_cases d 53) as [H|H]; [exact H|].
    assert (2 ^ 53 <= 2 ^ (d - 1)) by (apply Z.pow_le_mono_r; lia). lia. }
  assert (Hd0 : 0 < d) by (unfold d; lia).
  rewrite fexp_normal by lia.
  unfold shl_align.
  destruct (d + 0 - 53 - 0) as [|k|k] eqn:Ek; try lia.
  - assert (H53 : d = 53) by lia.
    rewrite H53 in Hd. change (53 - 1) with 52 in Hd.
    rewrite binary_round_aux_exact by lia.
    exists p, 0. repeat split; lia.
  - assert (Hk : Z.pos k = 53 - d) by lia.
    assert (Hm : Z.pos (Pos.iter xO p k) = Z.pos p * 2 ^ (53 - d))
      by (rewrite iter_xO, Hk; reflexivity).
    assert (Hpow : 2 ^ 52 = 2 ^ (d - 1) * 2 ^ (53 - d) /\ 2 ^ 53 = 2 ^ d * 2 ^ (53 - d)).
    { split; rewrite <- Z.pow_add_r by lia; f_equal; lia. }
    assert (0 < 2 ^ (53 - d)) by (apply Z.pow_pos_nonneg; lia).
    rewrite binary_round_aux_exact; [| rewrite Hm; nia | lia].
    exists (Pos.iter xO p k), (d + 0 - 53).
    split; [reflexivity|]. split; [rewrite Hm; nia|]. split; [lia|].
    rewrite Hm. f_equal. f_equal. lia.
Qed.

Lemma of_int_exact (z : Z) :
  0 < Z.abs z < 2 ^ 53 ->
  exists (m : positive) (e : Z),
    JSNumber.of_int z = S754_finite (z <? 0) m e /\
    2 ^ 52 <= Z.pos m < 2 ^ 53 /\ -52 <= e <= 0 /\ Z.pos m = Z.abs z * 2 ^ (- e).
Proof.
  intros Hz. destruct z as [|p|p]; try (simpl in Hz; lia).
  - apply (binary_round_exact false p). simpl in Hz. lia.
  - apply (binary_round_exact true p). simpl in Hz. lia.
Qed.

(** Division of two normal numbers: the quotient is a normal number within
    one unit in the last place of the exact quotient,
    [mx * 2^ex / (my * 2^ey)]. *)
Lemma div_faithful (sx sy : bool) (mx my : positive) (ex ey : Z) :
  2 ^ 52 <= Z.pos mx < 2 ^ 53 -> 2 ^ 52 <= Z.pos my < 2 ^ 53 ->
  -1000 <= ex - ey <= 900 ->
  exists (m : positive) (s : Z),
    JSNumber.div (S754_finite sx mx ex) (S754_finite sy my ey)
    = S754_finite (xorb sx sy) m (ex - ey - 53 + s) /\
    0 <= s <= 2 /\ 2 ^ 52 <= Z.pos m < 2 ^ 53 /\
    (Z.pos m - 1) * 2 ^ s * Z.pos my <= Z.pos mx * 2 ^ 53 /\
    Z.pos mx * 2 ^ 53 < (Z.pos m + 1) * 2 ^ s * Z.pos my.
Proof.
  intros Hmx Hmy He.
  unfold JSNumber.div, JSNumber.prec, JSNumber.emax, SFdiv, SFdiv_core_binary.
  rewrite (digits2_unique (Z.pos mx) 53) by (simpl; lia).
  rewrite (digits2_unique (Z.pos my) 53) by (simpl; lia).
  replace (53 + ex - (53 + ey)) with (ex - ey) by lia.
  rewrite fexp_normal by lia.
  rewrite Z.min_l by lia.
  replace (ex - ey - (ex - ey - 53)) with 53 by lia.
  rewrite Z.shiftl_mul_pow2 by lia.
  pose proof (Z_div_mod (Z.pos mx * 2 ^ 53) (Z.pos my) ltac:(lia)) as Hdm.
  destruct (Z.div_eucl (Z.pos mx * 2 ^ 53) (Z.pos my)) as [q r].
  destruct Hdm as [Hq Hr].
  assert (Hqlo : 2 ^ 52 <= q) by (change (2 ^ 52) with 4503599627370496 in *;
    change (2 ^ 53) with 9007199254740992 in *; nia).
  assert (Hqhi : q < 2 ^ 54) by (change (2 ^ 52) with 4503599627370496 in *;
    change (2 ^ 53) with 9007199254740992 in *;
    change (2 ^ 54) with 18014398509481984; nia).
  destruct (Z.lt_ge_cases q (2 ^ 53)) as [Hlt | Hge].
  - destruct (binary_round_aux_faithful (xorb sx sy) q (ex - ey - 53)
                (new_location (Z.pos my) r) 53)
      as (m & s & Hres & Hs & Hm & Hlo & Hhi); try lia.
    exists m, s. rewrite Hres. split; [reflexivity|].
    split; [lia|]. split; [lia|].
    assert (0 < 2 ^ s) by (apply Z.pow_pos_nonneg; lia). nia.
  - destruct (binary_round_aux_faithful (xorb sx sy) q (ex - ey - 53)
                (new_location (Z.pos my) r) 54)
      as (m & s & Hres & Hs & Hm & Hlo & Hhi); try lia.
    exists m, s. rewrite Hres. split; [reflexivity|].
    split; [lia|]. split; [lia|].
    assert (0 < 2 ^ s) by (apply Z.pow_pos_nonneg; lia). nia.
Qed.

(** Multiplication of two normal numbers, likewise. *)
Lemma mul_faithful (sx sy : bool) (mx my : positive) (ex ey : Z) :
  2 ^ 52 <= Z.pos mx < 2 ^ 53 -> 2 ^ 52 <= Z.pos my < 2 ^ 53 ->
  -1000 <= ex + ey <= 900 ->
  exists (m : positive) (s : Z),
    JSNumber.mul (S754_finite sx mx ex) (S754_finite sy my ey)
    = S754_finite (xorb sx sy) m (ex + ey + s) /\
    52 <= s <= 54 /\ 2 ^ 52 <= Z.pos m < 2 ^ 53 /\
    (Z.pos m - 1) * 2 ^ s <= Z.pos mx * Z.pos my /\
    Z.pos mx * Z.pos my < (Z.pos m + 1) * 2 ^ s.
Proof.
  intros Hmx Hmy He.
  unfold JSNumber.mul, JSNumber.prec, JSNumber.emax, SFmul.
  rewrite Pos2Z.inj_mul.
  assert (Hlo : 2 ^ 104 <= Z.pos mx * Z.pos my)
    by (change (2 ^ 104) with (2 ^ 52 * 2 ^ 52); nia).
  assert (Hhi : Z.pos mx * Z.pos my < 2 ^ 106)
    by (change (2 ^ 106) with (2 ^ 53 * 2 ^ 53); nia).
  destruct (Z.lt_ge_cases (Z.pos mx * Z.pos my) (2 ^ 105)) as [Hlt | Hge].
  - destruct (binary_round_aux_faithful (xorb sx sy) (Z.pos mx * Z.pos my) (ex + ey)
                loc_Exact 105)
      as (m & s & Hres & Hs & Hm & Hl & Hh); try lia.
    exists m, s. rewrite Hres. repeat split; lia.
  - destruct (binary_round_aux_faithful (xorb sx sy) (Z.pos mx * Z.pos my) (ex + ey)
                loc_Exact 106)
      as (m & s & Hres & Hs & Hm & Hl & Hh); try lia.
    exists m, s. rewrite Hres. repeat split; lia.
Qed.

(** *** Values as rationals *)

Lemma Qpow2_pos (e : Z) : (0 < 2 ^ e)%Q.
Proof. apply Qpower_0_lt. reflexivity. Qed.

Lemma Qpow2_add (a b : Z) : (2 ^ (a + b) == 2 ^ a * 2 ^ b)%Q.
Proof. apply Qpower_plus. discriminate. Qed.

Lemma Qpow2_of_Z (n : Z) : (0 <= n)%Z -> (inject_Z (2 ^ n) == 2 ^ n)%Q.
Proof. intros H. now rewrite Zpower_Qpower. Qed.

Lemma F2Q_pos (m : positive) (e : Z) : (0 < F2Q m e)%Q.
Proof.
  unfold F2Q. apply Qmult_lt_0_compat; [|apply Qpow2_pos].
  change 0%Q with (inject_Z 0). rewrite <- Zlt_Qlt. lia.
Qed.

Lemma mantissa_le (m : positive) :
  (2 ^ 52 <= Z.pos m)%Z ->
  (inject_Z (Z.pos m) * (1 - ulp52) <= inject_Z (Z.pos m) - 1 /\
   inject_Z (Z.pos m) + 1 <= inject_Z (Z.pos m) * (1 + ulp52))%Q.
Proof.
  intros H. rewrite Zle_Qle in H. change (inject_Z (2 ^ 52)) with (4503599627370496%Q) in H.
  unfold ulp52. split; lra.
Qed.

Lemma div_near (sx sy : bool) (mx my : positive) (ex ey : Z) :
  (2 ^ 52 <= Z.pos mx < 2 ^ 53)%Z -> (2 ^ 52 <= Z.pos my < 2 ^ 53)%Z ->
  (-1000 <= ex - ey <= 900)%Z ->
  exists (m : positive) (e : Z),
    JSNumber.div (S754_finite sx mx ex) (S754_finite sy my ey)
    = S754_finite (xorb sx sy) m e /\
    (2 ^ 52 <= Z.pos m < 2 ^ 53)%Z /\ (ex - ey - 53 <= e <= ex - ey - 51)%Z /\
    (F2Q m e * (1 - ulp52) * F2Q my ey <= F2Q mx ex)%Q /\
    (F2Q mx ex <= F2Q m e * (1 + ulp52) * F2Q my ey)%Q.
Proof.
  intros Hmx Hmy He.
  destruct (div_faithful sx sy mx my ex ey Hmx Hmy He)
    as (m & s & Hres & Hs & Hm & Hlo & Hhi).
  exists m, (ex - ey - 53 + s)%Z. split; [exact Hres|].
  split; [exact Hm|]. split; [lia|].
  destruct (mantissa_le m (proj1 Hm)) as [Hm1 Hm2].
  unfold F2Q.
  set (a := (2 ^ (ex - ey - 53 + s))%Q). set (b := (2 ^ ey)%Q).
  set (P := (2 ^ (ex - 53))%Q). set (c := (2 ^ s)%Q).
  assert (Hab : (a * b == c * P)%Q).
  { unfold a, b, c, P. rewrite <- !Qpow2_add. apply Qpower_comp; [reflexivity | lia]. }
  assert (Hex : (2 ^ ex == 9007199254740992 * P)%Q).
  { unfold P. change 9007199254740992%Q with (2 ^ 53)%Q. rewrite <- Qpow2_add.
    apply Qpower_comp; [reflexivity | lia]. }
  assert (Hc : (0 < c)%Q) by apply Qpow2_pos.
  assert (HP : (0 < P)%Q) by apply Qpow2_pos.
  assert (Hmy0 : (0 < inject_Z (Z.pos my))%Q)
    by (change 0%Q with (inject_Z 0); rewrite <- Zlt_Qlt; lia).
  assert (HK : (0 <= inject_Z (Z.pos my) * (c * P))%Q).
  { apply Qmult_le_0_compat; [lra|]. apply Qmult_le_0_compat; lra. }
  set (M := inject_Z (Z.pos m)) in *. set (MY := inject_Z (Z.pos my)) in *.
  set (MX := inject_Z (Z.pos mx)) in *.
  assert (Hlo' : ((M - 1) * c * MY <= MX * 9007199254740992)%Q).
  { unfold M, MY, MX, c, Qminus. rewrite <- Qpow2_of_Z by lia.
    change 9007199254740992%Q with (inject_Z (2 ^ 53)).
    change (- (1))%Q with (inject_Z (-1)).
    rewrite <- inject_Z_plus, <- !inject_Z_mult, <- Zle_Qle. lia. }
  assert (Hhi' : (MX * 9007199254740992 <= (M + 1) * c * MY)%Q).
  { unfold M, MY, MX, c. rewrite <- Qpow2_of_Z by lia.
    change 9007199254740992%Q with (inject_Z (2 ^ 53)).
    change 1%Q with (inject_Z 1).
    rewrite <- inject_Z_plus, <- !inject_Z_mult, <- Zle_Qle. lia. }
  rewrite Hex.
  split.
  - apply Qle_trans with ((M - 1) * (MY * (c * P)))%Q.
    + setoid_replace (M * a * (1 - ulp52) * (MY * b))%Q
        with (M * (1 - ulp52) * (MY * (c * P)))%Q by (rewrite <- Hab; ring).
      apply Qmult_le_compat_r; assumption.
    + setoid_replace ((M - 1) * (MY * (c * P)))%Q with ((M - 1) * c * MY * P)%Q by ring.
      setoid_replace (MX * (9007199254740992 * P))%Q
        with (MX * 9007199254740992 * P)%Q by ring.
      apply Qmult_le_compat_r; lra.
  - apply Qle_trans with ((M + 1) * (MY * (c * P)))%Q.
    + setoid_replace ((M + 1) * (MY * (c * P)))%Q with ((M + 1) * c * MY * P)%Q by ring.
      setoid_replace (MX * (9007199254740992 * P))%Q
        with (MX * 9007199254740992 * P)%Q by ring.
      apply Qmult_le_compat_r; lra.
    + setoid_replace (M * a * (1 + ulp52) * (MY * b))%Q
        with (M * (1 + ulp52) * (MY * (c * P)))%Q by (rewrite <- Hab; ring).
      apply Qmult_le_compat_r; assumption.
Qed.

Lemma mul_near (sx sy : bool) (mx my : positive) (ex ey : Z) :
  (2 ^ 52 <= Z.pos mx < 2 ^ 53)%Z -> (2 ^ 52 <= Z.pos my < 2 ^ 53)%Z ->
  (-1000 <= ex + ey <= 900)%Z ->
  exists (m : positive) (e : Z),
    JSNumber.mul (S754_finite sx mx ex) (S754_finite sy my ey)
    = S754_finite (xorb sx sy) m e /\
    (2 ^ 52 <= Z.pos m < 2 ^ 53)%Z /\
    (F2Q m e * (1 - ulp52) <= F2Q mx ex * F2Q my ey)%Q /\
    (F2Q mx ex * F2Q my ey <= F2Q m e * (1 + ulp52))%Q.
Proof.
  intros Hmx Hmy He.
  destruct (mul_faithful sx sy mx my ex ey Hmx Hmy He)
    as (m & s & Hres & Hs & Hm & Hlo & Hhi).
  exists m, (ex + ey + s)%Z. split; [exact Hres|]. split; [exact Hm|].
  destruct (mantissa_le m (proj1 Hm)) as [Hm1 Hm2].
  unfold F2Q.
  set (P := (2 ^ (ex + ey))%Q). set (c := (2 ^ s)%Q).
  assert (Ha : (2 ^ (ex + ey + s) == c * P)%Q).
  { unfold c, P. rewrite <- Qpow2_add. apply Qpower_comp; [reflexivity | lia]. }
  assert (Hxy : (2 ^ ex * 2 ^ ey == P)%Q) by (unfold P; now rewrite Qpow2_add).
  assert (Hc : (0 < c)%Q) by apply Qpow2_pos.
  assert (HP : (0 < P)%Q) by apply Qpow2_pos.
  assert (HK : (0 <= c * P)%Q) by (apply Qmult_le_0_compat; lra).
  set (M := inject_Z (Z.pos m)) in *. set (MY := inject_Z (Z.pos my)) in *.
  set (MX := inject_Z (Z.pos mx)) in *.
  assert (Hlo' : ((M - 1) * c <= MX * MY)%Q).
  { unfold M, MY, MX, c, Qminus. rewrite <- Qpow2_of_Z by lia.
    change (- (1))%Q with (inject_Z (-1)).
    rewrite <- inject_Z_plus, <- !inject_Z_mult, <- Zle_Qle. lia. }
  assert (Hhi' : (MX * MY <= (M + 1) * c)%Q).
  { unfold M, MY, MX, c. rewrite <- Qpow2_of_Z by lia.
    change 1%Q with (inject_Z 1).
    rewrite <- inject_Z_plus, <- !inject_Z_mult, <- Zle_Qle. lia. }
  setoid_replace (MX * 2 ^ ex * (MY * 2 ^ ey))%Q with (MX * MY * P)%Q
    by (rewrite <- Hxy; ring).
  rewrite Ha.
  split.
  - apply Qle_trans with ((M - 1) * (c * P))%Q.
    + setoid_replace (M * (c * P) * (1 - ulp52))%Q with (M * (1 - ulp52) * (c * P))%Q by ring.
      apply Qmult_le_compat_r; assumption.
    + setoid_replace ((M - 1) * (c * P))%Q with ((M - 1) * c * P)%Q by ring.
      apply Qmult_le_compat_r; lra.
  - apply Qle_trans with ((M + 1) * (c * P))%Q.
    + setoid_replace ((M + 1) * (c * P))%Q with ((M + 1) * c * P)%Q by ring.
      apply Qmult_le_compat_r; lra.
    + setoid_replace (M * (c * P) * (1 + ulp52))%Q with (M * (1 + ulp52) * (c * P))%Q by ring.
      apply Qmult_le_compat_r; assumption.
Qed.

Lemma of_int_value (z : Z) :
  (0 < Z.abs z < 2 ^ 53)%Z ->
  exists (m : positive) (e : Z),
    JSNumber.of_int z = S754_finite (z <? 0)%Z m e /\
    (2 ^ 52 <= Z.pos m < 2 ^ 53)%Z /\ (-52 <= e <= 0)%Z /\
    (F2Q m e == inject_Z (Z.abs z))%Q.
Proof.
  intros Hz. destruct (of_int_exact z Hz) as (m & e & Hof & Hm & He & Hv).
  exists m, e. repeat split; try assumption; try lia.
  unfold F2Q. rewrite Hv, inject_Z_mult, Qpow2_of_Z by lia.
  rewrite <- Qmult_assoc, <- Qpow2_add.
  replace (- e + e)%Z with 0%Z by lia. change (2 ^ 0)%Q with 1%Q. ring.
Qed.

Lemma of_int_positive (z : Z) :
  (0 < z < 2 ^ 53)%Z ->
  exists (m : positive) (e : Z),
    JSNumber.of_int z = S754_finite false m e /\
    (2 ^ 52 <= Z.pos m < 2 ^ 53)%Z /\ (-52 <= e <= 0)%Z /\
    (F2Q m e == inject_Z z)%Q.
Proof.
  intros Hz. destruct (of_int_value z) as (m & e & Hof & H); [lia|].
  exists m, e. replace (z <? 0)%Z with false in Hof by (symmetry; apply Z.ltb_ge; lia).
  rewrite Z.abs_eq in H by lia. split; assumption.
Qed.

(** [Math.round] of a finite number [v] is the integer [k] with
    [k <= v + 1/2 < k + 1]. *)
Lemma Math_round_spec (s : bool) (m : positive) (e : Z) :
  (inject_Z (JSNumber.Math_round (S754_finite s m e)) <= signed s (F2Q m e) + (1 # 2) /\
   signed s (F2Q m e) + (1 # 2) < inject_Z (JSNumber.Math_round (S754_finite s m e)) + 1)%Q.
Proof.
  unfold JSNumber.Math_round, F2Q.
  set (sm := if s then Z.neg m else Z.pos m).
  assert (Hsm : (signed s (inject_Z (Z.pos m) * 2 ^ e) == inject_Z sm * 2 ^ e)%Q).
  { unfold signed, sm. destruct s; [|reflexivity].
    change (Z.neg m) with (- Z.pos m)%Z. rewrite inject_Z_opp. ring. }
  rewrite Hsm.
  destruct (0 <=? e)%Z eqn:He.
  - apply Z.leb_le in He.
    rewrite inject_Z_mult, Qpow2_of_Z by lia. split; lra.
  - apply Z.leb_gt in He.
    set (p := (2 ^ (- e))%Z).
    assert (Hp : (0 < p)%Z) by (apply Z.pow_pos_nonneg; lia).
    assert (Hpe : (2 ^ e == / inject_Z p)%Q).
    { unfold p. rewrite Qpow2_of_Z by lia. rewrite Qpower_opp. now rewrite Qinv_involutive. }
    assert (HpQ : (0 < inject_Z p)%Q)
      by (change 0%Q with (inject_Z 0); rewrite <- Zlt_Qlt; lia).
    pose proof (Z.mul_div_le (2 * sm + p) (2 * p) ltac:(lia)) as H1.
    pose proof (Z.mul_succ_div_gt (2 * sm + p) (2 * p) ltac:(lia)) as H2.
    set (k := ((2 * sm + p) / (2 * p))%Z) in *.
    rewrite Hpe.
    set (K := inject_Z k) in *. set (Pq := inject_Z p) in *. set (M := inject_Z sm) in *.
    assert (H1q : (2 * Pq * K <= 2 * M + Pq)%Q).
    { unfold Pq, K, M. change 2%Q with (inject_Z 2).
      rewrite <- !inject_Z_mult, <- inject_Z_plus, <- Zle_Qle. lia. }
    assert (H2q : (2 * M + Pq < 2 * Pq * (K + 1))%Q).
    { unfold Pq, K, M. change 2%Q with (inject_Z 2). change 1%Q with (inject_Z 1).
      rewrite <- !inject_Z_plus, <- !inject_Z_mult, <- inject_Z_plus, <- Zlt_Qlt. lia. }
    assert (Hinv : (Pq * / Pq == 1)%Q) by (apply Qmult_inv_r; lra).
    assert (HM : (M == (M * / Pq) * Pq)%Q)
      by (rewrite <- Qmult_assoc, (Qmult_comm (/ Pq)), Hinv; ring).
    set (V := (M * / Pq)%Q) in *.
    split.
    + apply Qmult_le_r with (z := (2 * Pq)%Q); [lra|].
      setoid_replace ((V + (1 # 2)) * (2 * Pq))%Q with (2 * (V * Pq) + Pq)%Q by ring.
      rewrite <- HM. lra.
    + apply Qmult_lt_r with (z := (2 * Pq)%Q); [lra|].
      setoid_replace ((V + (1 # 2)) * (2 * Pq))%Q with (2 * (V * Pq) + Pq)%Q by ring.
      rewrite <- HM. lra.
Qed.

Lemma inject_Z_pos (z : Z) : (0 < z)%Z -> (0 < inject_Z z)%Q.
Proof. intros H. change 0%Q with (inject_Z 0). now rewrite <- Zlt_Qlt. Qed.

(** The efficiency the handler computes, in hundredths, is an integer
    nearest to the exact [6000 * bins / minutes]. *)
Lemma efficiency_of_nearest (n t : Z) :
  (Z.abs n <= 2 ^ 31)%Z -> (0 < t <= 2 ^ 31)%Z ->
  (2 * Z.abs (CountingDataFunction.efficiency_of n t * t - 6000 * n) <= t)%Z.
Proof.
  intros Hn Ht. unfold CountingDataFunction.efficiency_of.
  replace (0 <? t)%Z with true by (symmetry; apply Z.ltb_lt; lia).
  destruct (of_int_positive t) as (mt & et & Et & Hmt & Het & Vt); [lia|].
  destruct (of_int_positive 60) as (m60 & e60 & E60 & Hm60 & He60 & V60); [lia|].
  destruct (of_int_positive 100) as (m100 & e100 & E100 & Hm100 & He100 & V100); [lia|].
  rewrite Et, E60, E100.
  destruct (div_near false false mt m60 et e60 Hmt Hm60) as (ma & ea & Ea & Hma & Hea & A1 & A2);
    [lia|].
  rewrite Ea.
  destruct (Z.eq_dec n 0) as [-> | Hnz].
  { change (JSNumber.of_int 0) with (S754_zero false).
    unfold JSNumber.div, JSNumber.mul, SFdiv, SFmul, JSNumber.Math_round. lia. }
  destruct (of_int_value n) as (mn & en & En & Hmn & Hen & Vn); [lia|].
  rewrite En.
  destruct (div_near (n <? 0)%Z (xorb false false) mn ma en ea Hmn Hma)
    as (mb & eb & Eb & Hmb & Heb & B1 & B2); [lia|].
  rewrite Eb.
  destruct (mul_near (xorb (n <? 0)%Z (xorb false false)) false mb m100 eb e100 Hmb Hm100)
    as (mc & ec & Ec & Hmc & C1 & C2); [lia|].
  rewrite Ec. cbn [xorb]. rewrite !Bool.xorb_false_r.
  destruct (Math_round_spec (n <? 0)%Z mc ec) as [K1 K2].
  set (k := JSNumber.Math_round (S754_finite (n <? 0)%Z mc ec)) in *.
  rewrite Vt, V60 in A1, A2. rewrite Vn in B1, B2. rewrite V100 in C1, C2.
  pose proof (F2Q_pos ma ea) as HA. pose proof (F2Q_pos mb eb) as HB.
  pose proof (F2Q_pos mc ec) as HC.
  set (A := F2Q ma ea) in *. set (B := F2Q mb eb) in *. set (C := F2Q mc ec) in *.
  pose proof (inject_Z_pos t ltac:(lia)) as Htq.
  pose proof (inject_Z_pos (Z.abs n) ltac:(lia)) as Hnq.
  assert (Hnb : (inject_Z (Z.abs n) <= 2147483648)%Q).
  { change 2147483648%Q with (inject_Z (2 ^ 31)). rewrite <- Zle_Qle. lia. }
  set (tq := inject_Z t) in *. set (nq := inject_Z (Z.abs n)) in *.
  set (K := inject_Z k) in *.
  change (inject_Z 60) with 60%Q in A1, A2. change (inject_Z 100) with 100%Q in C1, C2.
  unfold ulp52 in *.
  assert (P1a : (C * tq * (1 - (1 # 4503599627370496)) <= 100 * (B * tq))%Q).
  { setoid_replace (C * tq * (1 - (1 # 4503599627370496)))%Q
      with (C * (1 - (1 # 4503599627370496)) * tq)%Q by ring.
    setoid_replace (100 * (B * tq))%Q with (B * 100 * tq)%Q by ring.
    apply Qmult_le_compat_r; lra. }
  assert (P1b : (100 * (B * tq) <= C * tq * (1 + (1 # 4503599627370496)))%Q).
  { setoid_replace (C * tq * (1 + (1 # 4503599627370496)))%Q
      with (C * (1 + (1 # 4503599627370496)) * tq)%Q by ring.
    setoid_replace (100 * (B * tq))%Q with (B * 100 * tq)%Q by ring.
    apply Qmult_le_compat_r; lra. }
  assert (P2a : (B * A * (1 - (1 # 4503599627370496)) * 60 <= B * tq)%Q).
  { setoid_replace (B * A * (1 - (1 # 4503599627370496)) * 60)%Q
      with (A * (1 - (1 # 4503599627370496)) * 60 * B)%Q by ring.
    setoid_replace (B * tq)%Q with (tq * B)%Q by ring.
    apply Qmult_le_compat_r; lra. }
  assert (P2b : (B * tq <= B * A * (1 + (1 # 4503599627370496)) * 60)%Q).
  { setoid_replace (B * A * (1 + (1 # 4503599627370496)) * 60)%Q
      with (A * (1 + (1 # 4503599627370496)) * 60 * B)%Q by ring.
    setoid_replace (B * tq)%Q with (tq * B)%Q by ring.
    apply Qmult_le_compat_r; lra. }
  assert (P3a : (B * A * (1 - (1 # 4503599627370496)) <= nq)%Q).
  { setoid_replace (B * A * (1 - (1 # 4503599627370496)))%Q
      with (B * (1 - (1 # 4503599627370496)) * A)%Q by ring. exact B1. }
  assert (P3b : (nq <= B * A * (1 + (1 # 4503599627370496)))%Q).
  { setoid_replace (B * A * (1 + (1 # 4503599627370496)))%Q
      with (B * (1 + (1 # 4503599627370496)) * A)%Q by ring. exact B2. }
  assert (K1t : (K * tq <= signed (n <? 0)%Z C * tq + (1 # 2) * tq)%Q).
  { setoid_replace (signed (n <? 0)%Z C * tq + (1 # 2) * tq)%Q
      with ((signed (n <? 0)%Z C + (1 # 2)) * tq)%Q by ring.
    apply Qmult_le_compat_r; lra. }
  assert (K2t : (signed (n <? 0)%Z C * tq + (1 # 2) * tq <= K * tq + tq)%Q).
  { setoid_replace (signed (n <? 0)%Z C * tq + (1 # 2) * tq)%Q
      with ((signed (n <? 0)%Z C + (1 # 2)) * tq)%Q by ring.
    setoid_replace (K * tq + tq)%Q with ((K + 1) * tq)%Q by ring.
    apply Qmult_le_compat_r; lra. }
  set (Ct := (C * tq)%Q) in *. set (Bt := (B * tq)%Q) in *. set (BA := (B * A)%Q) in *.
  set (Kt := (K * tq)%Q) in *.
  assert (Hup : (Ct <= 6000 * nq + (1 # 4))%Q) by lra.
  assert (Hdn : (6000 * nq - (1 # 4) <= Ct)%Q) by lra.
  assert (G : (2 * (k * t - 6000 * n) < t + 1 /\ 2 * (6000 * n - k * t) < t + 1)%Z).
  { rewrite !Zlt_Qlt. rewrite !inject_Z_mult, !inject_Z_plus.
    unfold Zminus. rewrite !inject_Z_plus, !inject_Z_opp, !inject_Z_mult.
    fold tq K. change (inject_Z 2) with 2%Q. change (inject_Z 6000) with 6000%Q.
    change (inject_Z 1) with 1%Q. fold Kt.
    destruct (n <? 0)%Z eqn:Hs; cbn [signed] in K1t, K2t.
    - apply Z.ltb_lt in Hs.
      assert (Hq : (inject_Z n == - nq)%Q)
        by (unfold nq; rewrite Z.abs_neq by lia; rewrite inject_Z_opp; ring).
      rewrite Hq.
      setoid_replace (- C * tq)%Q with (- Ct)%Q in K1t by (unfold Ct; ring).
      setoid_replace (- C * tq)%Q with (- Ct)%Q in K2t by (unfold Ct; ring).
      split; lra.
    - apply Z.ltb_ge in Hs.
      assert (Hq : (inject_Z n == nq)%Q) by (unfold nq; rewrite Z.abs_eq by lia; reflexivity).
      rewrite Hq. fold Ct in K1t, K2t. split; lra. }
  lia.
Qed.

(** The minutes the handler computes for a session are an integer nearest to
    the exact [elapsed / 60000]. *)
Lemma elapsed_minutes_nearest (start_ms end_ms : Z) :
  (Z.abs (end_ms - start_ms) < 2 ^ 51)%Z ->
  (2 * Z.abs (60000 * CountingDataFunction.elapsed_minutes start_ms end_ms
              - (end_ms - start_ms)) <= 60000)%Z.
Proof.
  unfold CountingDataFunction.elapsed_minutes.
  set (d := (end_ms - start_ms)%Z). change (1000 * 60)%Z with 60000%Z.
  intros Hd.
  destruct (Z.eq_dec d 0) as [-> | Hnz]; [vm_compute; discriminate|].
  destruct (of_int_value d) as (md & ed & Ed & Hmd & Hed & Vd); [lia|].
  destruct (of_int_positive 60000) as (mc & ec & Ec & Hmc & Hec & Vc); [lia|].
  rewrite Ed, Ec.
  destruct (div_near (d <? 0)%Z false md mc ed ec Hmd Hmc) as (ma & ea & Ea & Hma & Hea & A1 & A2);
    [lia|].
  rewrite Ea. rewrite Bool.xorb_false_r.
  destruct (Math_round_spec (d <? 0)%Z ma ea) as [K1 K2].
  set (k := JSNumber.Math_round (S754_finite (d <? 0)%Z ma ea)) in *.
  rewrite Vd, Vc in A1, A2.
  pose proof (F2Q_pos ma ea) as HA. set (A := F2Q ma ea) in *.
  change (inject_Z 60000) with 60000%Q in A1, A2.
  assert (Hb : (inject_Z (Z.abs d) <= 2251799813685247)%Q).
  { change 2251799813685247%Q with (inject_Z (2 ^ 51 - 1)). rewrite <- Zle_Qle. lia. }
  assert (Hp : (0 < inject_Z (Z.abs d))%Q) by (apply inject_Z_pos; lia).
  unfold ulp52 in *. set (K := inject_Z k) in *.
  assert (G : (2 * (60000 * k - d) < 60000 + 1 /\ 2 * (d - 60000 * k) < 60000 + 1)%Z).
  { rewrite !Zlt_Qlt. rewrite !inject_Z_mult, !inject_Z_plus.
    unfold Zminus. rewrite !inject_Z_plus, !inject_Z_opp, !inject_Z_mult.
    fold K. change (inject_Z 2) with 2%Q. change (inject_Z 60000) with 60000%Q.
    change (inject_Z 1) with 1%Q.
    destruct (d <? 0)%Z eqn:Hs; cbn [signed] in K1, K2.
    - apply Z.ltb_lt in Hs. rewrite Z.abs_neq in * by lia.
      rewrite inject_Z_opp in *. split; lra.
    - apply Z.ltb_ge in Hs. rewrite Z.abs_eq in * by lia. split; lra. }
  lia.
Qed.

(** ** Minutes and efficiency of the day row (C7, C3) *)

(** What a POST answered 200 leaves as the worker's rows of the day. *)
Lemma count_writes_row env (req : Request CountingDataFunction.CountBody) db db' response
  b sd w :
  method req = "POST" -> json req = Some b ->
  CountingDataFunction.handle env req db = (db', response) ->
  http_status response = 200 ->
  CountingDataFunction.select_session (CountingDataFunction.sessionId b) db = Some sd ->
  CountingDataFunction.sd_worker sd = Some w ->
  let s := CountingDataFunction.session sd in
  let q := CountingDataFunction.qtyCountedWorker b in
  (forall p,
      Store.day_rows (user_id w) (today env) db = [p] ->
      Store.day_rows (user_id w) (today env) db'
      = [if totals_fit s (Some p) q then row_after_count s p q else p])
  /\
  (Store.day_rows (user_id w) (today env) db = [] ->
   Store.day_rows (user_id w) (today env) db'
   = if totals_fit s None q then [row_of_first_count env s w q db] else []).
Proof.
  intros Hm Hjson Hh Hok Hsd Hw s q.
  destruct (counting_post_ok env req db db' response b Hm Hjson Hh Hok)
    as (sd' & tl & w' & db1 & db2 & Hsd' & _ & Hw' & Hwp1 & Hup & Hwp').
  rewrite Hsd in Hsd'. injection Hsd' as <-.
  rewrite Hw in Hw'. injection Hw' as <-.
  fold s q in Hup.
  split.
  - intros p Hrows.
    rewrite <- (day_rows_ext _ _ db1 db Hwp1) in Hrows.
    rewrite (day_rows_ext _ _ db' db2 Hwp').
    destruct (totals_fit s (Some p) q) eqn:Hfit.
    + destruct (update_performance_existing env s w q db1 p Hrows Hfit) as (x & Hx & Hrows').
      rewrite Hup in Hx. injection Hx as <-. exact Hrows'.
    + rewrite (update_performance_refused env s w q db1 p Hrows Hfit) in Hup.
      injection Hup as <-. exact Hrows.
  - intros Hrows.
    rewrite <- (day_rows_ext _ _ db1 db Hwp1) in Hrows.
    rewrite (day_rows_ext _ _ db' db2 Hwp').
    destruct (totals_fit s None q) eqn:Hfit.
    + destruct (update_performance_first env s w q db1 Hrows Hfit) as (x & Hx & Hrows').
      rewrite Hup in Hx. injection Hx as <-. rewrite Hrows'.
      unfold row_of_first_count. now rewrite Hwp1.
    + rewrite (update_performance_first_refused env s w q db1 Hrows Hfit) in Hup.
      injection Hup as <-. exact Hrows.
Qed.

(** The worker has several rows for the day: [.single()] finds none, and
    the step asks for a further row, built from zero. *)
Lemma update_performance_several env s w q db r1 r2 rest :
  Store.day_rows (user_id w) (today env) db = r1 :: r2 :: rest ->
  exists db',
    CountingDataFunction.update_performance env s w q db = (db', inr tt) /\
    worker_performance db'
    = (worker_performance db
       ++ (if totals_fit s None q then [row_of_first_count env s w q db] else []))%list.
Proof.
  intros Hrows.
  unfold CountingDataFunction.update_performance, bind, query, exec0, exec, ret.
  unfold WorkerPerformanceFunction.today_row. rewrite Hrows.
  change (Store.single (r1 :: r2 :: rest)) with (@None WorkerPerformance).
  cbv beta iota.
  unfold Store.insert_worker_performance. simpl.
  replace (existsb _ _) with false.
  2:{ symmetry. apply Bool.not_true_iff_false. intros H.
      apply existsb_exists in H. destruct H as (x & Hx & Heq).
      apply String.eqb_eq in Heq. subst x. now apply fresh_id_fresh in Hx. }
  destruct (totals_fit s None q) eqn:Hfit;
    unfold totals_fit in Hfit; simpl in Hfit;
    unfold Store.performance_row_ok; simpl; rewrite Hfit; simpl.
  - eexists. split; reflexivity.
  - eexists. split; [reflexivity|]. now rewrite app_nil_r.
Qed.

(** What a POST answered 200 leaves of the table when the worker has
    several rows for the day. *)
Lemma count_writes_further_row env (req : Request CountingDataFunction.CountBody)
  db db' response b sd w r1 r2 rest :
  method req = "POST" -> json req = Some b ->
  CountingDataFunction.handle env req db = (db', response) ->
  http_status response = 200 ->
  CountingDataFunction.select_session (CountingDataFunction.sessionId b) db = Some sd ->
  CountingDataFunction.sd_worker sd = Some w ->
  let s := CountingDataFunction.session sd in
  let q := CountingDataFunction.qtyCountedWorker b in
  Store.day_rows (user_id w) (today env) db = r1 :: r2 :: rest ->
  worker_performance db'
  = (worker_performance db
     ++ (if totals_fit s None q then [row_of_first_count env s w q db] else []))%list.
Proof.
  intros Hm Hjson Hh Hok Hsd Hw s q Hrows.
  destruct (counting_post_ok env req db db' response b Hm Hjson Hh Hok)
    as (sd' & tl & w' & db1 & db2 & Hsd' & _ & Hw' & Hwp1 & Hup & Hwp').
  rewrite Hsd in Hsd'. injection Hsd' as <-.
  rewrite Hw in Hw'. injection Hw' as <-.
  fold s q in Hup.
  rewrite <- (day_rows_ext _ _ db1 db Hwp1) in Hrows.
  destruct (update_performance_several env s w q db1 r1 r2 rest Hrows) as (x & Hx & Hrows').
  rewrite Hup in Hx. injection Hx as <-.
  rewrite Hwp', Hrows', Hwp1. unfold row_of_first_count. now rewrite Hwp1.
Qed.

Lemma int4_range (z : Z) : Store.int4 z = true -> -2 ^ 31 <= z <= 2 ^ 31 - 1.
Proof.
  unfold Store.int4. rewrite Bool.andb_true_iff, !Z.leb_le.
  change (2 ^ 31) with 2147483648. lia.
Qed.

Lemma totals_fit_range s existing q :
  totals_fit s existing q = true ->
  Store.int4 (CountingDataFunction.existing_or_0 existing no_of_bins_counted + 1) = true /\
  Store.int4 (CountingDataFunction.time_taken s existing) = true.
Proof.
  unfold totals_fit. rewrite !Bool.andb_true_iff. tauto.
Qed.

(** The efficiency of a row in hundredths against its bins and minutes. *)
Lemma efficiency_of_rounded (n t : Z) :
  Store.int4 n = true -> Store.int4 t = true ->
  (t <= 0 -> CountingDataFunction.efficiency_of n t = 0) /\
  (0 < t -> 2 * Z.abs (CountingDataFunction.efficiency_of n t * t - 6000 * n) <= t).
Proof.
  intros Hn Ht. apply int4_range in Hn, Ht. split.
  - intros H. unfold CountingDataFunction.efficiency_of.
    now replace (0 <? t) with false by (symmetry; apply Z.ltb_ge; lia).
  - intros H. apply efficiency_of_nearest; lia.
Qed.

(** Three bins in 800 minutes are 0.225 bins an hour exactly; the handler
    stores 0.22. Twenty-three bins in 736 minutes are 1.875; it stores 1.87. *)
Example efficiency_at_a_tie :
  CountingDataFunction.efficiency_of 3 800 = 22 /\
  CountingDataFunction.efficiency_of 23 736 = 187 /\
  CountingDataFunction.efficiency_of 1 60 = 100.
Proof. vm_compute. repeat split. Qed.

(** The rows of worker_performance after the aggregate step: those that
    were there, and rows whose efficiency was computed from their own bins
    and minutes, all three within the range of their columns. *)
Lemma update_performance_rows env s w q db db' :
  CountingDataFunction.update_performance env s w q db = (db', inr tt) ->
  forall p', In p' (worker_performance db') ->
    In p' (worker_performance db) \/
    (efficiency p'
     = CountingDataFunction.efficiency_of (no_of_bins_counted p') (time_taken_minutes p') /\
     Store.int4 (no_of_bins_counted p') = true /\
     Store.int4 (time_taken_minutes p') = true).
Proof.
  unfold CountingDataFunction.update_performance, bind, query, exec0, exec, ret.
  destruct (WorkerPerformanceFunction.today_row (user_id w) (today env) db) as [p|].
  - unfold Store.update_worker_performance.
    destruct (Store.performance_patch_ok _) eqn:Hok;
      intros H; injection H as <-; [|now left].
    intros p' Hin. simpl in Hin. apply in_map_iff in Hin.
    destruct Hin as (r & <- & Hr).
    destruct (wp_id r =? wp_id p)%string; [|now left].
    right. unfold Store.performance_patch_ok in Hok. simpl in Hok.
    rewrite !Bool.andb_true_iff in Hok. simpl. tauto.
  - destruct (Store.insert_worker_performance env _ db) as [e|[r db1]] eqn:Hins;
      intros H; injection H as <-; [now left|].
    unfold Store.insert_worker_performance in Hins. simpl in Hins.
    destruct (existsb _ _); [discriminate|].
    destruct (Store.performance_row_ok _) eqn:Hok; [|discriminate].
    injection Hins as <- <-.
    intros p' Hin. simpl in Hin. apply in_app_or in Hin.
    destruct Hin as [Hin | [<- | []]]; [now left|].
    right. unfold Store.performance_row_ok in Hok. simpl in Hok.
    rewrite !Bool.andb_true_iff in Hok. simpl. tauto.
Qed.

(** One bin in 32 minutes and 23 bins in 736 minutes are both 1.875 bins
    an hour exactly. The first count of a session that lasted 32 minutes
    writes a row with efficiency 1.88; the count that brings a row of 22
    bins to 23, on a session that lasted 736 minutes, writes 1.87. *)
Lemma same_rate_rounded_both_ways :
  let session minutes :=
    {| s_id := "s-1"; worker_id := "w-1"; team_leader_id := "t-1";
       warehouse_name := "A"; start_time := now Sample.env;
       end_time := Some (now Sample.env + minutes * 60000); status := completed |} in
  let store minutes rows :=
    {| users := [Sample.W; Sample.T]; counting_sessions := [session minutes];
       counting_data := []; worker_performance := rows; audit_logs := [] |} in
  let after db :=
    map (fun r => (no_of_bins_counted r, time_taken_minutes r, efficiency r))
        (Store.day_rows "workerW" (today Sample.env)
           (fst (CountingDataFunction.handle Sample.env
                   (Sample.count "s-1" "BIN001" 10 10) db))) in
  after (store 32 []) = [(1, 32, 188)] /\
  after (store 736 [Sample.performance "p-1" "A" "workerW" 22 220 700 189 None])
  = [(23, 736, 187)] /\
  1 * 736 = 23 * 32.
Proof. vm_compute. repeat split. Qed.

(** C3, as amended: every row of worker_performance that a request to
    counting-data writes has an efficiency that is a whole number of
    hundredths within 0.005 of [bins_counted / (minutes_taken / 60)] when
    minutes_taken > 0, and 0 when minutes_taken is 0 (or less). When the
    quotient lies halfway between two hundredths, either of them may be
    written. *)
Theorem efficiency_rounded_to_hundredths :
  forall env (req : Request CountingDataFunction.CountBody) db db' response,
    CountingDataFunction.handle env req db = (db', response) ->
    forall p',
      In p' (worker_performance db') -> ~ In p' (worker_performance db) ->
      (time_taken_minutes p' <= 0 -> efficiency p' = 0) /\
      (0 < time_taken_minutes p' ->
       2 * Z.abs (efficiency p' * time_taken_minutes p' - 6000 * no_of_bins_counted p')
       <= time_taken_minutes p').
Proof.
  intros env req db db' response Hh p' Hin Hnew.
  destruct (counting_data_cases env req db) as [(resp & H1 & _) | (b & _ & _ & H1)].
  { rewrite Hh in H1. injection H1 as <- _. contradiction. }
  rewrite H1 in Hh.
  destruct (record_count_cases env b db)
    as [(m & code & H2 & _)
       | (sd & tl & w & r & db1 & db2 & db3 & _ & _ & _ & Hins & H2 & H3 & H4)].
  { rewrite Hh in H2. injection H2 as <- _. contradiction. }
  rewrite Hh in H4. injection H4 as -> _.
  apply insert_counting_data_inr in Hins.
  destruct Hins as (_ & _ & _ & _ & _ & _ & _ & _ & _ & Hwp1 & _).
  destruct (audit_count_runs env (CountingDataFunction.session sd) b db2)
    as (y & Hy & _ & _ & _ & Hwp3).
  rewrite H3 in Hy. injection Hy as <-.
  rewrite Hwp3 in Hin. rewrite <- Hwp1 in Hnew.
  destruct (update_performance_rows _ _ _ _ _ _ H2 p' Hin) as [Hold | (-> & Hb & Ht)];
    [contradiction|].
  exact (efficiency_of_rounded _ _ Hb Ht).
Qed.

Lemma efficiency_rounded_to_hundredths_witness :
  let p' := row_of_first_count Sample.env Sample.session_completed Sample.W 10
              Sample.ended in
  In p' (worker_performance
           (fst (CountingDataFunction.handle Sample.env
                   (Sample.count "s-1" "BIN001" 10 10) Sample.ended))) /\
  time_taken_minutes p' = 1 /\ no_of_bins_counted p' = 1 /\ efficiency p' = 6000 /\
  2 * Z.abs (efficiency p' * time_taken_minutes p' - 6000 * no_of_bins_counted p')
  <= time_taken_minutes p'.
Proof.
  intros p'.
  assert (Hin : In p' (worker_performance
                         (fst (CountingDataFunction.handle Sample.env
                                 (Sample.count "s-1" "BIN001" 10 10) Sample.ended)))).
  { vm_compute. left. reflexivity. }
  split; [exact Hin|]. split; [vm_compute; reflexivity|]. split; [reflexivity|].
  split; [vm_compute; reflexivity|].
  destruct (CountingDataFunction.handle Sample.env (Sample.count "s-1" "BIN001" 10 10)
              Sample.ended) as [db' response] eqn:E.
  apply (efficiency_rounded_to_hundredths Sample.env
           (Sample.count "s-1" "BIN001" 10 10) Sample.ended db' response E p').
  - exact Hin.
  - simpl. tauto.
  - vm_compute. reflexivity.
Defined.

(** A row of 16 bins and 60 minutes, and a session that ended one minute
    after it began: the count is answered 200, but 17 bins in one minute
    are 1020.00 bins an hour, which the efficiency column cannot hold; the
    row keeps its 60 minutes although the session has an end_time. *)
Lemma minutes_not_recomputed_after_session_end :
  let db := Sample.with_performance
              [Sample.performance "p-1" "A" "workerW" 16 160 60 1600 None]
              Sample.ended in
  let '(db', response) :=
    CountingDataFunction.handle Sample.env (Sample.count "s-1" "BIN001" 10 10) db in
  http_status response = 200 /\
  end_time Sample.session_completed = Some (start_time Sample.session_completed + 60000) /\
  CountingDataFunction.elapsed_minutes (start_time Sample.session_completed)
    (start_time Sample.session_completed + 60000) = 1 /\
  map (fun r => (no_of_bins_counted r, time_taken_minutes r))
      (Store.day_rows "workerW" (today Sample.env) db) = [(16, 60)] /\
  map (fun r => (no_of_bins_counted r, time_taken_minutes r))
      (Store.day_rows "workerW" (today Sample.env) db') = [(16, 60)].
Proof. vm_compute. repeat split. Qed.

(** C7, as amended: for a POST answered 200, the minutes the handler asks
    the store to write are the minutes of the worker's row of the day (0
    when it finds none) while the session has no end_time, and
    [Math.round(elapsed / 60000)], an integer nearest to the elapsed
    milliseconds over 60000, once the session has an end_time. With
    exactly one row for the day, that row gets these minutes when the
    store takes the new totals and is left as it was when it refuses them;
    with no row, a row with these minutes is created, or none when the
    store refuses; with two or more rows for the day none is found, the
    rows stay as they were and a further row is created as on a first
    count. *)
Theorem minutes_kept_until_session_end :
  (forall env (req : Request CountingDataFunction.CountBody) db db' response b sd w,
      method req = "POST" -> json req = Some b ->
      CountingDataFunction.handle env req db = (db', response) ->
      http_status response = 200 ->
      CountingDataFunction.select_session (CountingDataFunction.sessionId b) db = Some sd ->
      CountingDataFunction.sd_worker sd = Some w ->
      let s := CountingDataFunction.session sd in
      let q := CountingDataFunction.qtyCountedWorker b in
      let minutes previous :=
        match end_time s with
        | Some e => CountingDataFunction.elapsed_minutes (start_time s) e
        | None => previous
        end in
      (forall p,
          Store.day_rows (user_id w) (today env) db = [p] ->
          exists p',
            Store.day_rows (user_id w) (today env) db' = [p'] /\
            wp_id p' = wp_id p /\
            (totals_fit s (Some p) q = true ->
             time_taken_minutes p' = minutes (time_taken_minutes p)) /\
            (totals_fit s (Some p) q = false -> p' = p))
      /\
      (Store.day_rows (user_id w) (today env) db = [] ->
       (totals_fit s None q = true ->
        exists p', Store.day_rows (user_id w) (today env) db' = [p'] /\
                   time_taken_minutes p' = minutes 0) /\
       (totals_fit s None q = false ->
        Store.day_rows (user_id w) (today env) db' = []))
      /\
      (forall r1 r2 rest,
          Store.day_rows (user_id w) (today env) db = r1 :: r2 :: rest ->
          (totals_fit s None q = true ->
           exists p', worker_performance db' = (worker_performance db ++ [p'])%list /\
                      username p' = user_id w /\ date p' = today env /\
                      time_taken_minutes p' = minutes 0) /\
          (totals_fit s None q = false ->
           worker_performance db' = worker_performance db)))
  /\
  (forall start_ms end_ms,
      Z.abs (end_ms - start_ms) < 2 ^ 51 ->
      2 * Z.abs (60000 * CountingDataFunction.elapsed_minutes start_ms end_ms
                 - (end_ms - start_ms)) <= 60000).
Proof.
  split; [|exact elapsed_minutes_nearest].
  intros env req db db' response b sd w Hm Hjson Hh Hok Hsd Hw s q minutes.
  destruct (count_writes_row env req db db' response b sd w Hm Hjson Hh Hok Hsd Hw)
    as [Hone Hnone].
  fold s q in Hone, Hnone.
  assert (Htime : forall existing,
             CountingDataFunction.time_taken s existing
             = minutes (CountingDataFunction.existing_or_0 existing time_taken_minutes)).
  { intros existing. unfold CountingDataFunction.time_taken, minutes.
    destruct (end_time s); reflexivity. }
  split; [|split].
  - intros p Hrows. rewrite (Hone p Hrows).
    destruct (totals_fit s (Some p) q); eexists; (split; [reflexivity|]);
      (split; [reflexivity|]); split; intros H; try discriminate; try reflexivity.
  - intros Hrows. rewrite (Hnone Hrows). split; intros Hfit; rewrite Hfit.
    + eexists. split; [reflexivity|]. simpl. apply (Htime None).
    + reflexivity.
  - intros r1 r2 rest Hrows.
    rewrite (count_writes_further_row env req db db' response b sd w r1 r2 rest
               Hm Hjson Hh Hok Hsd Hw Hrows).
    fold s q. split; intros Hfit; rewrite Hfit.
    + eexists. split; [reflexivity|]. simpl. repeat split.
    + now rewrite app_nil_r.
Qed.

Lemma minutes_kept_until_session_end_witness :
  (exists p',
     Store.day_rows "workerW" (today Sample.env)
       (fst (CountingDataFunction.handle Sample.env
               (Sample.count "s-1" "BIN001" 10 10) Sample.ended)) = [p'] /\
     time_taken_minutes p' = 1)
  /\
  (exists p',
     Store.day_rows "workerW" (today Sample.env)
       (fst (CountingDataFunction.handle Sample.env
               (Sample.count "s-1" "BIN001" 10 10)
               (Sample.with_performance
                  [Sample.performance "p-1" "A" "workerW" 3 30 45 400 None]
                  Sample.started))) = [p'] /\
     wp_id p' = "p-1" /\ time_taken_minutes p' = 45).
Proof.
  split.
  - destruct (CountingDataFunction.handle Sample.env (Sample.count "s-1" "BIN001" 10 10)
                Sample.ended) as [db' response] eqn:E.
    assert (Hok : http_status response = 200).
    { vm_compute in E. injection E as _ <-. reflexivity. }
    destruct (proj1 minutes_kept_until_session_end Sample.env
                (Sample.count "s-1" "BIN001" 10 10) Sample.ended db' response _
                Sample.details_completed
                Sample.W eq_refl eq_refl E Hok eq_refl eq_refl) as (_ & H & _).
    destruct (H eq_refl) as [Hnew _].
    destruct (Hnew ltac:(vm_compute; reflexivity)) as (p' & Hrows & Ht).
    exists p'. split; [exact Hrows|]. rewrite Ht. vm_compute. reflexivity.
  - destruct (CountingDataFunction.handle Sample.env (Sample.count "s-1" "BIN001" 10 10)
                (Sample.with_performance
                   [Sample.performance "p-1" "A" "workerW" 3 30 45 400 None]
                   Sample.started)) as [db' response] eqn:E.
    assert (Hok : http_status response = 200).
    { vm_compute in E. injection E as _ <-. reflexivity. }
    destruct (proj1 minutes_kept_until_session_end Sample.env
                (Sample.count "s-1" "BIN001" 10 10) _ db' response _
                Sample.details_active
                Sample.W eq_refl eq_refl E Hok eq_refl eq_refl) as (H & _).
    destruct (H _ eq_refl) as (p' & Hrows & Hid & Ht & _).
    exists p'. split; [exact Hrows|]. split; [exact Hid|].
    rewrite (Ht ltac:(vm_compute; reflexivity)). reflexivity.
Defined.

(** ** The leaderboard (C2) *)

Lemma rank_from_length i data :
  List.length (WorkerPerformanceFunction.rank_from i data) = List.length data.
Proof. revert i. induction data as [|r data IH]; intros i; simpl; [reflexivity|]. now rewrite IH. Qed.

Lemma rank_from_ids i data :
  map wp_id (WorkerPerformanceFunction.rank_from i data) = map wp_id data.
Proof. revert i. induction data as [|r data IH]; intros i; simpl; [reflexivity|]. now rewrite IH. Qed.

Lemma rank_from_efficiency i data :
  map efficiency (WorkerPerformanceFunction.rank_from i data) = map efficiency data.
Proof. revert i. induction data as [|r data IH]; intros i; simpl; [reflexivity|]. now rewrite IH. Qed.

Lemma rank_from_ranking i data :
  map ranking (WorkerPerformanceFunction.rank_from i data)
  = map (fun k => Some (i + Z.of_nat k)) (seq 1 (List.length data)).
Proof.
  revert i. induction data as [|r data IH]; intros i; simpl; [reflexivity|].
  replace (i + Z.of_nat 1) with (i + 1) by lia. f_equal.
  rewrite IH, <- (seq_shift (List.length data) 1), map_map.
  apply map_ext. intros k. f_equal. lia.
Qed.

Lemma rank_from_In i data item :
  In item (WorkerPerformanceFunction.rank_from i data) ->
  exists r rk, In r data /\ item = WorkerPerformanceFunction.with_ranking r rk /\
               i < rk <= i + Z.of_nat (List.length data).
Proof.
  revert i. induction data as [|r data IH]; intros i; simpl; [contradiction|].
  intros [<- | Hin].
  - exists r, (i + 1). repeat split; [now left | lia | lia].
  - destruct (IH (i + 1) Hin) as (r' & rk & Hr' & -> & Hrk).
    exists r', rk. repeat split; [now right | lia | lia].
Qed.

Lemma insert_desc_perm {A : Type} (key : A -> Z) (r : A) (l : list A) :
  Permutation (Store.insert_desc key r l) (r :: l).
Proof.
  induction l as [|x l IH]; simpl; [reflexivity|].
  destruct (key x <=? key r); [reflexivity|].
  rewrite IH. apply perm_swap.
Qed.

Lemma order_desc_perm {A : Type} (key : A -> Z) (l : list A) :
  Permutation (Store.order_desc key l) l.
Proof.
  unfold Store.order_desc. induction l as [|x l IH]; simpl; [reflexivity|].
  rewrite insert_desc_perm. now constructor.
Qed.

Lemma insert_desc_sorted {A : Type} (key : A -> Z) (r : A) (l : list A) :
  Sorted (fun a b => key b <= key a) l ->
  Sorted (fun a b => key b <= key a) (Store.insert_desc key r l).
Proof.
  induction l as [|x l IH]; intros Hs; simpl.
  - repeat constructor.
  - destruct (key x <=? key r) eqn:E.
    + constructor; [exact Hs|]. constructor. now apply Z.leb_le.
    + apply Z.leb_gt in E. inversion Hs as [|? ? Hs' Hhd]; subst.
      constructor; [now apply IH|].
      destruct l as [|y l]; simpl.
      * constructor. lia.
      * destruct (key y <=? key r); constructor; [lia|].
        now inversion Hhd.
Qed.

Lemma order_desc_sorted {A : Type} (key : A -> Z) (l : list A) :
  StronglySorted (fun a b => key b <= key a) (Store.order_desc key l).
Proof.
  apply Sorted_StronglySorted.
  - intros a b c Hab Hbc. lia.
  - unfold Store.order_desc. induction l as [|x l IH]; simpl; [constructor|].
    now apply insert_desc_sorted.
Qed.

Lemma firstn_In {A : Type} (n : nat) (l : list A) (x : A) :
  In x (firstn n l) -> In x l.
Proof.
  intros H. rewrite <- (firstn_skipn n l). apply in_or_app. now left.
Qed.

Lemma firstn_sorted {A : Type} (R : A -> A -> Prop) (n : nat) (l : list A) :
  StronglySorted R l -> StronglySorted R (firstn n l).
Proof.
  revert n. induction l as [|x l IH]; intros n Hs; destruct n; simpl; try constructor.
  - apply IH. now inversion Hs.
  - inversion Hs as [|? ? _ Hall]; subst.
    apply Forall_forall. intros y Hy. apply firstn_In in Hy.
    rewrite Forall_forall in Hall. now apply Hall.
Qed.

Lemma firstn_NoDup {A : Type} (n : nat) (l : list A) :
  NoDup l -> NoDup (firstn n l).
Proof.
  intros H. rewrite <- (firstn_skipn n l) in H. now apply NoDup_app_remove_r in H.
Qed.

Lemma filter_ids_NoDup (p : WorkerPerformance -> bool) (l : list WorkerPerformance) :
  NoDup (map wp_id l) -> NoDup (map wp_id (filter p l)).
Proof.
  induction l as [|x l IH]; simpl; intros H; [constructor|].
  inversion H as [|? ? Hx Hl]; subst.
  destruct (p x); simpl; [|now apply IH].
  constructor; [|now apply IH].
  intros Hin. apply Hx. apply in_map_iff in Hin. destruct Hin as (y & Hy & Hin).
  apply filter_In in Hin. apply in_map_iff. exists y. tauto.
Qed.

Lemma leaderboard_ids_NoDup d wh n db :
  NoDup (map wp_id (worker_performance db)) ->
  NoDup (map wp_id (leaderboard d wh n db)).
Proof.
  intros H. unfold leaderboard. rewrite <- firstn_map. apply firstn_NoDup.
  eapply Permutation_NoDup.
  - apply Permutation_map. symmetry. apply order_desc_perm.
  - destruct wh; repeat apply filter_ids_NoDup; exact H.
Qed.

Lemma leaderboard_In d wh n db r :
  In r (leaderboard d wh n db) -> In r (worker_performance db).
Proof.
  unfold leaderboard. intros H. apply firstn_In in H.
  apply (Permutation_in _ (order_desc_perm efficiency _)) in H.
  destruct wh; repeat (apply filter_In in H; destruct H as [H _]); exact H.
Qed.

Lemma leaderboard_length d wh n db :
  (List.length (leaderboard d wh n db) <= List.length (worker_performance db))%nat /\
  (List.length (leaderboard d wh n db) <= Z.to_nat n)%nat.
Proof.
  unfold leaderboard. rewrite length_firstn.
  rewrite (Permutation_length (order_desc_perm efficiency _)).
  split; [|lia].
  destruct wh.
  - pose proof (filter_length_le (fun r => (wh_name r =? s)%string)
                  (filter (fun r => (date r =? d)%string) (worker_performance db))).
    pose proof (filter_length_le (fun r => (date r =? d)%string) (worker_performance db)).
    lia.
  - pose proof (filter_length_le (fun r => (date r =? d)%string) (worker_performance db)).
    lia.
Qed.


Lemma rank_loop (items : list WorkerPerformance) (db : DB) :
  (forall item, In item items -> Store.value_ok Store.int4 (ranking item) = true) ->
  for_each items
    (fun item =>
       _ <- exec0 (Store.update_worker_performance (wp_id item)
                     (WorkerPerformanceFunction.ranking_patch (ranking item))) ;;
       ret tt) db
  = (Store.set_worker_performance (fold_left persist_rank items (worker_performance db)) db,
     inr tt).
Proof.
  revert db. induction items as [|x items IH]; intros db Hok.
  - simpl. unfold ret. destruct db; reflexivity.
  - simpl for_each. unfold bind at 1. unfold bind at 1, exec0, ret.
    unfold Store.update_worker_performance.
    assert (Hx : Store.performance_patch_ok
                   (WorkerPerformanceFunction.ranking_patch (ranking x)) = true).
    { unfold Store.performance_patch_ok. simpl. apply Hok. now left. }
    rewrite Hx. rewrite IH by (intros item Hi; apply Hok; now right).
    reflexivity.
Qed.

Lemma persist_rank_ids rows item : map wp_id (persist_rank rows item) = map wp_id rows.
Proof.
  unfold persist_rank. rewrite map_map. apply map_ext.
  intros r. destruct (wp_id r =? wp_id item)%string; reflexivity.
Qed.

(** After the loop over items of distinct ids: the rows the items do not
    name are as before, and a row an item names carries that item's rank. *)
Lemma persist_ranks (items rows : list WorkerPerformance) :
  NoDup (map wp_id items) ->
  (forall r, In r rows -> ~ In (wp_id r) (map wp_id items) ->
             In r (fold_left persist_rank items rows)) /\
  (forall item r, In item items -> In r rows -> wp_id r = wp_id item ->
                  In (Store.patch_performance
                        (WorkerPerformanceFunction.ranking_patch (ranking item)) r)
                     (fold_left persist_rank items rows)).
Proof.
  revert rows. induction items as [|x items IH]; intros rows Hnd.
  - split; [intros r Hr _; exact Hr | intros item r []].
  - inversion Hnd as [|? ? Hx Hnd']; subst. simpl fold_left.
    destruct (IH (persist_rank rows x) Hnd') as [IH1 IH2].
    split.
    + intros r Hr Hnot. apply IH1.
      * unfold persist_rank. apply in_map_iff. exists r. split; [|exact Hr].
        destruct (wp_id r =? wp_id x)%string eqn:E; [|reflexivity].
        apply String.eqb_eq in E. exfalso. apply Hnot. left. now symmetry.
      * intros Hin. apply Hnot. now right.
    + intros item r [<- | Hitem] Hr Hid.
      * apply IH1.
        -- unfold persist_rank. apply in_map_iff. exists r. split; [|exact Hr].
           apply String.eqb_eq in Hid. now rewrite Hid.
        -- simpl. rewrite Hid. exact Hx.
      * apply IH2; [exact Hitem | | exact Hid].
        unfold persist_rank. apply in_map_iff. exists r. split; [|exact Hr].
        destruct (wp_id r =? wp_id x)%string eqn:E; [|reflexivity].
        apply String.eqb_eq in E. exfalso. apply Hx.
        apply in_map_iff. exists item. split; [congruence | exact Hitem].
Qed.

Lemma rank_loop_total (items : list WorkerPerformance) (db : DB) :
  exists db',
    for_each items
      (fun item =>
         _ <- exec0 (Store.update_worker_performance (wp_id item)
                       (WorkerPerformanceFunction.ranking_patch (ranking item))) ;;
         ret tt) db
    = (db', inr tt).
Proof.
  revert db. induction items as [|x items IH]; intros db.
  - eexists. reflexivity.
  - simpl for_each. unfold bind at 1. unfold bind at 1, exec0, ret.
    destruct (Store.update_worker_performance _ _ db) as [e|db1].
    + destruct (IH db) as [db' H]. exists db'. exact H.
    + destruct (IH db1) as [db' H]. exists db'. exact H.
Qed.

(** How a GET of the leaderboard runs: when it answers with a list, the
    limit parsed to a natural number, the list is the selected rows with
    their ranks, and the loop ran over it. *)
Lemma list_performance_runs env (req : Request Store.PerformanceInsert) db db' response data :
  WorkerPerformanceFunction.handle env req db = (db', response) ->
  body response = performance_list data ->
  exists n,
    JSNumber.parseInt (Store.or_else (truthy (get "limit" (searchParams req))) "50") = Some n /\
    0 <= n /\
    data = WorkerPerformanceFunction.rank_from 0
             (leaderboard (Store.or_else (truthy (get "date" (searchParams req))) (today env))
                          (truthy (get "warehouse" (searchParams req))) n db) /\
    for_each data
      (fun item =>
         _ <- exec0 (Store.update_worker_performance (wp_id item)
                       (WorkerPerformanceFunction.ranking_patch (ranking item))) ;;
         ret tt) db = (db', inr tt).
Proof.
  unfold WorkerPerformanceFunction.handle, WorkerPerformanceFunction.serve.
  destruct (method req =? "OPTIONS")%string;
    [intros H Hb; injection H as _ <-; discriminate|].
  destruct (method req =? "GET")%string.
  - destruct (includes "today" (split_slash (pathname req))).
    + unfold run, bind, query, leave, ret.
      destruct (Store.user_by_id _ db); intros H Hb; injection H as _ <-; discriminate.
    + unfold run at 1, bind at 1, query, Store.select_performance.
      destruct (JSNumber.parseInt _) as [n|];
        [|intros H Hb; injection H as _ <-; discriminate].
      destruct (n <? 0) eqn:En; [intros H Hb; injection H as _ <-; discriminate|].
      apply Z.ltb_ge in En. fold (leaderboard
        (Store.or_else (truthy (get "date" (searchParams req))) (today env))
        (truthy (get "warehouse" (searchParams req))) n db).
      set (L := leaderboard _ _ n db).
      destruct (rank_loop_total (WorkerPerformanceFunction.rank_from 0 L) db) as [dbx Hx].
      pose proof Hx as Hx'. unfold bind, ret in Hx' |- *. rewrite Hx'.
      intros H Hb. injection H as <- <-. simpl in Hb. injection Hb as <-.
      exists n. repeat split; [exact En | exact Hx].
  - destruct (method req =? "POST")%string.
    + destruct (json req); unfold run, bind, exec, throw, leave, ret.
      * destruct (Store.insert_worker_performance env _ db) as [e|[r dbx]];
          intros H Hb; injection H as _ <-; discriminate.
      * intros H Hb; injection H as _ <-; discriminate.
    + unfold run, ret. intros H Hb; injection H as _ <-; discriminate.
Qed.

Lemma rank_from_sorted i data :
  StronglySorted efficiency_desc data ->
  StronglySorted efficiency_desc (WorkerPerformanceFunction.rank_from i data).
Proof.
  revert i. induction data as [|r data IH]; intros i Hs; simpl; [constructor|].
  inversion Hs as [|? ? Hs' Hall]; subst.
  constructor; [now apply IH|].
  apply Forall_forall. intros item Hin.
  destruct (rank_from_In _ _ _ Hin) as (r' & rk & Hr' & -> & _).
  rewrite Forall_forall in Hall. exact (Hall r' Hr').
Qed.

(** C2: the list a GET of the leaderboard answers with is the selection
    (rows of the date, and of the warehouse when given, by descending
    efficiency, cut at the limit) with ranks 1, 2, ..., n in that order; the
    ranks are computed on that selection alone. With the ids of the table
    distinct (its primary key) and fewer than 2^31 rows, every returned row
    is stored as returned, rank included, and the rows outside the
    selection are stored as they were. For efficiencies 5.00, 3.00, 4.00 and
    limit=2: workerA with rank 1, workerC with rank 2, workerB not returned
    and left without rank. *)
Theorem leaderboard_ranks_selection :
  (forall env (req : Request Store.PerformanceInsert) db db' response data,
      WorkerPerformanceFunction.handle env req db = (db', response) ->
      body response = performance_list data ->
      exists n,
        JSNumber.parseInt (Store.or_else (truthy (get "limit" (searchParams req))) "50")
        = Some n /\ 0 <= n /\
        let selected :=
          leaderboard (Store.or_else (truthy (get "date" (searchParams req))) (today env))
                      (truthy (get "warehouse" (searchParams req))) n db in
        data = WorkerPerformanceFunction.rank_from 0 selected /\
        map ranking data = ranks (List.length data) /\
        StronglySorted efficiency_desc data /\
        (List.length data <= Z.to_nat n)%nat /\
        (NoDup (map wp_id (worker_performance db)) ->
         Z.of_nat (List.length (worker_performance db)) < 2 ^ 31 ->
         (forall item, In item data -> In item (worker_performance db')) /\
         (forall r, In r (worker_performance db) ->
                    ~ In (wp_id r) (map wp_id data) ->
                    In r (worker_performance db'))))
  /\
  (let '(db', response) :=
     WorkerPerformanceFunction.handle Sample.env Sample.top_two Sample.three_workers in
   response = json_response (performance_list
                [WorkerPerformanceFunction.with_ranking Sample.workerA 1;
                 WorkerPerformanceFunction.with_ranking Sample.workerC 2]) /\
   worker_performance db'
   = [WorkerPerformanceFunction.with_ranking Sample.workerA 1;
      Sample.workerB;
      WorkerPerformanceFunction.with_ranking Sample.workerC 2] /\
   ranking Sample.workerB = None).
Proof.
  split; [|vm_compute; repeat split].
  intros env req db db' response data Hh Hb.
  destruct (list_performance_runs env req db db' response data Hh Hb)
    as (n & Hparse & Hn & Hdata & Hloop).
  exists n. split; [exact Hparse|]. split; [exact Hn|].
  set (selected := leaderboard _ _ n db) in *.
  split; [exact Hdata|].
  split.
  { rewrite Hdata, rank_from_ranking, rank_from_length. reflexivity. }
  split.
  { rewrite Hdata. apply rank_from_sorted. unfold selected, leaderboard.
    apply firstn_sorted. apply order_desc_sorted. }
  split.
  { rewrite Hdata, rank_from_length. apply leaderboard_length. }
  intros Hpk Hsize.
  assert (Hok : forall item, In item data ->
                             Store.value_ok Store.int4 (ranking item) = true).
  { intros item Hin. rewrite Hdata in Hin.
    destruct (rank_from_In _ _ _ Hin) as (r & rk & _ & -> & Hrk).
    pose proof (proj1 (leaderboard_length
                         (Store.or_else (truthy (get "date" (searchParams req))) (today env))
                         (truthy (get "warehouse" (searchParams req))) n db)) as Hlen.
    fold selected in Hlen. simpl. unfold Store.int4.
    change (2 ^ 31) with 2147483648 in Hsize.
    apply Bool.andb_true_iff. rewrite !Z.leb_le. lia. }
  rewrite (rank_loop data db Hok) in Hloop. injection Hloop as <-.
  simpl worker_performance.
  assert (Hnd : NoDup (map wp_id data)).
  { rewrite Hdata, rank_from_ids. now apply leaderboard_ids_NoDup. }
  destruct (persist_ranks data (worker_performance db) Hnd) as [Hrest Hitems].
  split; [|exact Hrest].
  intros item Hin. pose proof Hin as Hin'. rewrite Hdata in Hin'.
  destruct (rank_from_In _ _ _ Hin') as (r & rk & Hr & Heq & _).
  apply leaderboard_In in Hr.
  assert (Hid : wp_id r = wp_id item) by (rewrite Heq; reflexivity).
  pose proof (Hitems item r Hin Hr Hid) as H.
  rewrite Heq in H |- *. exact H.
Qed.

Lemma leaderboard_ranks_selection_witness :
  In (WorkerPerformanceFunction.with_ranking Sample.workerA 1)
     (worker_performance
        (fst (WorkerPerformanceFunction.handle Sample.env Sample.top_two
                Sample.three_workers))) /\
  In (WorkerPerformanceFunction.with_ranking Sample.workerC 2)
     (worker_performance
        (fst (WorkerPerformanceFunction.handle Sample.env Sample.top_two
                Sample.three_workers))).
Proof.
  destruct (WorkerPerformanceFunction.handle Sample.env Sample.top_two
              Sample.three_workers) as [db' response] eqn:E.
  assert (Hb : body response
               = performance_list
                   [WorkerPerformanceFunction.with_ranking Sample.workerA 1;
                    WorkerPerformanceFunction.with_ranking Sample.workerC 2]).
  { vm_compute in E. injection E as _ <-. reflexivity. }
  destruct (proj1 leaderboard_ranks_selection Sample.env Sample.top_two
              Sample.three_workers db' response _ E Hb)
    as (n & _ & _ & _ & _ & _ & _ & Hstored).
  assert (Hpk : NoDup (map wp_id (worker_performance Sample.three_workers))).
  { simpl. repeat constructor; simpl; intuition discriminate. }
  assert (Hsize : Z.of_nat (List.length (worker_performance Sample.three_workers)) < 2 ^ 31).
  { vm_compute. reflexivity. }
  destruct (Hstored Hpk Hsize) as [Hitems _].
  split; apply Hitems; simpl; auto.
Defined.

(** ** One active session per worker (C6) *)

(** Two active sessions for one worker: the table takes the second row as
    it took the first. *)
Lemma second_active_session_is_accepted :
  let start := {| Store.si_id := None;
                  Store.si_worker_id := Some "w-1";
                  Store.si_team_leader_id := Some "t-1";
                  Store.si_warehouse_name := Some "A";
                  Store.si_start_time := None;
                  Store.si_end_time := None;
                  Store.si_status := None |} in
  exists s1 db1 s2 db2,
    Store.insert_counting_session Sample.env start Sample.empty = inr (s1, db1) /\
    Store.insert_counting_session Sample.env start db1 = inr (s2, db2) /\
    active_sessions "w-1" db1 = [s1] /\
    active_sessions "w-1" db2 = [s1; s2] /\
    s_id s1 <> s_id s2 /\
    ~ one_active_session_per_worker db2.
Proof.
  do 4 eexists. vm_compute. repeat split; try discriminate.
  intros H. specialize (H "w-1"). vm_compute in H. lia.
Qed.

Lemma counting_data_keeps_sessions env (req : Request CountingDataFunction.CountBody) db :
  counting_sessions (fst (CountingDataFunction.handle env req db)) = counting_sessions db.
Proof.
  destruct (counting_data_cases env req db) as [(resp & -> & _) | (b & _ & _ & ->)];
    [reflexivity|].
  destruct (record_count_cases env b db)
    as [(m & code & -> & _)
       | (sd & tl & w & r & db1 & db2 & db3 & _ & _ & _ & Hins & H2 & H3 & ->)];
    [reflexivity|].
  apply insert_counting_data_inr in Hins.
  destruct Hins as (_ & _ & _ & _ & _ & _ & _ & _ & Hs1 & _).
  destruct (update_performance_runs env (CountingDataFunction.session sd) w
              (CountingDataFunction.qtyCountedWorker b) db1) as (x & Hx & _ & Hs2 & _).
  rewrite H2 in Hx. injection Hx as <-.
  destruct (audit_count_runs env (CountingDataFunction.session sd) b db2)
    as (y & Hy & _ & Hs3 & _).
  rewrite H3 in Hy. injection Hy as <-.
  simpl. congruence.
Qed.

Lemma rank_loop_keeps_sessions (items : list WorkerPerformance) (db : DB) :
  counting_sessions
    (fst (for_each items
            (fun item =>
               _ <- exec0 (Store.update_worker_performance (wp_id item)
                             (WorkerPerformanceFunction.ranking_patch (ranking item))) ;;
               ret tt) db))
  = counting_sessions db.
Proof.
  revert db. induction items as [|x items IH]; intros db; [reflexivity|].
  simpl for_each. unfold bind at 1. unfold bind at 1, exec0, ret.
  unfold Store.update_worker_performance.
  destruct (Store.performance_patch_ok _); rewrite IH; reflexivity.
Qed.

Lemma worker_performance_keeps_sessions env (req : Request Store.PerformanceInsert) db :
  counting_sessions (fst (WorkerPerformanceFunction.handle env req db))
  = counting_sessions db.
Proof.
  unfold WorkerPerformanceFunction.handle, WorkerPerformanceFunction.serve.
  destruct (method req =? "OPTIONS")%string; [reflexivity|].
  destruct (method req =? "GET")%string.
  - destruct (includes "today" (split_slash (pathname req))).
    + unfold run, bind, query, leave, ret. destruct (Store.user_by_id _ db); reflexivity.
    + unfold run at 1, bind at 1, query.
      destruct (Store.select_performance _ _ _ db) as [e|data]; [reflexivity|].
      pose proof (rank_loop_keeps_sessions (WorkerPerformanceFunction.rank_from 0 data) db)
        as Hloop.
      destruct (rank_loop_total (WorkerPerformanceFunction.rank_from 0 data) db) as [dbx Hx].
      rewrite Hx in Hloop. unfold bind, ret in Hx |- *. rewrite Hx. exact Hloop.
  - destruct (method req =? "POST")%string; [|reflexivity].
    destruct (json req) as [p|]; [|reflexivity].
    unfold run, bind, exec, leave, ret.
    destruct (Store.insert_worker_performance env p db) as [e|[r dbx]] eqn:Hins;
      [reflexivity|].
    unfold Store.insert_worker_performance in Hins.
    destruct (Store.pi_wh_name p); [|discriminate].
    destruct (Store.pi_username p); [|discriminate].
    destruct (existsb _ _); [discriminate|].
    destruct (Store.performance_row_ok _); [|discriminate].
    injection Hins as _ <-. reflexivity.
Qed.

Lemma active_sessions_ext w db1 db2 :
  counting_sessions db1 = counting_sessions db2 ->
  active_sessions w db1 = active_sessions w db2.
Proof. unfold active_sessions. now intros ->. Qed.

Lemma insert_counting_session_inr env p db s db' :
  Store.insert_counting_session env p db = inr (s, db') ->
  counting_sessions db' = (counting_sessions db ++ [s])%list /\
  status s = Store.or_else (Store.si_status p) active /\
  Some (worker_id s) = Store.si_worker_id p.
Proof.
  unfold Store.insert_counting_session.
  destruct (Store.si_worker_id p) as [w|]; [|discriminate].
  destruct (Store.si_team_leader_id p) as [tl|]; [|discriminate].
  destruct (Store.si_warehouse_name p) as [wh|]; [|discriminate].
  destruct (existsb _ _); [discriminate|].
  destruct (negb _); [discriminate|].
  destruct (negb _); [discriminate|].
  intros H. injection H as <- <-. simpl. repeat split.
Qed.

Lemma active_sessions_after_insert w db db' s :
  counting_sessions db' = (counting_sessions db ++ [s])%list ->
  active_sessions w db'
  = (active_sessions w db ++
     (if (worker_id s =? w)%string && SessionManager.is_active s then [s] else []))%list.
Proof.
  unfold active_sessions. intros ->. rewrite filter_app. reflexivity.
Qed.

(** C6, as amended: nothing in the sources turns a second start down. The
    table takes a session row whenever its worker and its team leader are
    users, a warehouse is given and the id, when one is given, is a uuid
    not in use, whatever sessions the worker has. That no worker has two active sessions is kept by every
    request to counting-data and to worker-performance, which never write
    sessions, and by a row inserted while its worker has no active session;
    an active row inserted while its worker has one breaks it. *)
Theorem one_active_session_is_not_enforced :
  forall env db,
    (forall p w tl wh,
        Store.si_worker_id p = Some w -> Store.si_team_leader_id p = Some tl ->
        Store.si_warehouse_name p = Some wh ->
        existsb (fun u => (u_id u =? w)%string) (users db) = true ->
        existsb (fun u => (u_id u =? tl)%string) (users db) = true ->
        (forall i, Store.si_id p = Some i ->
                   uuid_text i = true /\ ~ In i (map s_id (counting_sessions db))) ->
        exists s db', Store.insert_counting_session env p db = inr (s, db')) /\
    (forall p s db',
        Store.insert_counting_session env p db = inr (s, db') ->
        Store.or_else (Store.si_status p) active = active ->
        active_sessions (worker_id s) db <> [] ->
        ~ one_active_session_per_worker db') /\
    (one_active_session_per_worker db ->
     (forall p s db',
         Store.insert_counting_session env p db = inr (s, db') ->
         active_sessions (worker_id s) db = [] ->
         one_active_session_per_worker db') /\
     (forall req : Request CountingDataFunction.CountBody,
         one_active_session_per_worker (fst (CountingDataFunction.handle env req db))) /\
     (forall req : Request Store.PerformanceInsert,
         one_active_session_per_worker (fst (WorkerPerformanceFunction.handle env req db)))).
Proof.
  intros env db. split; [|split].
  - intros p w tl wh Hw Htl Hwh Huw Hutl Hid.
    unfold Store.insert_counting_session. rewrite Hw, Htl, Hwh, Huw, Hutl. simpl.
    match goal with |- context [existsb ?f ?l] => destruct (existsb f l) eqn:Hdup end.
    + exfalso. apply existsb_exists in Hdup. destruct Hdup as (x & Hx & E).
      apply String.eqb_eq in E.
      destruct (Store.si_id p) as [i|]; simpl in E.
      * apply (proj2 (Hid i eq_refl)). now rewrite E.
      * apply (fresh_id_fresh (map s_id (counting_sessions db))). now rewrite E.
    + do 2 eexists. reflexivity.
  - intros p s db' Hins Hact Hhas Hone.
    apply insert_counting_session_inr in Hins. destruct Hins as (Hrows & Hst & _).
    specialize (Hone (worker_id s)).
    rewrite (active_sessions_after_insert _ db db' s Hrows), length_app in Hone.
    unfold SessionManager.is_active in Hone. rewrite Hst, Hact, String.eqb_refl in Hone.
    simpl in Hone.
    destruct (active_sessions (worker_id s) db); [contradiction | simpl in Hone; lia].
  - intros Hinv. split; [|split].
    + intros p s db' Hins Hnone w.
      apply insert_counting_session_inr in Hins. destruct Hins as (Hrows & _).
      rewrite (active_sessions_after_insert w db db' s Hrows), length_app.
      destruct (worker_id s =? w)%string eqn:E; simpl.
      * apply String.eqb_eq in E. subst w. rewrite Hnone.
        destruct (SessionManager.is_active s); simpl; lia.
      * specialize (Hinv w). lia.
    + intros req w.
      rewrite (active_sessions_ext w _ db (counting_data_keeps_sessions env req db)).
      apply Hinv.
    + intros req w.
      rewrite (active_sessions_ext w _ db (worker_performance_keeps_sessions env req db)).
      apply Hinv.
Qed.

Lemma one_active_session_is_not_enforced_witness :
  one_active_session_per_worker
    (fst (CountingDataFunction.handle Sample.env (Sample.count "s-1" "BIN001" 10 10)
            Sample.started)) /\
  exists s db',
    Store.insert_counting_session Sample.env
      {| Store.si_id := None;
         Store.si_worker_id := Some "w-1";
         Store.si_team_leader_id := Some "t-1";
         Store.si_warehouse_name := Some "A";
         Store.si_start_time := None;
         Store.si_end_time := None;
         Store.si_status := None |} Sample.started = inr (s, db') /\
    ~ one_active_session_per_worker db'.
Proof.
  split.
  - apply (proj1 (proj2 (proj2 (proj2 (one_active_session_is_not_enforced
             Sample.env Sample.started))
             ltac:(intros w; unfold active_sessions; simpl;
                   match goal with |- context [if ?c then _ else _] => destruct c end;
                   simpl; lia)))).
  - destruct (proj1 (one_active_session_is_not_enforced Sample.env Sample.started)
                {| Store.si_id := None;
                   Store.si_worker_id := Some "w-1";
                   Store.si_team_leader_id := Some "t-1";
                   Store.si_warehouse_name := Some "A";
                   Store.si_start_time := None;
                   Store.si_end_time := None;
                   Store.si_status := None |}
                "w-1" "t-1" "A" eq_refl eq_refl eq_refl eq_refl eq_refl
                ltac:(intros i H; discriminate)) as (s & db' & Hins).
    exists s, db'. split; [exact Hins|].
    apply (proj1 (proj2 (one_active_session_is_not_enforced Sample.env Sample.started))
             _ s db' Hins eq_refl).
    vm_compute in Hins. injection Hins as <- _. vm_compute. discriminate.
Defined.

(** * Further properties of the two functions and of the screens *)

(** ** Requests that do not reach the store *)

(** X1: a preflight (OPTIONS) is answered 200 with no body by both
    functions, by counting-data also without an Authorization header; a
    method other than OPTIONS, GET and POST is answered 405 "Method not
    allowed" (by counting-data once the header is there); a POST whose body
    is not JSON is answered 500. In all these cases the store is left as it
    is. *)
Theorem requests_answered_without_the_store :
  forall env db,
    (forall req : Request Store.PerformanceInsert,
        method req = "OPTIONS" ->
        WorkerPerformanceFunction.handle env req db = (db, json_response no_body)) /\
    (forall req : Request CountingDataFunction.CountBody,
        method req = "OPTIONS" ->
        CountingDataFunction.handle env req db = (db, json_response no_body)) /\
    (forall req : Request Store.PerformanceInsert,
        method req <> "OPTIONS" -> method req <> "GET" -> method req <> "POST" ->
        WorkerPerformanceFunction.handle env req db
        = (db, error_response (text "Method not allowed") 405)) /\
    (forall (req : Request CountingDataFunction.CountBody) h,
        truthy (authorization req) = Some h ->
        method req <> "OPTIONS" -> method req <> "GET" -> method req <> "POST" ->
        CountingDataFunction.handle env req db
        = (db, error_response (text "Method not allowed") 405)) /\
    (forall req : Request Store.PerformanceInsert,
        method req = "POST" -> json req = None ->
        WorkerPerformanceFunction.handle env req db
        = (db, error_response body_not_json 500)) /\
    (forall (req : Request CountingDataFunction.CountBody) h,
        truthy (authorization req) = Some h ->
        method req = "POST" -> json req = None ->
        CountingDataFunction.handle env req db
        = (db, error_response body_not_json 500)).
Proof.
  intros env db.
  unfold WorkerPerformanceFunction.handle, WorkerPerformanceFunction.serve,
    CountingDataFunction.handle, CountingDataFunction.serve.
  repeat split.
  - intros req ->. reflexivity.
  - intros req ->. reflexivity.
  - intros req Ho Hg Hp.
    apply String.eqb_neq in Ho, Hg, Hp. rewrite Ho, Hg, Hp. reflexivity.
  - intros req h Hh Ho Hg Hp.
    apply String.eqb_neq in Ho, Hg, Hp. rewrite Ho, Hg, Hp, Hh. reflexivity.
  - intros req -> ->. reflexivity.
  - intros req h Hh -> ->. simpl. rewrite Hh. reflexivity.
Qed.

Lemma requests_answered_without_the_store_witness :
  CountingDataFunction.handle Sample.env
    (with_route "DELETE" "/counting-data" (Sample.count "s-1" "BIN001" 10 10))
    Sample.started
  = (Sample.started, error_response (text "Method not allowed") 405).
Proof.
  apply (proj1 (proj2 (proj2 (proj2
           (requests_answered_without_the_store Sample.env Sample.started))))
           (with_route "DELETE" "/counting-data" (Sample.count "s-1" "BIN001" 10 10))
           "Bearer token");
    [reflexivity | discriminate | discriminate | discriminate].
Defined.

(** ** Today's statistics by path *)

Lemma split_slash_aux_app (s t acc : string) :
  split_slash_aux acc (s ++ String "/" t)
  = (split_slash_aux acc s ++ split_slash_aux "" t)%list.
Proof.
  revert acc. induction s as [|c s IH]; intros acc; simpl.
  - reflexivity.
  - destruct (Ascii.eqb c "/"); simpl; now rewrite IH.
Qed.

Lemma string_app_empty (s : string) : s ++ "" = s.
Proof. induction s as [|a s IH]; simpl; [reflexivity | now rewrite IH]. Qed.

Lemma string_app_assoc (s t u : string) : (s ++ t) ++ u = s ++ t ++ u.
Proof. induction s as [|a s IH]; simpl; [reflexivity | now rewrite IH]. Qed.

Lemma split_slash_aux_segment (s acc : string) :
  no_slash s = true -> split_slash_aux acc s = [acc ++ s].
Proof.
  revert acc. induction s as [|c s IH]; intros acc H; simpl in *.
  - now rewrite string_app_empty.
  - apply andb_true_iff in H. destruct H as [Hc Hs].
    apply negb_true_iff in Hc. rewrite Hc, (IH _ Hs).
    now rewrite string_app_assoc.
Qed.

Lemma today_path_parts (prefix id : string) :
  no_slash id = true ->
  includes "today" (split_slash (prefix ++ "/today/" ++ id)) = true /\
  last (split_slash (prefix ++ "/today/" ++ id)) "" = id.
Proof.
  intros Hid. unfold split_slash.
  change (prefix ++ "/today/" ++ id) with (prefix ++ String "/" ("today" ++ String "/" id)).
  rewrite split_slash_aux_app, split_slash_aux_app.
  rewrite (split_slash_aux_segment "today" "" eq_refl).
  rewrite (split_slash_aux_segment id "" Hid). simpl ("" ++ _).
  split.
  - unfold includes. rewrite !existsb_app. simpl. now rewrite orb_true_r.
  - rewrite app_assoc. apply last_last.
Qed.



(** ** Submitted rows and today's statistics *)

Lemma insert_worker_performance_inr env p db r db' :
  Store.insert_worker_performance env p db = inr (r, db') ->
  worker_performance db' = (worker_performance db ++ [r])%list /\
  users db' = users db /\ counting_sessions db' = counting_sessions db /\
  counting_data db' = counting_data db /\ audit_logs db' = audit_logs db /\
  Some (username r) = Store.pi_username p /\
  date r = Store.or_else (Store.pi_date p) (today env).
Proof.
  unfold Store.insert_worker_performance.
  destruct (Store.pi_wh_name p) as [wh|]; [|discriminate].
  destruct (Store.pi_username p) as [un|]; [|discriminate].
  destruct (existsb _ _); [discriminate|].
  destruct (Store.performance_row_ok _); [|discriminate].
  intros H. injection H as <- <-. simpl. repeat split.
Qed.

(** A POST to worker-performance answered 200 inserted the row of its
    body. *)
Lemma post_performance_ok env (req : Request Store.PerformanceInsert) db db' response :
  method req = "POST" ->
  WorkerPerformanceFunction.handle env req db = (db', response) ->
  http_status response = 200 ->
  exists pd r, json req = Some pd /\
    Store.insert_worker_performance env pd db = inr (r, db').
Proof.
  intros Hm. unfold WorkerPerformanceFunction.handle, WorkerPerformanceFunction.serve.
  rewrite Hm. simpl.
  destruct (json req) as [pd|].
  - unfold run, bind, exec, leave, ret.
    destruct (Store.insert_worker_performance env pd db) as [e|[r db1]] eqn:Hins.
    + intros H Hs. injection H as _ <-. discriminate.
    + intros H _. injection H as <- _. exists pd, r. split; [reflexivity | exact Hins].
  - unfold run, throw, leave. intros H Hs. injection H as _ <-. discriminate.
Qed.

(** X3: once a worker who has a row for today is given a further row for
    today by a POST to worker-performance (answered 200), the statistics of
    the day no longer show any of them: GET .../today/{id} answers all
    zeros, since it reads the row of the day only when there is exactly
    one. *)
Theorem duplicate_row_hides_todays_figures :
  forall env (post get : Request Store.PerformanceInsert) pd prefix id u db db' response,
    method post = "POST" -> json post = Some pd ->
    WorkerPerformanceFunction.handle env post db = (db', response) ->
    http_status response = 200 ->
    Store.user_by_id id db = Some u ->
    Store.pi_username pd = Some (user_id u) ->
    Store.or_else (Store.pi_date pd) (today env) = today env ->
    Store.day_rows (user_id u) (today env) db <> [] ->
    no_slash id = true ->
    WorkerPerformanceFunction.handle env
      (with_route "GET" (prefix ++ "/today/" ++ id) get) db'
    = (db', json_response (stats_body zero_stats)).
Proof.
  intros env post get pd prefix id u db db' response Hm Hjson Hpost Hok Hu Hun Hdate Hrows Hid.
  destruct (post_performance_ok env post db db' response Hm Hpost Hok)
    as (pd' & r & Hjson' & Hins).
  rewrite Hjson in Hjson'. injection Hjson' as <-.
  apply insert_worker_performance_inr in Hins.
  destruct Hins as (Hwp & Husers & _ & _ & _ & Hr_un & Hr_date).
  rewrite Hun in Hr_un. injection Hr_un as Hr_un. rewrite Hdate in Hr_date.
  destruct (today_path_parts prefix id Hid) as [Hinc Hlast].
  unfold WorkerPerformanceFunction.handle, WorkerPerformanceFunction.serve.
  cbn [method pathname with_route].
  change ("GET" =? "OPTIONS")%string with false.
  change ("GET" =? "GET")%string with true. cbv iota.
  rewrite Hinc, Hlast.
  unfold run, bind, query, leave, ret.
  unfold Store.user_by_id in *. rewrite Husers, Hu.
  unfold WorkerPerformanceFunction.today_row, Store.day_rows in *.
  rewrite Hwp, filter_app. simpl filter at 2.
  rewrite Hr_un, Hr_date, !String.eqb_refl. simpl.
  destruct (filter _ (worker_performance db)) as [|x [|y l]]; [contradiction| |]; reflexivity.
Qed.

Lemma duplicate_row_hides_todays_figures_witness :
  WorkerPerformanceFunction.handle Sample.env
    (with_route "GET" ("/worker-performance" ++ "/today/" ++ "w-1")
       (Sample.get_performance "" []))
    (fst (WorkerPerformanceFunction.handle Sample.env
            (Sample.post_performance Sample.submitted)
            (Sample.with_performance
               [Sample.performance "p-1" "A" "workerW" 3 30 60 300 None] Sample.started)))
  = (fst (WorkerPerformanceFunction.handle Sample.env
            (Sample.post_performance Sample.submitted)
            (Sample.with_performance
               [Sample.performance "p-1" "A" "workerW" 3 30 60 300 None] Sample.started)),
     json_response (stats_body zero_stats)).
Proof.
  apply (duplicate_row_hides_todays_figures Sample.env
           (Sample.post_performance Sample.submitted) (Sample.get_performance "" [])
           Sample.submitted "/worker-performance" "w-1" Sample.W
           (Sample.with_performance
              [Sample.performance "p-1" "A" "workerW" 3 30 60 300 None] Sample.started)
           _
           (snd (WorkerPerformanceFunction.handle Sample.env
                   (Sample.post_performance Sample.submitted)
                   (Sample.with_performance
                      [Sample.performance "p-1" "A" "workerW" 3 30 60 300 None]
                      Sample.started))));
    try reflexivity.
  discriminate.
Defined.

(** ** The leaderboard and the rows it ranks *)

Lemma set_ranking_same r : set_ranking (ranking r) r = r.
Proof. destruct r; reflexivity. Qed.

Lemma rank_row_set item r :
  rank_row item r
  = set_ranking
      (if Store.performance_patch_ok (WorkerPerformanceFunction.ranking_patch (ranking item))
          && (wp_id r =? wp_id item)%string
       then match ranking item with Some v => Some v | None => ranking r end
       else ranking r) r.
Proof.
  unfold rank_row.
  destruct (_ && _); [reflexivity | now rewrite set_ranking_same].
Qed.

Lemma rank_rows_final items r :
  rank_rows items r = set_ranking (final_rank items (wp_id r) (ranking r)) r.
Proof.
  unfold rank_rows, final_rank. revert r.
  induction items as [|x items IH]; intros r; simpl.
  - now rewrite set_ranking_same.
  - rewrite rank_row_set, IH. reflexivity.
Qed.

Lemma final_rank_cases items id :
  (forall rk, final_rank items id rk = rk) \/
  (exists c, forall rk, final_rank items id rk = c).
Proof.
  unfold final_rank. induction items as [|x items IH]; simpl.
  - left. reflexivity.
  - destruct IH as [IH | [c IH]].
    + destruct (_ && _).
      * destruct (ranking x) as [v|].
        -- right. exists (Some v). intros rk. apply IH.
        -- left. intros rk. apply IH.
      * left. intros rk. apply IH.
    + right. exists c. intros rk. apply IH.
Qed.

Lemma rank_rows_idem items r : rank_rows items (rank_rows items r) = rank_rows items r.
Proof.
  rewrite (rank_rows_final items r), (rank_rows_final items (set_ranking _ r)).
  simpl wp_id. simpl ranking.
  destruct (final_rank_cases items (wp_id r)) as [H | [c H]].
  - rewrite !H. destruct r; reflexivity.
  - rewrite !H. reflexivity.
Qed.

Lemma rank_rows_same items r : same_but_ranking r (rank_rows items r).
Proof. rewrite rank_rows_final. repeat split. Qed.

Lemma set_worker_performance_same db :
  Store.set_worker_performance (worker_performance db) db = db.
Proof. destruct db; reflexivity. Qed.

(** The loop over the ranked items, whatever the store makes of each
    update. *)
Lemma rank_loop_rows (items : list WorkerPerformance) (db : DB) :
  for_each items
    (fun item =>
       _ <- exec0 (Store.update_worker_performance (wp_id item)
                     (WorkerPerformanceFunction.ranking_patch (ranking item))) ;;
       ret tt) db
  = (Store.set_worker_performance (map (rank_rows items) (worker_performance db)) db,
     inr tt).
Proof.
  revert db. induction items as [|x items IH]; intros db.
  - simpl. unfold ret, rank_rows. simpl. now rewrite map_id, set_worker_performance_same.
  - simpl for_each. unfold bind at 1. unfold bind at 1, exec0, ret.
    unfold Store.update_worker_performance.
    assert (Hrow : forall r,
               (if Store.performance_patch_ok
                     (WorkerPerformanceFunction.ranking_patch (ranking x))
                then if (wp_id r =? wp_id x)%string
                     then Store.patch_performance
                            (WorkerPerformanceFunction.ranking_patch (ranking x)) r
                     else r
                else r) = rank_row x r).
    { intros r. unfold rank_row. destruct (Store.performance_patch_ok _); reflexivity. }
    assert (Hgoal : forall rows1,
               rows1 = map (rank_row x) (worker_performance db) ->
               (Store.set_worker_performance
                  (map (rank_rows items)
                     (worker_performance (Store.set_worker_performance rows1 db)))
                  (Store.set_worker_performance rows1 db), @inr Response unit tt)
               = (Store.set_worker_performance
                    (map (rank_rows (x :: items)) (worker_performance db)) db, inr tt)).
    { intros rows1 ->. unfold Store.set_worker_performance. simpl.
      rewrite map_map. reflexivity. }
    destruct (Store.performance_patch_ok _) eqn:Hok.
    + rewrite IH. apply Hgoal. apply map_ext. intros r. apply Hrow.
    + rewrite IH. rewrite <- (set_worker_performance_same db) at 1 2.
      apply Hgoal. rewrite <- (map_id (worker_performance db)) at 1.
      apply map_ext. intros r. apply Hrow.
Qed.

(** How a GET that is not for today's statistics runs. *)
Lemma list_performance_result env (req : Request Store.PerformanceInsert) db :
  method req = "GET" ->
  includes "today" (split_slash (pathname req)) = false ->
  (exists e, WorkerPerformanceFunction.handle env req db
             = (db, error_response (store_error e) 400))
  \/
  (exists n,
      JSNumber.parseInt (Store.or_else (truthy (get "limit" (searchParams req))) "50")
      = Some n /\ 0 <= n /\
      let data :=
        WorkerPerformanceFunction.rank_from 0
          (leaderboard (Store.or_else (truthy (get "date" (searchParams req))) (today env))
                       (truthy (get "warehouse" (searchParams req))) n db) in
      WorkerPerformanceFunction.handle env req db
      = (Store.set_worker_performance (map (rank_rows data) (worker_performance db)) db,
         json_response (performance_list data))).
Proof.
  intros Hm Ht.
  unfold WorkerPerformanceFunction.handle, WorkerPerformanceFunction.serve.
  rewrite Hm, Ht. simpl.
  unfold run, bind, query, leave, ret, Store.select_performance.
  destruct (JSNumber.parseInt _) as [n|]; [|left; eexists; reflexivity].
  destruct (n <? 0) eqn:En; [left; eexists; reflexivity|].
  apply Z.ltb_ge in En. right. exists n. split; [reflexivity|]. split; [exact En|].
  cbv beta iota zeta.
  fold (leaderboard (Store.or_else (truthy (get "date" (searchParams req))) (today env))
          (truthy (get "warehouse" (searchParams req))) n db).
  set (data := WorkerPerformanceFunction.rank_from 0 _).
  pose proof (rank_loop_rows data db) as Hloop.
  unfold bind, ret in Hloop. rewrite Hloop. reflexivity.
Qed.

(** A request to worker-performance that is not a POST either leaves the
    store as it is or is a listing. *)
Lemma worker_performance_reads env (req : Request Store.PerformanceInsert) db :
  method req <> "POST" ->
  (exists response, WorkerPerformanceFunction.handle env req db = (db, response)) \/
  (method req = "GET" /\ includes "today" (split_slash (pathname req)) = false).
Proof.
  intros Hp.
  destruct (method req =? "GET")%string eqn:Hg.
  - apply String.eqb_eq in Hg.
    destruct (includes "today" (split_slash (pathname req))) eqn:Ht; [|now right].
    left. unfold WorkerPerformanceFunction.handle, WorkerPerformanceFunction.serve.
    rewrite Hg, Ht. simpl. unfold run, bind, query, leave, ret.
    destruct (Store.user_by_id _ db); eexists; reflexivity.
  - left. unfold WorkerPerformanceFunction.handle, WorkerPerformanceFunction.serve.
    rewrite Hg. apply String.eqb_neq in Hp. rewrite Hp.
    destruct (method req =? "OPTIONS")%string; eexists; reflexivity.
Qed.

Lemma Forall2_filter_same {A : Type} (R : A -> A -> Prop) (p : A -> bool) (l l' : list A) :
  (forall a b, R a b -> p a = p b) ->
  Forall2 R l l' -> Forall2 R (filter p l) (filter p l').
Proof.
  intros Hp H. induction H as [|a b l l' Hab _ IH]; simpl; [constructor|].
  rewrite (Hp a b Hab). destruct (p b); [constructor; assumption | assumption].
Qed.

Lemma Forall2_insert_desc {A : Type} (R : A -> A -> Prop) (key : A -> Z) (x y : A)
  (l l' : list A) :
  (forall a b, R a b -> key a = key b) ->
  R x y -> Forall2 R l l' ->
  Forall2 R (Store.insert_desc key x l) (Store.insert_desc key y l').
Proof.
  intros Hk Hxy H. induction H as [|a b l l' Hab Hl IH]; simpl.
  - repeat constructor. exact Hxy.
  - rewrite (Hk a b Hab), (Hk x y Hxy).
    destruct (key b <=? key y); repeat constructor; assumption.
Qed.

Lemma Forall2_order_desc {A : Type} (R : A -> A -> Prop) (key : A -> Z) (l l' : list A) :
  (forall a b, R a b -> key a = key b) ->
  Forall2 R l l' -> Forall2 R (Store.order_desc key l) (Store.order_desc key l').
Proof.
  intros Hk H. unfold Store.order_desc.
  induction H as [|a b l l' Hab _ IH]; simpl; [constructor|].
  now apply Forall2_insert_desc.
Qed.

Lemma Forall2_firstn_same {A : Type} (R : A -> A -> Prop) (n : nat) (l l' : list A) :
  Forall2 R l l' -> Forall2 R (firstn n l) (firstn n l').
Proof.
  intros H. revert n. induction H as [|a b l l' Hab _ IH]; intros [|n]; simpl;
    constructor; [assumption | apply IH].
Qed.

Lemma leaderboard_same d wh n db db' :
  Forall2 same_but_ranking (worker_performance db) (worker_performance db') ->
  Forall2 same_but_ranking (leaderboard d wh n db) (leaderboard d wh n db').
Proof.
  intros H. unfold leaderboard.
  apply Forall2_firstn_same, Forall2_order_desc.
  - intros a b Hab. symmetry. apply Hab.
  - assert (Hd : Forall2 same_but_ranking
                   (filter (fun r => (date r =? d)%string) (worker_performance db))
                   (filter (fun r => (date r =? d)%string) (worker_performance db'))).
    { apply Forall2_filter_same; [|exact H].
      intros a b Hab. destruct Hab as (_ & _ & -> & _). reflexivity. }
    destruct wh as [w|]; [|exact Hd].
    apply Forall2_filter_same; [|exact Hd].
    intros a b Hab. destruct Hab as (_ & -> & _). reflexivity.
Qed.

Lemma rank_from_same i l l' :
  Forall2 same_but_ranking l l' ->
  WorkerPerformanceFunction.rank_from i l = WorkerPerformanceFunction.rank_from i l'.
Proof.
  intros H. revert i. induction H as [|a b l l' Hab _ IH]; intros i; simpl; [reflexivity|].
  rewrite IH. f_equal.
  destruct Hab as (H1 & H2 & H3 & H4 & H5 & H6 & H7 & H8 & H9).
  unfold WorkerPerformanceFunction.with_ranking. congruence.
Qed.

Lemma map_rank_rows_same items rows :
  Forall2 same_but_ranking rows (map (rank_rows items) rows).
Proof.
  induction rows as [|r rows IH]; simpl; constructor; [apply rank_rows_same | exact IH].
Qed.

(** X4: a GET (and any request other than a POST) to worker-performance is
    idempotent: sent again on the store the first one left, it gets the same
    answer and leaves the store as it found it. A listing writes the ranks
    it answers with; listing again computes the same ranks and writes them
    over themselves. The rows of the date asked for are taken to have
    pairwise distinct efficiencies, so that their order is determined. *)
Theorem worker_performance_get_idempotent :
  forall env (req : Request Store.PerformanceInsert) db,
    method req <> "POST" ->
    NoDup (map efficiency
             (filter (fun r =>
                        (date r =? Store.or_else (truthy (get "date" (searchParams req)))
                                     (today env))%string)
                     (worker_performance db))) ->
    WorkerPerformanceFunction.handle env req
      (fst (WorkerPerformanceFunction.handle env req db))
    = WorkerPerformanceFunction.handle env req db.
Proof.
  intros env req db Hp _.
  destruct (worker_performance_reads env req db Hp) as [[response H] | [Hg Ht]].
  { rewrite H. simpl. exact H. }
  destruct (list_performance_result env req db Hg Ht) as [[e H] | (n & Hn & Hn0 & H)].
  { rewrite H. simpl. exact H. }
  cbv zeta in H. rewrite H. cbn [fst].
  set (d := Store.or_else (truthy (get "date" (searchParams req))) (today env)) in *.
  set (wh := truthy (get "warehouse" (searchParams req))) in *.
  set (data := WorkerPerformanceFunction.rank_from 0 (leaderboard d wh n db)) in *.
  set (db1 := Store.set_worker_performance (map (rank_rows data) (worker_performance db)) db).
  destruct (list_performance_result env req db1 Hg Ht) as [[e H1] | (n1 & Hn1 & _ & H1)].
  { exfalso. revert H1.
    unfold WorkerPerformanceFunction.handle, WorkerPerformanceFunction.serve.
    rewrite Hg, Ht. simpl.
    unfold run, bind, query, leave, ret, Store.select_performance.
    rewrite Hn. replace (n <? 0) with false by (symmetry; apply Z.ltb_ge; exact Hn0).
    cbv beta iota zeta.
    match goal with |- context [for_each ?items ?f db1] =>
      pose proof (rank_loop_rows items db1) as Hloop end.
    unfold bind, ret in Hloop. rewrite Hloop. discriminate. }
  rewrite Hn in Hn1. injection Hn1 as <-.
  cbv zeta in H1. rewrite H1.
  fold d wh.
  assert (Hsame : WorkerPerformanceFunction.rank_from 0 (leaderboard d wh n db1) = data).
  { symmetry. apply rank_from_same, leaderboard_same.
    unfold db1. simpl. apply map_rank_rows_same. }
  rewrite Hsame. f_equal.
  unfold db1, Store.set_worker_performance. simpl. f_equal.
  rewrite map_map. apply map_ext. intros r. apply rank_rows_idem.
Qed.

Lemma worker_performance_get_idempotent_witness :
  WorkerPerformanceFunction.handle Sample.env Sample.top_two
    (fst (WorkerPerformanceFunction.handle Sample.env Sample.top_two Sample.three_workers))
  = WorkerPerformanceFunction.handle Sample.env Sample.top_two Sample.three_workers.
Proof.
  apply (worker_performance_get_idempotent Sample.env Sample.top_two Sample.three_workers).
  - discriminate.
  - simpl. repeat constructor; simpl; intuition discriminate.
Defined.

Lemma same_but_ranking_refl (l : list WorkerPerformance) : Forall2 same_but_ranking l l.
Proof. induction l; constructor; [repeat split | assumption]. Qed.

(** X5: whatever the request, worker-performance leaves the users, the
    sessions, the counting records and the audit log as they are. A request
    other than a POST keeps every performance row in place and changes no
    column of it but the ranking; a POST appends at most one row and
    changes none. *)
Theorem worker_performance_frame :
  forall env (req : Request Store.PerformanceInsert) db,
    let db' := fst (WorkerPerformanceFunction.handle env req db) in
    users db' = users db /\ counting_sessions db' = counting_sessions db /\
    counting_data db' = counting_data db /\ audit_logs db' = audit_logs db /\
    (method req <> "POST" ->
     Forall2 same_but_ranking (worker_performance db) (worker_performance db')) /\
    (method req = "POST" ->
     worker_performance db' = worker_performance db \/
     exists r, worker_performance db' = (worker_performance db ++ [r])%list).
Proof.
  intros env req db db'. subst db'.
  destruct (String.eqb_spec (method req) "POST") as [Hp | Hp].
  - assert (H : fst (WorkerPerformanceFunction.handle env req db) = db \/
                exists pd r,
                  Store.insert_worker_performance env pd db
                  = inr (r, fst (WorkerPerformanceFunction.handle env req db))).
    { unfold WorkerPerformanceFunction.handle, WorkerPerformanceFunction.serve.
      rewrite Hp. simpl.
      destruct (json req) as [pd|]; [|left; reflexivity].
      unfold run, bind, exec, leave, ret.
      destruct (Store.insert_worker_performance env pd db) as [e|[r db1]] eqn:Hins;
        [left; reflexivity|].
      right. exists pd, r. exact Hins. }
    destruct H as [-> | (pd & r & Hins)].
    + repeat split; try reflexivity; [contradiction | now left].
    + apply insert_worker_performance_inr in Hins.
      destruct Hins as (Hwp & Hu & Hs & Hc & Ha & _).
      repeat split; try assumption; [contradiction|].
      right. exists r. exact Hwp.
  - assert (H : fst (WorkerPerformanceFunction.handle env req db) = db \/
                exists items,
                  fst (WorkerPerformanceFunction.handle env req db)
                  = Store.set_worker_performance
                      (map (rank_rows items) (worker_performance db)) db).
    { destruct (worker_performance_reads env req db Hp) as [[response H] | [Hg Ht]];
        [left; now rewrite H|].
      destruct (list_performance_result env req db Hg Ht) as [[e H] | (n & _ & _ & H)];
        [left; now rewrite H|].
      right. eexists. cbv zeta in H. rewrite H. reflexivity. }
    destruct H as [-> | (items & ->)].
    + repeat split; try reflexivity; [intros _; apply same_but_ranking_refl | contradiction].
    + simpl. repeat split; [intros _; apply map_rank_rows_same | contradiction].
Qed.

Lemma worker_performance_frame_witness :
  Forall2 same_but_ranking (worker_performance Sample.three_workers)
    (worker_performance
       (fst (WorkerPerformanceFunction.handle Sample.env Sample.top_two
               Sample.three_workers))).
Proof.
  apply (proj1 (proj2 (proj2 (proj2 (proj2
           (worker_performance_frame Sample.env Sample.top_two Sample.three_workers)))))).
  discriminate.
Defined.

Lemma leaderboard_selected d wh n db r :
  In r (leaderboard d wh n db) ->
  date r = d /\ (forall w, wh = Some w -> wh_name r = w).
Proof.
  unfold leaderboard. intros H. apply firstn_In in H.
  apply (Permutation_in _ (order_desc_perm efficiency _)) in H.
  destruct wh as [w|].
  - apply filter_In in H. destruct H as [H Hw]. apply filter_In in H. destruct H as [_ Hd].
    apply String.eqb_eq in Hw, Hd. split; [exact Hd|]. intros w' E. now injection E as <-.
  - apply filter_In in H. destruct H as [_ Hd]. apply String.eqb_eq in Hd.
    split; [exact Hd | discriminate].
Qed.

Lemma filter_filter {A : Type} (p q : A -> bool) (l : list A) :
  filter p (filter q l) = filter (fun x => q x && p x) l.
Proof.
  induction l as [|a l IH]; simpl; [reflexivity|].
  destruct (q a); simpl; [destruct (p a)|]; now rewrite IH.
Qed.

Lemma order_desc_length {A : Type} (key : A -> Z) (l : list A) :
  List.length (Store.order_desc key l) = List.length l.
Proof. apply Permutation_length. apply order_desc_perm. Qed.

(** X6: a GET of the leaderboard whose date (today's when the parameter is
    absent or empty) is a calendar date written year-month-day and whose
    limit (50 when the parameter is absent or empty) reads as a number n
    from 1 to 2^31 - 1 is answered 200 with a list. Every row of the list
    is of that date, and of the warehouse asked for when one is given; the
    list has as many rows as the table has for that date and warehouse,
    but n at most. *)
Theorem listing_filters_and_limit :
  forall env (req : Request Store.PerformanceInsert) db n,
    method req = "GET" ->
    includes "today" (split_slash (pathname req)) = false ->
    let d := Store.or_else (truthy (get "date" (searchParams req))) (today env) in
    let wh := truthy (get "warehouse" (searchParams req)) in
    iso_date d = true ->
    JSNumber.parseInt (Store.or_else (truthy (get "limit" (searchParams req))) "50")
    = Some n ->
    0 < n < 2 ^ 31 ->
    exists data,
      snd (WorkerPerformanceFunction.handle env req db)
      = json_response (performance_list data) /\
      (forall item, In item data ->
         date item = d /\ (forall w, wh = Some w -> wh_name item = w)) /\
      List.length data
      = Nat.min (Z.to_nat n)
          (List.length
             (filter (fun r => (date r =? d)%string &&
                               match wh with
                               | Some w => (wh_name r =? w)%string
                               | None => true
                               end)
                     (worker_performance db))) /\
      (truthy (get "limit" (searchParams req)) = None -> n = 50).
Proof.
  intros env req db n Hm Ht d wh _ Hn Hpos.
  destruct (list_performance_result env req db Hm Ht)
    as [(e & He) | (n' & Hn' & _ & Hh)].
  { exfalso. revert He.
    unfold WorkerPerformanceFunction.handle, WorkerPerformanceFunction.serve.
    rewrite Hm, Ht. simpl.
    unfold run, bind, query, leave, ret, Store.select_performance.
    rewrite Hn. replace (n <? 0) with false by (symmetry; apply Z.ltb_ge; lia).
    match goal with |- context [for_each ?l ?f db] =>
      destruct (rank_loop_total l db) as [dbx Hx] end.
    unfold bind, ret in Hx. rewrite Hx. discriminate. }
  rewrite Hn in Hn'. injection Hn' as <-.
  cbv zeta in Hh. fold d wh in Hh.
  exists (WorkerPerformanceFunction.rank_from 0 (leaderboard d wh n db)).
  rewrite Hh. split; [reflexivity|]. split; [|split].
  - intros item Hin.
    destruct (rank_from_In _ _ _ Hin) as (r & rk & Hr & -> & _).
    apply leaderboard_selected in Hr. exact Hr.
  - rewrite rank_from_length. unfold leaderboard.
    rewrite length_firstn, order_desc_length. f_equal.
    destruct wh as [w|].
    + now rewrite filter_filter.
    + f_equal. apply filter_ext. intros r. now rewrite andb_true_r.
  - intros Hnone. rewrite Hnone in Hn. simpl in Hn.
    change (JSNumber.parseInt "50") with (Some 50) in Hn. now injection Hn as <-.
Qed.

Lemma listing_filters_and_limit_witness :
  exists data,
    snd (WorkerPerformanceFunction.handle Sample.env Sample.top_two Sample.three_workers)
    = json_response (performance_list data) /\
    (forall item, In item data -> date item = "2024-03-01" /\ wh_name item = "A") /\
    List.length data = 2%nat.
Proof.
  destruct (listing_filters_and_limit Sample.env Sample.top_two Sample.three_workers 2
              eq_refl eq_refl eq_refl eq_refl ltac:(lia))
    as (data & Hh & Hrows & Hlen & _).
  exists data. split; [exact Hh|]. split; [|exact Hlen].
  intros item Hin. destruct (Hrows item Hin) as [Hd Hw].
  split; [exact Hd | exact (Hw "A" eq_refl)].
Defined.

Lemma final_rank_absent items id rk :
  ~ In id (map wp_id items) -> final_rank items id rk = rk.
Proof.
  unfold final_rank. revert rk. induction items as [|x items IH]; intros rk Hn; simpl.
  - reflexivity.
  - assert (Hx : (id =? wp_id x)%string = false)
      by (apply String.eqb_neq; intros E; apply Hn; now left).
    rewrite Hx, andb_false_r. apply IH. intros Hin. apply Hn. now right.
Qed.

Lemma final_rank_of_item items item k rk :
  NoDup (map wp_id items) -> In item items ->
  ranking item = Some k -> Store.int4 k = true ->
  final_rank items (wp_id item) rk = Some k.
Proof.
  revert rk. induction items as [|x items IH]; intros rk Hnd Hin Hk Hok; [contradiction|].
  inversion Hnd as [|? ? Hx Hnd']; subst.
  destruct Hin as [-> | Hin].
  - unfold final_rank. simpl. fold (final_rank items (wp_id item)).
    rewrite Hk, String.eqb_refl.
    unfold Store.performance_patch_ok. simpl. rewrite Hok. simpl.
    now apply final_rank_absent.
  - unfold final_rank. simpl. fold (final_rank items (wp_id item)).
    now apply IH.
Qed.

(** X7: the rank a listing gives a worker's row of today is the ranking
    today's statistics of that worker show afterwards, next to the figures
    of the row (ids of the table distinct, fewer than 2^31 rows, one row of
    today for the worker). *)
Theorem listed_rank_shows_in_todays_statistics :
  forall env (list get : Request Store.PerformanceInsert) prefix id u db db' response
         data item p,
    WorkerPerformanceFunction.handle env list db = (db', response) ->
    body response = performance_list data ->
    NoDup (map wp_id (worker_performance db)) ->
    Z.of_nat (List.length (worker_performance db)) < 2 ^ 31 ->
    Store.user_by_id id db = Some u ->
    Store.day_rows (user_id u) (today env) db = [p] ->
    In item data -> wp_id item = wp_id p ->
    no_slash id = true ->
    exists k,
      ranking item = Some k /\ 1 <= k <= Z.of_nat (List.length data) /\
      WorkerPerformanceFunction.handle env
        (with_route "GET" (prefix ++ "/today/" ++ id) get) db'
      = (db', json_response (stats_body
                {| todayBins := no_of_bins_counted p;
                   todayQuantity := no_of_qty_counted p;
                   todayTime := time_taken_minutes p;
                   stats_efficiency := efficiency p;
                   stats_ranking := k |})).
Proof.
  intros env list get prefix id u db db' response data item p
    Hh Hb Hnd Hlen Hu Hrows Hitem Hid Hslash.
  destruct (list_performance_runs env list db db' response data Hh Hb)
    as (n & Hn & Hn0 & Hdata & Hloop).
  rewrite rank_loop_rows in Hloop. injection Hloop as Hdb'.
  set (L := leaderboard _ _ n db) in Hdata.
  assert (HL : (List.length L <= List.length (worker_performance db))%nat)
    by apply leaderboard_length.
  pose proof Hitem as Hitem'. rewrite Hdata in Hitem'.
  destruct (rank_from_In _ _ _ Hitem') as (r & k & Hr & Eitem & Hk).
  assert (Hkr : ranking item = Some k) by (rewrite Eitem; reflexivity).
  assert (Hlen' : List.length data = List.length L)
    by (rewrite Hdata; apply rank_from_length).
  exists k. split; [exact Hkr|]. split; [lia|].
  assert (Hfinal : rank_rows data p = set_ranking (Some k) p).
  { rewrite rank_rows_final, <- Hid. f_equal.
    apply final_rank_of_item; [| exact Hitem | exact Hkr |].
    - rewrite Hdata, rank_from_ids. now apply leaderboard_ids_NoDup.
    - unfold Store.int4. apply andb_true_iff. split; apply Z.leb_le; lia. }
  destruct (today_path_parts prefix id Hslash) as [Hinc Hlast].
  unfold WorkerPerformanceFunction.handle, WorkerPerformanceFunction.serve.
  cbn [method pathname with_route].
  change ("GET" =? "OPTIONS")%string with false.
  change ("GET" =? "GET")%string with true. cbv iota.
  rewrite Hinc, Hlast.
  unfold run, bind, query, leave, ret.
  assert (Hu' : Store.user_by_id id db' = Some u) by (rewrite <- Hdb'; exact Hu).
  rewrite Hu'.
  assert (Hrows' : Store.day_rows (user_id u) (today env) db' = [rank_rows data p]).
  { rewrite <- Hdb'. unfold Store.day_rows in *. simpl.
    rewrite filter_map_same, Hrows; [reflexivity|].
    intros x. destruct (rank_rows_same data x) as (_ & _ & -> & -> & _). reflexivity. }
  unfold WorkerPerformanceFunction.today_row. rewrite Hrows', Hfinal. reflexivity.
Qed.

Lemma listed_rank_shows_in_todays_statistics_witness :
  exists k,
    ranking (WorkerPerformanceFunction.with_ranking
               (Sample.performance "p-1" "A" "workerW" 3 30 60 300 None) 1) = Some k /\
    1 <= k <= Z.of_nat (List.length
                          [WorkerPerformanceFunction.with_ranking
                             (Sample.performance "p-1" "A" "workerW" 3 30 60 300 None) 1]) /\
    WorkerPerformanceFunction.handle Sample.env
      (with_route "GET" ("/worker-performance" ++ "/today/" ++ "w-1")
         (Sample.get_performance "" []))
      (fst (WorkerPerformanceFunction.handle Sample.env Sample.top_two
              (Sample.with_performance
                 [Sample.performance "p-1" "A" "workerW" 3 30 60 300 None] Sample.started)))
    = (fst (WorkerPerformanceFunction.handle Sample.env Sample.top_two
              (Sample.with_performance
                 [Sample.performance "p-1" "A" "workerW" 3 30 60 300 None] Sample.started)),
       json_response (stats_body
         {| todayBins := 3; todayQuantity := 30; todayTime := 60;
            stats_efficiency := 300; stats_ranking := k |})).
Proof.
  apply (listed_rank_shows_in_todays_statistics Sample.env Sample.top_two
           (Sample.get_performance "" []) "/worker-performance" "w-1" Sample.W
           (Sample.with_performance
              [Sample.performance "p-1" "A" "workerW" 3 30 60 300 None] Sample.started)
           _
           (snd (WorkerPerformanceFunction.handle Sample.env Sample.top_two
                   (Sample.with_performance
                      [Sample.performance "p-1" "A" "workerW" 3 30 60 300 None]
                      Sample.started)))
           [WorkerPerformanceFunction.with_ranking
              (Sample.performance "p-1" "A" "workerW" 3 30 60 300 None) 1]
           (WorkerPerformanceFunction.with_ranking
              (Sample.performance "p-1" "A" "workerW" 3 30 60 300 None) 1)
           (Sample.performance "p-1" "A" "workerW" 3 30 60 300 None));
    try reflexivity.
  - repeat constructor. simpl. intros [].
  - now left.
Defined.

(** ** What a request to counting-data does to the store *)

Lemma single_filter {A : Type} (p : A -> bool) (l : list A) (x : A) :
  Store.single (filter p l) = Some x -> In x l /\ p x = true.
Proof.
  intros H. apply filter_single_in.
  destruct (filter p l) as [|y [|z l']]; try discriminate.
  simpl in H. now injection H as ->.
Qed.

Lemma user_by_id_known id db u :
  Store.user_by_id id db = Some u ->
  In u (users db) /\ u_id u = id /\
  existsb (fun x => (u_id x =? id)%string) (users db) = true.
Proof.
  unfold Store.user_by_id. intros H. apply single_filter in H. destruct H as [Hin Hid].
  split; [exact Hin|]. split; [now apply String.eqb_eq|].
  apply existsb_exists. exists u. split; assumption.
Qed.

Lemma select_session_found id db sd :
  CountingDataFunction.select_session id db = Some sd ->
  In (CountingDataFunction.session sd) (counting_sessions db) /\
  s_id (CountingDataFunction.session sd) = id /\
  CountingDataFunction.sd_worker sd
  = Store.user_by_id (worker_id (CountingDataFunction.session sd)) db /\
  CountingDataFunction.sd_team_leader sd
  = Store.user_by_id (team_leader_id (CountingDataFunction.session sd)) db.
Proof.
  unfold CountingDataFunction.select_session.
  destruct (Store.single _) as [s|] eqn:Hs; [|discriminate].
  intros H. injection H as <-. simpl.
  apply single_filter in Hs. destruct Hs as [Hin Hid].
  apply String.eqb_eq in Hid. repeat split; assumption.
Qed.

Lemma audit_count_appends env s b db :
  existsb (fun u => (u_id u =? worker_id s)%string) (users db) = true ->
  exists db',
    CountingDataFunction.audit_count env s b db = (db', inr tt) /\
    audit_logs db'
    = (audit_logs db ++
       [count_entry env db (worker_id s) (CountingDataFunction.binNo b)
          (CountingDataFunction.qtyCountedWorker b)])%list.
Proof.
  intros Hu.
  unfold CountingDataFunction.audit_count, bind, exec0, ret, Store.insert_audit_log.
  rewrite Hu. simpl. eexists. split; reflexivity.
Qed.

Lemma count_entry_ext env db1 db2 w bin q :
  audit_logs db1 = audit_logs db2 -> count_entry env db1 w bin q = count_entry env db2 w bin q.
Proof. unfold count_entry. now intros ->. Qed.

(** Whatever the request, counting-data either answers without writing, or
    it stored the record it answers with and ran the two further steps. *)
Lemma count_effect env (req : Request CountingDataFunction.CountBody) db :
  (exists response,
      CountingDataFunction.handle env req db = (db, response) /\
      http_status response <> 200 /\ forall r, body response <> counting_body r)
  \/
  (exists response,
      CountingDataFunction.handle env req db = (db, response) /\
      method req <> "POST" /\ forall r, body response <> counting_body r)
  \/
  (exists b sd tl w r db1 db',
      method req = "POST" /\ json req = Some b /\
      CountingDataFunction.select_session (CountingDataFunction.sessionId b) db = Some sd /\
      CountingDataFunction.sd_team_leader sd = Some tl /\
      CountingDataFunction.sd_worker sd = Some w /\
      Store.insert_counting_data env
        (CountingDataFunction.counting_insert (CountingDataFunction.session sd) tl w b) db
      = inr (r, db1) /\
      CountingDataFunction.handle env req db = (db', json_response (counting_body r)) /\
      users db' = users db /\ counting_sessions db' = counting_sessions db /\
      counting_data db' = (counting_data db ++ [r])%list /\
      audit_logs db'
      = (audit_logs db ++
         [count_entry env db (worker_id (CountingDataFunction.session sd))
            (CountingDataFunction.binNo b) (CountingDataFunction.qtyCountedWorker b)])%list).
Proof.
  destruct (counting_data_cases env req db) as [(resp & H & Hb) | (b & Hjson & Hm & H)].
  { destruct (String.eqb_spec (method req) "POST") as [Hp | Hp].
    - left. exists resp. split; [exact H|]. split; [|exact Hb].
      revert H. unfold CountingDataFunction.handle, CountingDataFunction.serve.
      rewrite Hp. simpl.
      destruct (truthy (authorization req)).
      + destruct (json req) as [b|].
        * intros H Hs.
          destruct (record_count_cases env b db)
            as [(m & code & E & Hne)
               | (sd & tl & w & r & db1 & db2 & db3 & _ & _ & _ & _ & _ & _ & E)];
            rewrite E in H.
          -- injection H as <-. now apply Hne.
          -- injection H as _ <-. now apply (Hb r).
        * intros H. injection H as <-. discriminate.
      + intros H. injection H as <-. discriminate.
    - right. left. exists resp. repeat split; assumption. }
  destruct (record_count_cases env b db)
    as [(m & code & E & Hne)
       | (sd & tl & w & r & db1 & db2 & db3 & Hsd & Htl & Hw & Hins & H2 & H3 & E)].
  { left. eexists. rewrite H, E. split; [reflexivity|]. split; [exact Hne | discriminate]. }
  right. right. exists b, sd, tl, w, r, db1, db3.
  repeat (split; [first [assumption | congruence]|]).
  pose proof (insert_counting_data_inr _ _ _ _ _ Hins)
    as (_ & _ & _ & _ & _ & _ & Hcd1 & Hu1 & Hs1 & _ & Ha1).
  destruct (update_performance_runs env (CountingDataFunction.session sd) w
              (CountingDataFunction.qtyCountedWorker b) db1)
    as (x & Hx & Hu2 & Hs2 & Hcd2 & Ha2).
  rewrite H2 in Hx. injection Hx as <-.
  destruct (select_session_found _ _ _ Hsd) as (_ & _ & Hworker & _).
  rewrite Hw in Hworker. symmetry in Hworker.
  apply user_by_id_known in Hworker. destruct Hworker as (_ & _ & Hex).
  destruct (audit_count_appends env (CountingDataFunction.session sd) b db2)
    as (y & Hy & Ha3); [rewrite Hu2, Hu1; exact Hex|].
  rewrite H3 in Hy. injection Hy as <-.
  destruct (audit_count_runs env (CountingDataFunction.session sd) b db2)
    as (z & Hz & Hu3 & Hs3 & Hcd3 & _).
  rewrite H3 in Hz. injection Hz as <-.
  repeat split; try congruence.
  rewrite Ha3. rewrite (count_entry_ext env db2 db) by congruence. congruence.
Qed.

(** X8: a POST to counting-data that is answered 200, on a session id
    written as a uuid, appends exactly one counting record (the one it
    answers with) and exactly one audit entry (action COUNT_BIN, for the
    user the session of that id names as its worker, with the bin and the
    quantity in its details); no stored record or entry is changed or
    removed, and users and sessions are not written. A request that is not
    a POST, or is not answered 200, leaves the whole store as it was. *)
Theorem count_appends_record_and_audit_entry :
  forall env (req : Request CountingDataFunction.CountBody) db db' response,
    CountingDataFunction.handle env req db = (db', response) ->
    (method req = "POST" -> http_status response = 200 ->
     (forall b, json req = Some b ->
                uuid_text (CountingDataFunction.sessionId b) = true) ->
     exists b s r,
       json req = Some b /\
       In s (counting_sessions db) /\ s_id s = CountingDataFunction.sessionId b /\
       response = json_response (counting_body r) /\
       users db' = users db /\ counting_sessions db' = counting_sessions db /\
       counting_data db' = (counting_data db ++ [r])%list /\
       audit_logs db'
       = (audit_logs db ++
          [count_entry env db (worker_id s) (CountingDataFunction.binNo b)
             (CountingDataFunction.qtyCountedWorker b)])%list)
    /\
    (method req <> "POST" \/ http_status response <> 200 -> db' = db).
Proof.
  intros env req db db' response Hh.
  destruct (count_effect env req db)
    as [(resp & H & Hne & _) | [(resp & H & Hnp & _)
       | (b & sd & tl & w & r & db1 & dbx & Hm & Hjson & Hsd & _ & _ & _ & H
          & Hu & Hs & Hcd & Ha)]];
    rewrite Hh in H; injection H as -> ->.
  - split; [intros _ Hok; contradiction | reflexivity].
  - split; [intros Hm; contradiction | reflexivity].
  - split.
    + intros _ _ _. destruct (select_session_found _ _ _ Hsd) as (Hin & Hid & _).
      exists b, (CountingDataFunction.session sd), r. repeat split; assumption.
    + intros [Hnp | Hne]; [contradiction | exfalso; now apply Hne].
Qed.

Lemma count_appends_record_and_audit_entry_witness :
  let req := Sample.count Registered.second_session "BIN001" 10 12 in
  exists r,
    snd (CountingDataFunction.handle Sample.env req Registered.started)
    = json_response (counting_body r) /\
    counting_data (fst (CountingDataFunction.handle Sample.env req Registered.started))
    = [r] /\
    session_id r = Registered.second_session /\ bin_no r = "BIN001" /\
    qty_counted r = 10 /\
    map (fun e => (al_user_id e, action e, details e))
        (audit_logs (fst (CountingDataFunction.handle Sample.env req Registered.started)))
    = [(Some Registered.worker_uuid, "COUNT_BIN", "Counted bin BIN001: 10 units")].
Proof.
  intros req.
  destruct (proj1 (count_appends_record_and_audit_entry Sample.env req
                     Registered.started _ _ (surjective_pairing _))
              eq_refl eq_refl
              ltac:(intros b H; injection H as <-; reflexivity))
    as (b & s & r & Hjson & Hin & Hid & Hresp & _ & _ & Hcd & Ha).
  exists r. split; [exact Hresp|]. split; [exact Hcd|].
  injection Hjson as <-.
  destruct Hin as [<- | [<- | []]]; [discriminate|].
  split; [|split; [|split]].
  - vm_compute in Hcd. injection Hcd as <-. reflexivity.
  - vm_compute in Hcd. injection Hcd as <-. reflexivity.
  - vm_compute in Hcd. injection Hcd as <-. reflexivity.
  - rewrite Ha. vm_compute. reflexivity.
Defined.

(** ** When a count is accepted *)



(** ** The record of a count *)

Lemma insert_counting_data_row env p db r db1 :
  Store.insert_counting_data env p db = inr (r, db1) ->
  cd_id r = Store.fresh_id (map cd_id (counting_data db)) /\
  session_id r = Store.ci_session_id p /\
  cd_wh_name r = Store.ci_wh_name p /\
  cd_date r = today env /\
  tl_name r = Store.ci_tl_name p /\
  cd_username r = Store.ci_username p /\
  bin_no r = Store.ci_bin_no p /\
  reason_for_difference r = None /\
  cd_created_at r = now env.
Proof.
  unfold Store.insert_counting_data.
  destruct (Store.ci_difference p); [discriminate|].
  destruct (negb _); [discriminate|].
  destruct (Store.counting_row_ok _); [|discriminate].
  intros H. injection H as <- _. simpl. repeat split.
Qed.



(** ** The listing of counts *)

Lemma select_counting_data_listed (req : Request CountingDataFunction.CountBody) db :
  Store.select_counting_data
    (truthy (get "sessionId" (searchParams req)))
    (truthy (get "workerId" (searchParams req)))
    (truthy (get "date" (searchParams req))) db
  = inr (Store.order_desc cd_created_at (filter (listed req) (counting_data db))).
Proof.
  unfold Store.select_counting_data. f_equal. f_equal.
  unfold listed, passes.
  assert (Hkeep : forall (col : CountingData -> string) v l,
             match v with
             | Some x => filter (fun r => (col r =? x)%string) l
             | None => l
             end
             = filter (fun r => match v with Some x => (col r =? x)%string | None => true end) l).
  { intros col [x|] l; [reflexivity|].
    induction l as [|a l IH]; simpl; [reflexivity | now rewrite <- IH]. }
  rewrite !Hkeep, !filter_filter. apply filter_ext. intros a.
  now rewrite ?andb_assoc.
Qed.

(** How an authorized GET to counting-data runs. *)
Lemma list_counts_result env (req : Request CountingDataFunction.CountBody) db h :
  method req = "GET" -> truthy (authorization req) = Some h ->
  CountingDataFunction.handle env req db
  = (db, json_response
           (counting_list
              (Store.order_desc cd_created_at (filter (listed req) (counting_data db))))).
Proof.
  intros Hm Hh.
  unfold CountingDataFunction.handle, CountingDataFunction.serve.
  rewrite Hm, Hh. simpl.
  unfold CountingDataFunction.list_counts, run, bind, query.
  rewrite select_counting_data_listed. reflexivity.
Qed.

(** X11: an authorized GET to counting-data whose sessionId, when one is
    given, is written as a uuid and whose date, when one is given, is a
    calendar date written year-month-day, only reads. It answers 200 with
    the stored records that pass every filter given (sessionId against the
    session id, workerId against the username column, date against the
    date), each once, the newest first; a parameter that is absent or empty
    filters nothing. *)
Theorem listing_of_counts :
  forall env (req : Request CountingDataFunction.CountBody) db h,
    method req = "GET" -> truthy (authorization req) = Some h ->
    absent_or uuid_text (get "sessionId" (searchParams req)) = true ->
    absent_or iso_date (get "date" (searchParams req)) = true ->
    exists l,
      CountingDataFunction.handle env req db = (db, json_response (counting_list l)) /\
      Permutation l (filter (listed req) (counting_data db)) /\
      StronglySorted newest_first l /\
      (forall r, In r l <-> In r (counting_data db) /\ listed req r = true).
Proof.
  intros env req db h Hm Hh _ _.
  exists (Store.order_desc cd_created_at (filter (listed req) (counting_data db))).
  split; [exact (list_counts_result env req db h Hm Hh)|].
  split; [apply order_desc_perm|].
  split; [apply order_desc_sorted|].
  intros r. rewrite <- filter_In. split; apply Permutation_in.
  - apply order_desc_perm.
  - symmetry. apply order_desc_perm.
Qed.

Lemma listing_of_counts_witness :
  let req := Registered.get_counts
               [("sessionId", Registered.second_session); ("date", "2024-03-01")] in
  List.length (counting_data Registered.three_counts) = 3%nat /\
  exists l,
    CountingDataFunction.handle Sample.env req Registered.three_counts
    = (Registered.three_counts, json_response (counting_list l)) /\
    map (fun r => (session_id r, bin_no r, qty_counted r)) l
    = [(Registered.second_session, "BIN001", 10); (Registered.second_session, "BIN003", 7)] /\
    StronglySorted newest_first l.
Proof.
  intros req. split; [vm_compute; reflexivity|].
  destruct (listing_of_counts Sample.env req Registered.three_counts "Bearer token"
              eq_refl eq_refl eq_refl eq_refl) as (l & Hh & _ & Hs & _).
  exists l. split; [exact Hh|]. split; [|exact Hs].
  vm_compute in Hh. injection Hh as <-. vm_compute. reflexivity.
Defined.

(** X12: a count that was answered 200 is found again: every later
    authorized GET whose filters the stored record passes, in particular
    one by its session id, lists the record the POST answered with. *)
Theorem recorded_count_is_listed :
  forall env env' (post get : Request CountingDataFunction.CountBody) db db' response r h,
    CountingDataFunction.handle env post db = (db', response) ->
    body response = counting_body r ->
    method get = "GET" -> truthy (authorization get) = Some h ->
    listed get r = true ->
    exists l,
      CountingDataFunction.handle env' get db' = (db', json_response (counting_list l)) /\
      In r l.
Proof.
  intros env env' post get db db' response r h Hh Hb Hm Hauth Hl.
  eexists. split; [exact (list_counts_result env' get db' h Hm Hauth)|].
  apply (Permutation_in _ (Permutation_sym (order_desc_perm cd_created_at _))).
  apply filter_In. split; [|exact Hl].
  destruct (count_effect env post db)
    as [(resp & H & _ & Hnb) | [(resp & H & _ & Hnb)
       | (b & sd & tl & w & r' & db1 & dbx & _ & _ & _ & _ & _ & _ & H & _ & _ & Hcd & _)]];
    rewrite Hh in H; injection H as -> ->;
    try (exfalso; exact (Hnb r Hb)).
  simpl in Hb. injection Hb as <-.
  rewrite Hcd. apply in_or_app. right. now left.
Qed.

Lemma recorded_count_is_listed_witness :
  exists l,
    CountingDataFunction.handle Sample.env
      {| method := "GET"; pathname := "/counting-data";
         searchParams := [("sessionId", "s-1"); ("workerId", "")];
         authorization := Some "Bearer token"; json := None |}
      (fst (CountingDataFunction.handle Sample.env (Sample.count "s-1" "BIN001" 10 12)
              Sample.started))
    = (fst (CountingDataFunction.handle Sample.env (Sample.count "s-1" "BIN001" 10 12)
              Sample.started),
       json_response (counting_list l)) /\
    In {| cd_id := "0"; session_id := "s-1"; cd_wh_name := "A";
          cd_date := today Sample.env; tl_name := "leaderT";
          cd_username := "workerW"; bin_no := "BIN001"; qty_counted := 10;
          qty_recounted_tl := None; qty_as_per_books := 12; difference := -2;
          reason_for_difference := None; cd_created_at := now Sample.env |} l.
Proof.
  apply (recorded_count_is_listed Sample.env Sample.env
           (Sample.count "s-1" "BIN001" 10 12)
           {| method := "GET"; pathname := "/counting-data";
              searchParams := [("sessionId", "s-1"); ("workerId", "")];
              authorization := Some "Bearer token"; json := None |}
           Sample.started _
           (snd (CountingDataFunction.handle Sample.env (Sample.count "s-1" "BIN001" 10 12)
                   Sample.started))
           _ "Bearer token"); reflexivity.
Defined.

(** ** Minutes and efficiency at the edges *)

(** X13: a count on a session that ended less than 30 seconds after it
    started is given 0 minutes, whatever minutes the worker's row of the
    day held before, and so an efficiency of 0 however many bins were
    counted; a session whose end is not after its start never gets a
    positive number of minutes, and its efficiency is 0 too. *)
Theorem short_session_counts_no_minutes :
  forall s existing e bins,
    end_time s = Some e ->
    - 2 ^ 51 < e - start_time s < 30000 ->
    CountingDataFunction.time_taken s existing <= 0 /\
    CountingDataFunction.efficiency_of bins (CountingDataFunction.time_taken s existing) = 0 /\
    (-30000 < e - start_time s -> CountingDataFunction.time_taken s existing = 0).
Proof.
  intros s existing e bins He Hd.
  unfold CountingDataFunction.time_taken. rewrite He.
  pose proof (elapsed_minutes_nearest (start_time s) e) as Hn.
  assert (Habs : Z.abs (e - start_time s) < 2 ^ 51) by lia.
  specialize (Hn Habs).
  set (k := CountingDataFunction.elapsed_minutes (start_time s) e) in *.
  assert (Hk : k <= 0) by lia.
  split; [exact Hk|]. split; [|lia].
  unfold CountingDataFunction.efficiency_of.
  replace (0 <? k) with false by (symmetry; apply Z.ltb_ge; exact Hk). reflexivity.
Qed.

Lemma short_session_counts_no_minutes_witness :
  CountingDataFunction.time_taken
    {| s_id := "s-1"; worker_id := "w-1"; team_leader_id := "t-1"; warehouse_name := "A";
       start_time := 0; end_time := Some 29999; status := completed |}
    (Some (Sample.performance "p-1" "A" "workerW" 3 30 60 300 None)) <= 0 /\
  CountingDataFunction.efficiency_of 4
    (CountingDataFunction.time_taken
       {| s_id := "s-1"; worker_id := "w-1"; team_leader_id := "t-1"; warehouse_name := "A";
          start_time := 0; end_time := Some 29999; status := completed |}
       (Some (Sample.performance "p-1" "A" "workerW" 3 30 60 300 None))) = 0 /\
  (-30000 < 29999 - 0 ->
   CountingDataFunction.time_taken
     {| s_id := "s-1"; worker_id := "w-1"; team_leader_id := "t-1"; warehouse_name := "A";
        start_time := 0; end_time := Some 29999; status := completed |}
     (Some (Sample.performance "p-1" "A" "workerW" 3 30 60 300 None)) = 0).
Proof.
  apply (short_session_counts_no_minutes
           {| s_id := "s-1"; worker_id := "w-1"; team_leader_id := "t-1";
              warehouse_name := "A"; start_time := 0; end_time := Some 29999;
              status := completed |}
           (Some (Sample.performance "p-1" "A" "workerW" 3 30 60 300 None)) 29999 4);
    [reflexivity | simpl; lia].
Defined.

(** X14: the two roundings lose nothing when there is nothing to round: a
    session of exactly k minutes is given k minutes, and when
    bins * 60 / minutes has at most two decimals the efficiency stored is
    exactly that number (n bins in 60 minutes: n.00). *)
Theorem whole_quotients_are_exact :
  (forall start k,
      Z.abs k <= 2 ^ 34 ->
      CountingDataFunction.elapsed_minutes start (start + 60000 * k) = k) /\
  (forall n t,
      Z.abs n <= 2 ^ 31 -> 0 < t <= 2 ^ 31 -> (t | 6000 * n) ->
      CountingDataFunction.efficiency_of n t = 6000 * n / t).
Proof.
  split.
  - intros start k Hk.
    pose proof (elapsed_minutes_nearest start (start + 60000 * k)) as Hn.
    replace (start + 60000 * k - start) with (60000 * k) in Hn by lia.
    assert (Habs : Z.abs (60000 * k) < 2 ^ 51).
    { rewrite Z.abs_mul. change (Z.abs 60000) with 60000.
      change (2 ^ 34) with 17179869184 in Hk.
      change (2 ^ 51) with 2251799813685248. lia. }
    specialize (Hn Habs). lia.
  - intros n t Hn Ht [q Hq].
    pose proof (efficiency_of_nearest n t Hn Ht) as Hnear.
    rewrite Hq in *. rewrite Z.div_mul by lia.
    set (eff := CountingDataFunction.efficiency_of n t) in *.
    replace (eff * t - q * t) with ((eff - q) * t) in Hnear by ring.
    rewrite Z.abs_mul, (Z.abs_eq t) in Hnear by lia.
    assert (Z.abs (eff - q) = 0) by nia. lia.
Qed.

Lemma whole_quotients_are_exact_witness :
  CountingDataFunction.elapsed_minutes 1709280000000 (1709280000000 + 60000 * 90) = 90 /\
  CountingDataFunction.efficiency_of 7 60 = 6000 * 7 / 60.
Proof.
  split.
  - apply (proj1 whole_quotients_are_exact 1709280000000 90). simpl. lia.
  - apply (proj2 whole_quotients_are_exact 7 60); [simpl; lia | simpl; lia |].
    exists 700. reflexivity.
Defined.

(** ** The time on the dashboard *)

Lemma pow2_pos (k : Z) : 0 <= k -> 0 < 2 ^ k.
Proof. intros H. apply Z.pow_pos_nonneg; lia. Qed.

(** [Math.floor(minutes / 60)] on Numbers is the integer quotient. *)
Lemma floor_div_60 (n : Z) :
  0 <= n < 2 ^ 31 ->
  JSMath.floor (JSNumber.div (JSNumber.of_int n) (JSNumber.of_int 60)) = n / 60.
Proof.
  intros Hn.
  destruct (Z.eq_dec n 0) as [-> | Hnz]; [reflexivity|].
  destruct (of_int_exact n) as (mx & ex & Ex & Hmx & Hex & Vx);
    [change (2 ^ 31) with 2147483648 in Hn; change (2 ^ 53) with 9007199254740992; lia|].
  replace (n <? 0) with false in Ex by (symmetry; apply Z.ltb_ge; lia).
  rewrite Z.abs_eq in Vx by lia.
  change (JSNumber.of_int 60) with (S754_finite false 8444249301319680 (-47)).
  rewrite Ex.
  destruct (div_faithful false false mx 8444249301319680 ex (-47))
    as (m & s & Hres & Hs & Hm & Hlo & Hhi);
    [exact Hmx | change (2 ^ 52) with 4503599627370496;
                 change (2 ^ 53) with 9007199254740992; lia | lia |].
  rewrite Hres. unfold JSMath.floor. simpl xorb. cbv iota.
  replace (0 <=? ex - -47 - 53 + s) with false by (symmetry; apply Z.leb_gt; lia).
  set (P := 2 ^ (- (ex - -47 - 53 + s))).
  set (A := 2 ^ (- ex)) in *.
  set (S := 2 ^ s) in *.
  assert (HA : 0 < A) by (apply pow2_pos; lia).
  assert (HS : 1 <= S <= 4).
  { unfold S. split.
    - pose proof (pow2_pos s). lia.
    - change 4 with (2 ^ 2). apply Z.pow_le_mono_r; lia. }
  assert (HPS : P * S = 64 * A).
  { unfold P, S, A. rewrite <- Z.pow_add_r by lia.
    replace (- (ex - -47 - 53 + s) + s) with (6 + - ex) by lia.
    rewrite Z.pow_add_r by lia. reflexivity. }
  assert (HP : 0 < P) by (apply pow2_pos; lia).
  change (2 ^ 31) with 2147483648 in Hn.
  change (2 ^ 52) with 4503599627370496 in *.
  change (2 ^ 53) with 9007199254740992 in *.
  assert (HAbig : 2097152 < A) by nia.
  assert (HPbig : 64 <= P) by nia.
  rewrite Vx in Hlo, Hhi.
  assert (H1 : (Z.pos m - 1) * 60 <= n * P).
  { apply (Z.mul_le_mono_pos_r _ _ (S * 140737488355328)); [lia|].
    replace (n * P * (S * 140737488355328)) with (n * (P * S) * 140737488355328) by ring.
    rewrite HPS. nia. }
  assert (H2 : n * P < (Z.pos m + 1) * 60).
  { apply (Z.mul_lt_mono_pos_r (S * 140737488355328)); [lia|].
    replace (n * P * (S * 140737488355328)) with (n * (P * S) * 140737488355328) by ring.
    rewrite HPS. nia. }
  pose proof (Z.div_mod n 60 ltac:(lia)) as Hdm.
  pose proof (Z.mod_pos_bound n 60 ltac:(lia)) as Hr.
  set (q := n / 60) in *. set (r := n mod 60) in *.
  assert (Hq0 : 0 <= q) by (apply Z.div_pos; lia).
  symmetry. apply Z.div_unique with (Z.pos m - P * q); [|lia].
  left. split; nia.
Qed.

(** X15: for a number of minutes from 0 up to the largest the integer
    column holds, formatTime prints the minutes alone below one hour and
    otherwise the whole hours and the remaining minutes, which are below
    60: the division on Numbers and Math.floor give the integer quotient. *)
Theorem format_time_hours_and_minutes :
  forall minutes,
    0 <= minutes < 2 ^ 31 ->
    WorkerDashboard.formatTime minutes
    = if minutes <? 60
      then JSNumber.to_string minutes ++ "m"
      else JSNumber.to_string (minutes / 60) ++ "h "
           ++ JSNumber.to_string (minutes mod 60) ++ "m".
Proof.
  intros minutes Hm. unfold WorkerDashboard.formatTime, JSMath.remainder.
  rewrite floor_div_60 by exact Hm.
  rewrite Z.rem_mod_nonneg by lia.
  destruct (minutes <? 60) eqn:E.
  - apply Z.ltb_lt in E.
    rewrite Z.div_small, Z.mod_small by lia. reflexivity.
  - apply Z.ltb_ge in E.
    assert (1 <= minutes / 60) by (apply Z.div_le_lower_bound; lia).
    replace (0 <? minutes / 60) with true by (symmetry; apply Z.ltb_lt; lia).
    reflexivity.
Qed.

Lemma format_time_hours_and_minutes_witness :
  WorkerDashboard.formatTime 125 = "2h 5m".
Proof.
  apply (format_time_hours_and_minutes 125). simpl. lia.
Defined.

(** ** The counting screen *)

(** Reads the digit at the head of the text of a decimal numeral. *)
Ltac read_digit :=
  cbn [NilEmpty.string_of_uint Pos.of_uint_acc Pos.of_uint JSNumber.digits];
  match goal with
  | |- context [JSNumber.digit_val 10 ?c] =>
      let v := eval vm_compute in (JSNumber.digit_val 10 c) in
      change (JSNumber.digit_val 10 c) with v
  end;
  cbv iota.

Lemma digit_string_uint_acc (d : Decimal.uint) (acc : positive) :
  JSNumber.digits 10 (Some (Z.pos acc)) (NilEmpty.string_of_uint d)
  = Some (Z.pos (Pos.of_uint_acc d acc)).
Proof.
  revert acc. induction d; intros acc; [reflexivity|..];
    read_digit; rewrite <- IHd; f_equal; f_equal; lia.
Qed.

Lemma digit_string_uint (d : Decimal.uint) :
  JSNumber.digits 10 (Some 0) (NilEmpty.string_of_uint d) = Some (Z.of_N (Pos.of_uint d)).
Proof.
  induction d; [reflexivity|..]; read_digit;
    first [exact IHd | exact (digit_string_uint_acc d _)].
Qed.

Lemma parse_uint (d : Decimal.uint) :
  d <> Decimal.Nil ->
  JSNumber.digits 10 None (NilEmpty.string_of_uint d) = Some (Z.of_N (Pos.of_uint d)) /\
  JSNumber.skip_space (NilEmpty.string_of_uint d) = NilEmpty.string_of_uint d /\
  JSNumber.strip_hex (NilEmpty.string_of_uint d) = None /\
  (exists c s, NilEmpty.string_of_uint d = String c s /\ JSNumber.is_space c = false /\
               c <> "-"%char /\ c <> "+"%char).
Proof.
  intros Hd. split; [|split; [|split]].
  - destruct d; try contradiction; read_digit;
      first [exact (digit_string_uint d) | exact (digit_string_uint_acc d _)].
  - destruct d; try contradiction; reflexivity.
  - destruct d; try contradiction; try reflexivity. destruct d; reflexivity.
  - destruct d; try contradiction; simpl; do 2 eexists;
      (split; [reflexivity|]); repeat split; discriminate.
Qed.

Lemma to_uint_not_nil (p : positive) : Pos.to_uint p <> Decimal.Nil.
Proof.
  intros H. pose proof (DecimalPos.Unsigned.of_to p) as E. rewrite H in E. discriminate.
Qed.

(** Below 2^53 an integer is a Number. *)
Lemma nearest_exact (z : Z) : Z.abs z < 2 ^ 53 -> JSNumber.nearest z = z.
Proof.
  intros Hz. unfold JSNumber.nearest.
  destruct (Z.eq_dec z 0) as [-> | Hnz]; [reflexivity|].
  destruct (of_int_exact z) as (m & e & E & Hm & He & Hv); [lia|].
  rewrite E. unfold JSNumber.integer_value.
  assert (HP : 0 < 2 ^ (- e)) by (apply Z.pow_pos_nonneg; lia).
  destruct (z <? 0) eqn:Hs.
  - apply Z.ltb_lt in Hs. rewrite Z.abs_neq in Hv by lia.
    change (Z.neg m) with (- Z.pos m). rewrite Hv.
    destruct (0 <=? e) eqn:He0.
    + apply Z.leb_le in He0. replace e with 0 by lia. simpl. lia.
    + replace (- (- z * 2 ^ (- e))) with (z * 2 ^ (- e)) by ring.
      apply Z.div_mul. lia.
  - apply Z.ltb_ge in Hs. rewrite Z.abs_eq in Hv by lia. rewrite Hv.
    destruct (0 <=? e) eqn:He0.
    + apply Z.leb_le in He0. replace e with 0 by lia. simpl. lia.
    + apply Z.div_mul. lia.
Qed.

(** The decimal text of an integer parses to the Number nearest to it. *)
Lemma parseInt_to_string (z : Z) :
  JSNumber.parseInt (JSNumber.to_string z) = Some (JSNumber.nearest z).
Proof.
  destruct z as [|p|p]; [reflexivity| |].
  - unfold JSNumber.to_string. simpl Z.to_int. unfold NilZero.string_of_int.
    destruct (parse_uint (Pos.to_uint p) (to_uint_not_nil p))
      as (Hdig & Hskip & Hhex & c & s & Hs & _ & Hminus & Hplus).
    assert (Hz : NilZero.string_of_uint (Pos.to_uint p)
                 = NilEmpty.string_of_uint (Pos.to_uint p)).
    { pose proof (to_uint_not_nil p). destruct (Pos.to_uint p); [contradiction|..];
        reflexivity. }
    rewrite Hz. unfold JSNumber.parseInt. rewrite Hskip.
    assert (Hsign : (match NilEmpty.string_of_uint (Pos.to_uint p) with
                     | String "-" s' => (true, s')
                     | String "+" s' => (false, s')
                     | _ => (false, NilEmpty.string_of_uint (Pos.to_uint p))
                     end) = (false, NilEmpty.string_of_uint (Pos.to_uint p))).
    { rewrite Hs.
      destruct c as [[] [] [] [] [] [] [] []]; try reflexivity; contradiction. }
    rewrite Hsign, Hhex, Hdig, DecimalPos.Unsigned.of_to. reflexivity.
  - unfold JSNumber.to_string. simpl Z.to_int. unfold NilZero.string_of_int.
    destruct (parse_uint (Pos.to_uint p) (to_uint_not_nil p))
      as (Hdig & Hskip & Hhex & _).
    assert (Hz : NilZero.string_of_uint (Pos.to_uint p)
                 = NilEmpty.string_of_uint (Pos.to_uint p)).
    { pose proof (to_uint_not_nil p). destruct (Pos.to_uint p); [contradiction|..];
        reflexivity. }
    rewrite Hz. unfold JSNumber.parseInt. simpl JSNumber.skip_space. cbv iota.
    rewrite Hhex, Hdig, DecimalPos.Unsigned.of_to. reflexivity.
Qed.

Lemma trim_not_blank (c : ascii) (s : string) :
  JSNumber.is_space c = false -> JSString.trim (String c s) <> "".
Proof.
  intros Hc. unfold JSString.trim. simpl. rewrite Hc. simpl. rewrite Hc.
  destruct (JSString.trim_end s); discriminate.
Qed.

Lemma to_string_not_blank (z : Z) : 0 <= z -> JSString.trim (JSNumber.to_string z) <> "".
Proof.
  intros Hz. destruct z as [|p|p]; [discriminate| |lia].
  unfold JSNumber.to_string. simpl Z.to_int. unfold NilZero.string_of_int.
  destruct (parse_uint (Pos.to_uint p) (to_uint_not_nil p))
    as (_ & _ & _ & c & s & Hs & Hc & _).
  assert (Hz' : NilZero.string_of_uint (Pos.to_uint p)
                = NilEmpty.string_of_uint (Pos.to_uint p)).
  { pose proof (to_uint_not_nil p). destruct (Pos.to_uint p); [contradiction|..];
      reflexivity. }
  rewrite Hz', Hs. now apply trim_not_blank.
Qed.

(** X16: on a typed quantity of at most 20 ASCII characters (so that the
    white space and the digits are those [trim] and [parseInt] see, and
    the number read is the Number nearest to the digits), handleQuantitySubmit
    opens the confirmation dialog only when the quantity parses to a number
    that is not negative, and then on exactly that number and on the
    number of the selected bin; a quantity that does not parse, or is
    negative, sets the error message and leaves the dialog as it was.
    Session, bins, selected bin, the typed quantity, the search term and
    the loading flag are never touched. *)
Theorem confirmation_opens_on_valid_quantity_only :
  forall st,
    ascii_text (CountingInterface.quantity st) = true ->
    (String.length (CountingInterface.quantity st) <= 20)%nat ->
    let st' := CountingInterface.handleQuantitySubmit st in
    (CountingInterface.qc_show (CountingInterface.confirmation st) = false ->
     CountingInterface.qc_show (CountingInterface.confirmation st') = true ->
     exists bin q,
       CountingInterface.selectedBin st = Some bin /\
       JSNumber.parseInt (CountingInterface.quantity st) = Some q /\ 0 <= q /\
       CountingInterface.confirmation st'
       = {| CountingInterface.qc_binNo := CountingInterface.bm_bin_no bin;
            CountingInterface.qc_quantity := q;
            CountingInterface.qc_show := true |}) /\
    (forall bin q,
        CountingInterface.selectedBin st = Some bin ->
        JSString.trim (CountingInterface.quantity st) <> "" ->
        JSNumber.parseInt (CountingInterface.quantity st) = Some q -> 0 <= q ->
        CountingInterface.confirmation st'
        = {| CountingInterface.qc_binNo := CountingInterface.bm_bin_no bin;
             CountingInterface.qc_quantity := q;
             CountingInterface.qc_show := true |} /\
        CountingInterface.error st' = CountingInterface.error st) /\
    (CountingInterface.selectedBin st <> None ->
     JSString.trim (CountingInterface.quantity st) <> "" ->
     (forall q, JSNumber.parseInt (CountingInterface.quantity st) = Some q -> q < 0) ->
     CountingInterface.error st' = "Please enter a valid quantity" /\
     CountingInterface.confirmation st' = CountingInterface.confirmation st) /\
    CountingInterface.session st' = CountingInterface.session st /\
    CountingInterface.bins st' = CountingInterface.bins st /\
    CountingInterface.selectedBin st' = CountingInterface.selectedBin st /\
    CountingInterface.quantity st' = CountingInterface.quantity st /\
    CountingInterface.searchTerm st' = CountingInterface.searchTerm st /\
    CountingInterface.loading st' = CountingInterface.loading st.
Proof.
  intros st _ _ st'. subst st'. unfold CountingInterface.handleQuantitySubmit.
  destruct (CountingInterface.selectedBin st) as [bin|] eqn:Hbin.
  2:{ split; [intros H1 H2; congruence|]. split; [intros ? ? H; discriminate|].
      split; [intros H; contradiction|].
      repeat split; auto. }
  destruct (JSString.trim (CountingInterface.quantity st) =? "")%string eqn:Htrim.
  { apply String.eqb_eq in Htrim.
    split; [intros H1 H2; congruence|]. split; [intros ? ? _ H; contradiction|].
    split; [intros _ H; contradiction|].
    repeat split; auto. }
  destruct (JSNumber.parseInt (CountingInterface.quantity st)) as [q|] eqn:Hq.
  - destruct (q <? 0) eqn:Hneg.
    + apply Z.ltb_lt in Hneg.
      split; [intros H1 H2; simpl in H2; congruence|].
      split; [intros ? q' _ _ E Hq'; injection E as <-; lia|].
      split; [intros _ _ _; split; reflexivity|]. repeat split; auto.
    + apply Z.ltb_ge in Hneg.
      split; [intros _ _; exists bin, q; repeat split; assumption|].
      split; [intros ? q' E _ E' _; injection E as <-; injection E' as <-;
              split; reflexivity|].
      split; [intros _ _ H; specialize (H q eq_refl); lia|]. repeat split; auto.
  - split; [intros H1 H2; simpl in H2; congruence|].
    split; [intros ? ? _ _ H; discriminate|].
    split; [intros _ _ _; split; reflexivity|]. repeat split; auto.
Qed.

Lemma confirmation_opens_on_valid_quantity_only_witness :
  let bin := {| CountingInterface.bm_id := "b-1";
                CountingInterface.bm_bin_no := "BIN001";
                CountingInterface.bm_warehouse_name := "A";
                CountingInterface.bm_qty_as_per_books := 100 |} in
  let typed text :=
    {| CountingInterface.session := Some Sample.session_active;
       CountingInterface.bins := [];
       CountingInterface.selectedBin := Some bin;
       CountingInterface.quantity := text;
       CountingInterface.searchTerm := "";
       CountingInterface.confirmation :=
         {| CountingInterface.qc_binNo := ""; CountingInterface.qc_quantity := 0;
            CountingInterface.qc_show := false |};
       CountingInterface.loading := false;
       CountingInterface.error := "" |} in
  CountingInterface.confirmation (CountingInterface.handleQuantitySubmit (typed " 42 "))
  = {| CountingInterface.qc_binNo := "BIN001"; CountingInterface.qc_quantity := 42;
       CountingInterface.qc_show := true |}
  /\
  CountingInterface.confirmation
    (CountingInterface.handleQuantitySubmit (typed "9007199254740993"))
  = {| CountingInterface.qc_binNo := "BIN001";
       CountingInterface.qc_quantity := 9007199254740992;
       CountingInterface.qc_show := true |}
  /\
  CountingInterface.error (CountingInterface.handleQuantitySubmit (typed "-3"))
  = "Please enter a valid quantity"
  /\
  CountingInterface.confirmation (CountingInterface.handleQuantitySubmit (typed "-3"))
  = CountingInterface.confirmation (typed "-3").
Proof.
  intros bin typed.
  split; [|split].
  - apply (proj1 (proj1 (proj2 (confirmation_opens_on_valid_quantity_only (typed " 42 ")
                                  eq_refl ltac:(simpl; lia)))
                    bin 42 eq_refl ltac:(vm_compute; discriminate)
                    ltac:(vm_compute; reflexivity) ltac:(lia))).
  - apply (proj1 (proj1 (proj2 (confirmation_opens_on_valid_quantity_only
                                  (typed "9007199254740993")
                                  eq_refl ltac:(simpl; lia)))
                    bin 9007199254740992 eq_refl ltac:(vm_compute; discriminate)
                    ltac:(vm_compute; reflexivity) ltac:(lia))).
  - apply (proj1 (proj2 (proj2 (confirmation_opens_on_valid_quantity_only (typed "-3")
                                  eq_refl ltac:(simpl; lia))))).
    + discriminate.
    + vm_compute. discriminate.
    + intros q Hq. vm_compute in Hq. injection Hq as <-. lia.
Defined.

(** X17: with a bin selected, typing the decimal numeral of an integer n
    below 2^53 and submitting opens the confirmation dialog on exactly n
    and on the number of the selected bin when n is not negative, and sets
    the error message, the dialog staying as it was, when n is negative. *)
Theorem typed_quantity_is_confirmed :
  forall st bin n,
    CountingInterface.selectedBin st = Some bin ->
    Z.abs n < 2 ^ 53 ->
    CountingInterface.quantity st = JSNumber.to_string n ->
    (0 <= n ->
     CountingInterface.confirmation (CountingInterface.handleQuantitySubmit st)
     = {| CountingInterface.qc_binNo := CountingInterface.bm_bin_no bin;
          CountingInterface.qc_quantity := n;
          CountingInterface.qc_show := true |}) /\
    (n < 0 ->
     CountingInterface.error (CountingInterface.handleQuantitySubmit st)
     = "Please enter a valid quantity" /\
     CountingInterface.confirmation (CountingInterface.handleQuantitySubmit st)
     = CountingInterface.confirmation st).
Proof.
  intros st bin n Hbin Hn53 Hq.
  unfold CountingInterface.handleQuantitySubmit.
  rewrite Hbin, Hq, parseInt_to_string, (nearest_exact n Hn53).
  split.
  - intros Hn.
    pose proof (to_string_not_blank n Hn) as Hnb. apply String.eqb_neq in Hnb.
    rewrite Hnb. replace (n <? 0) with false by (symmetry; apply Z.ltb_ge; exact Hn).
    reflexivity.
  - intros Hn.
    assert (Hnb : (JSString.trim (JSNumber.to_string n) =? "")%string = false).
    { apply String.eqb_neq. destruct n as [|p|p]; try lia.
      unfold JSNumber.to_string. simpl Z.to_int. unfold NilZero.string_of_int.
      apply trim_not_blank. reflexivity. }
    rewrite Hnb. replace (n <? 0) with true by (symmetry; apply Z.ltb_lt; exact Hn).
    split; reflexivity.
Qed.

Lemma typed_quantity_is_confirmed_witness :
  CountingInterface.confirmation
    (CountingInterface.handleQuantitySubmit
       {| CountingInterface.session := Some Sample.session_active;
          CountingInterface.bins := [];
          CountingInterface.selectedBin :=
            Some {| CountingInterface.bm_id := "b-1";
                    CountingInterface.bm_bin_no := "BIN001";
                    CountingInterface.bm_warehouse_name := "A";
                    CountingInterface.bm_qty_as_per_books := 100 |};
          CountingInterface.quantity := "98";
          CountingInterface.searchTerm := "";
          CountingInterface.confirmation :=
            {| CountingInterface.qc_binNo := ""; CountingInterface.qc_quantity := 0;
               CountingInterface.qc_show := false |};
          CountingInterface.loading := false;
          CountingInterface.error := "" |})
  = {| CountingInterface.qc_binNo := "BIN001"; CountingInterface.qc_quantity := 98;
       CountingInterface.qc_show := true |}.
Proof.
  apply (proj1 (typed_quantity_is_confirmed
           {| CountingInterface.session := Some Sample.session_active;
              CountingInterface.bins := [];
              CountingInterface.selectedBin :=
                Some {| CountingInterface.bm_id := "b-1";
                        CountingInterface.bm_bin_no := "BIN001";
                        CountingInterface.bm_warehouse_name := "A";
                        CountingInterface.bm_qty_as_per_books := 100 |};
              CountingInterface.quantity := "98";
              CountingInterface.searchTerm := "";
              CountingInterface.confirmation :=
                {| CountingInterface.qc_binNo := ""; CountingInterface.qc_quantity := 0;
                   CountingInterface.qc_show := false |};
              CountingInterface.loading := false;
              CountingInterface.error := "" |}
           {| CountingInterface.bm_id := "b-1";
              CountingInterface.bm_bin_no := "BIN001";
              CountingInterface.bm_warehouse_name := "A";
              CountingInterface.bm_qty_as_per_books := 100 |}
           98 eq_refl ltac:(simpl; lia) eq_refl)).
  lia.
Defined.

(** ** Searching the bins *)






(** ** From the confirmation dialog to the stored record *)

(** X19: when counting-data stores the body confirmQuantity sends, the
    record carries the quantity of the dialog, the number of the bin that
    is selected when the body is sent and the session of the screen, and
    its stored difference is the difference the dialog printed. The bin
    the dialog names is not read: it is the bin of the record when the
    dialog has just been opened by handleQuantitySubmit, and then the
    stored quantity is not negative. *)
Theorem confirmed_count_is_stored_as_shown :
  forall env st (req : Request CountingDataFunction.CountBody) b db db' response r,
    CountingInterface.counting_request st = Some b ->
    json req = Some b ->
    CountingDataFunction.handle env req db = (db', response) ->
    body response = counting_body r ->
    qty_counted r = CountingInterface.qc_quantity (CountingInterface.confirmation st) /\
    difference r = CountingInterface.shown_difference st /\
    (exists s bin,
        CountingInterface.session st = Some s /\
        CountingInterface.selectedBin st = Some bin /\
        session_id r = s_id s /\ bin_no r = CountingInterface.bm_bin_no bin) /\
    (forall st0,
        st = CountingInterface.handleQuantitySubmit st0 ->
        CountingInterface.qc_show (CountingInterface.confirmation st0) = false ->
        CountingInterface.qc_show (CountingInterface.confirmation st) = true ->
        bin_no r = CountingInterface.qc_binNo (CountingInterface.confirmation st) /\
        0 <= qty_counted r).
Proof.
  intros env st req b db db' response r Hreq Hjson Hh Hb.
  destruct (count_effect env req db)
    as [(resp & H & _ & Hnb) | [(resp & H & _ & Hnb)
       | (b' & sd & tl & w & r' & db1 & dbx & _ & Hjson' & _ & _ & _ & Hins & H & _)]];
    rewrite Hh in H; injection H as -> ->;
    try (exfalso; exact (Hnb r Hb)).
  simpl in Hb. injection Hb as ->.
  rewrite Hjson in Hjson'. injection Hjson' as <-.
  pose proof (insert_counting_data_inr _ _ _ _ _ Hins) as (_ & Hq & Hrc & Hbk & Hdiff & _).
  pose proof (insert_counting_data_row _ _ _ _ _ Hins) as (_ & Hsid & _ & _ & _ & _ & Hbin & _).
  simpl in Hq, Hrc, Hbk, Hsid, Hbin.
  unfold difference_recomputed in Hdiff. rewrite Hrc, Hq, Hbk in Hdiff. simpl in Hdiff.
  unfold CountingInterface.counting_request in Hreq.
  destruct (CountingInterface.session st) as [s|] eqn:Hs; [|discriminate].
  destruct (CountingInterface.selectedBin st) as [bin|] eqn:Hsel; [|discriminate].
  injection Hreq as <-. simpl in *.
  assert (Hqty : qty_counted r
                 = CountingInterface.qc_quantity (CountingInterface.confirmation st))
    by exact Hq.
  split; [exact Hqty|]. split.
  - unfold CountingInterface.shown_difference. rewrite Hsel. exact Hdiff.
  - split; [exists s, bin; repeat split; assumption|].
    intros st0 Hst Hclosed Hopen. rewrite Hqty, Hbin.
    revert Hopen Hsel. rewrite Hst. unfold CountingInterface.handleQuantitySubmit.
    destruct (CountingInterface.selectedBin st0) as [bin0|] eqn:Hsel0; [|congruence].
    destruct (_ =? _)%string; [congruence|].
    destruct (JSNumber.parseInt _) as [q|]; [|simpl; congruence].
    destruct (q <? 0) eqn:Hneg; [simpl; congruence|].
    apply Z.ltb_ge in Hneg. simpl. intros _ E. rewrite Hsel0 in E. injection E as <-.
    split; [reflexivity | exact Hneg].
Qed.

Lemma confirmed_count_is_stored_as_shown_witness :
  let st0 :=
    {| CountingInterface.session := Some Sample.session_active;
       CountingInterface.bins := [];
       CountingInterface.selectedBin :=
         Some {| CountingInterface.bm_id := "b-1";
                 CountingInterface.bm_bin_no := "BIN001";
                 CountingInterface.bm_warehouse_name := "A";
                 CountingInterface.bm_qty_as_per_books := 12 |};
       CountingInterface.quantity := "10";
       CountingInterface.searchTerm := "";
       CountingInterface.confirmation :=
         {| CountingInterface.qc_binNo := ""; CountingInterface.qc_quantity := 0;
            CountingInterface.qc_show := false |};
       CountingInterface.loading := false;
       CountingInterface.error := "" |} in
  exists r,
    counting_data
      (fst (CountingDataFunction.handle Sample.env (Sample.count "s-1" "BIN001" 10 12)
              Sample.started)) = [r] /\
    qty_counted r = 10 /\ difference r = -2 /\ session_id r = "s-1" /\
    bin_no r = "BIN001" /\ 0 <= qty_counted r.
Proof.
  intros st0.
  destruct (CountingDataFunction.handle Sample.env (Sample.count "s-1" "BIN001" 10 12)
              Sample.started) as [db' response] eqn:E.
  pose proof E as E'. vm_compute in E'. injection E' as Hdb Hresp.
  match type of Hresp with
  | {| http_status := _; body := counting_body ?x |} = _ =>
      pose proof (confirmed_count_is_stored_as_shown Sample.env
                    (CountingInterface.handleQuantitySubmit st0)
                    (Sample.count "s-1" "BIN001" 10 12) _
                    Sample.started db' response x
                    eq_refl eq_refl E ltac:(rewrite <- Hresp; reflexivity))
        as (Hq & Hd & (s & bin & Hs & Hsel & Hsid & Hbin) & Hopened);
      exists x
  end.
  destruct (Hopened st0 eq_refl eq_refl eq_refl) as [Hb Hn].
  split; [rewrite <- Hdb; reflexivity|].
  split; [exact Hq|]. split; [exact Hd|].
  injection Hs as <-. split; [exact Hsid|]. split; [exact Hb | exact Hn].
Defined.

(** ** What the requests keep true of the performance rows *)

(** The three things the "update worker performance" step can do to the
    table: nothing (the store refused the write), rewrite the worker's row
    of the day in place, or append a row for the worker and the day when
    [.single()] found none. *)
Lemma update_performance_shape env s w q db db' :
  CountingDataFunction.update_performance env s w q db = (db', inr tt) ->
  worker_performance db' = worker_performance db
  \/
  (exists p patch,
      WorkerPerformanceFunction.today_row (user_id w) (today env) db = Some p /\
      worker_performance db'
      = map (fun r => if (wp_id r =? wp_id p)%string
                      then Store.patch_performance patch r else r)
            (worker_performance db))
  \/
  (exists r,
      WorkerPerformanceFunction.today_row (user_id w) (today env) db = None /\
      worker_performance db' = (worker_performance db ++ [r])%list /\
      username r = user_id w /\ date r = today env /\
      ~ In (wp_id r) (map wp_id (worker_performance db))).
Proof.
  unfold CountingDataFunction.update_performance, bind, query, exec0, exec, ret.
  destruct (WorkerPerformanceFunction.today_row (user_id w) (today env) db) as [p|] eqn:Hrow.
  - unfold Store.update_worker_performance.
    destruct (Store.performance_patch_ok _);
      intros H; injection H as <-; [|now left].
    right. left. do 2 eexists. split; reflexivity.
  - destruct (Store.insert_worker_performance env _ db) as [e|[r db1]] eqn:Hins;
      intros H; injection H as <-; [now left|].
    right. right. exists r. split; [reflexivity|].
    unfold Store.insert_worker_performance in Hins. simpl in Hins.
    destruct (existsb _ _); [discriminate|].
    destruct (Store.performance_row_ok _); [|discriminate].
    injection Hins as <- <-. simpl. repeat split. apply fresh_id_fresh.
Qed.

(** The performance rows a request to counting-data leaves are those the
    "update worker performance" step made of the rows it found. *)
Lemma counting_data_performance_rows env (req : Request CountingDataFunction.CountBody) db :
  worker_performance (fst (CountingDataFunction.handle env req db)) = worker_performance db
  \/
  (exists s w q db1 db2,
      worker_performance db1 = worker_performance db /\
      CountingDataFunction.update_performance env s w q db1 = (db2, inr tt) /\
      worker_performance (fst (CountingDataFunction.handle env req db))
      = worker_performance db2).
Proof.
  destruct (count_effect env req db)
    as [(resp & H & _) | [(resp & H & _)
       | (b & sd & tl & w & r & db1 & db' & Hm & Hjson & _ & _ & _ & _ & H & _)]];
    try (left; now rewrite H).
  right.
  destruct (counting_post_ok env req db db' (json_response (counting_body r)) b
              Hm Hjson H eq_refl)
    as (sd' & tl' & w' & dbi & dbj & _ & _ & _ & Hwp1 & Hup & Hwp').
  exists (CountingDataFunction.session sd'), w',
    (CountingDataFunction.qtyCountedWorker b), dbi, dbj.
  rewrite H. simpl. repeat split; assumption.
Qed.

Lemma patched_ids (p : string) patch rows :
  map wp_id
    (map (fun r => if (wp_id r =? p)%string then Store.patch_performance patch r else r) rows)
  = map wp_id rows.
Proof.
  rewrite map_map. apply map_ext. intros r.
  destruct (wp_id r =? p)%string; reflexivity.
Qed.

Lemma NoDup_app_one {A : Type} (l : list A) (x : A) :
  NoDup l -> ~ In x l -> NoDup (l ++ [x]).
Proof.
  intros Hl Hx. induction l as [|a l IH]; simpl.
  - constructor; [intros [] | constructor].
  - inversion Hl as [|? ? Ha Hl']; subst. constructor.
    + intros Hin. apply in_app_or in Hin. destruct Hin as [Hin | [<- | []]].
      * contradiction.
      * apply Hx. now left.
    + apply IH; [exact Hl'|]. intros Hin. apply Hx. now right.
Qed.

Lemma same_but_ranking_ids l l' :
  Forall2 same_but_ranking l l' -> map wp_id l' = map wp_id l.
Proof.
  intros H. induction H as [|a b l l' Hab _ IH]; simpl; [reflexivity|].
  destruct Hab as (-> & _). now rewrite IH.
Qed.

(** X20: the ids of the performance rows stay pairwise distinct under every
    request to either function: the rows counting-data and the listing
    rewrite keep their ids, the row counting-data creates gets an id of its
    own, and a POST to worker-performance that names the id of a stored row
    is refused. *)
Theorem performance_ids_stay_distinct :
  forall env db,
    NoDup (map wp_id (worker_performance db)) ->
    (forall req : Request CountingDataFunction.CountBody,
        NoDup (map wp_id (worker_performance (fst (CountingDataFunction.handle env req db)))))
    /\
    (forall req : Request Store.PerformanceInsert,
        NoDup (map wp_id
                 (worker_performance (fst (WorkerPerformanceFunction.handle env req db))))).
Proof.
  intros env db Hnd. split.
  - intros req.
    destruct (counting_data_performance_rows env req db)
      as [-> | (s & w & q & db1 & db2 & Hwp1 & Hup & ->)];
      [exact Hnd|].
    destruct (update_performance_shape _ _ _ _ _ _ Hup)
      as [-> | [(p & patch & _ & ->) | (r & _ & -> & _ & _ & Hfresh)]].
    + now rewrite Hwp1.
    + rewrite patched_ids, Hwp1. exact Hnd.
    + rewrite map_app. simpl. rewrite Hwp1 in *. now apply NoDup_app_one.
  - intros req.
    destruct (String.eqb_spec (method req) "POST") as [Hp | Hp].
    + unfold WorkerPerformanceFunction.handle, WorkerPerformanceFunction.serve.
      rewrite Hp. simpl.
      destruct (json req) as [pd|]; [|exact Hnd].
      unfold run, bind, exec, leave, ret.
      destruct (Store.insert_worker_performance env pd db) as [e|[r db1]] eqn:Hins;
        [exact Hnd|].
      simpl. unfold Store.insert_worker_performance in Hins.
      destruct (Store.pi_wh_name pd); [|discriminate].
      destruct (Store.pi_username pd); [|discriminate].
      destruct (existsb _ _) eqn:Hex; [discriminate|].
      destruct (Store.performance_row_ok _); [|discriminate].
      injection Hins as <- <-. simpl. rewrite map_app. simpl.
      apply NoDup_app_one; [exact Hnd|].
      intros Hin. apply Bool.not_true_iff_false in Hex. apply Hex.
      apply existsb_exists. eexists. split; [exact Hin | apply String.eqb_refl].
    + assert (H : Forall2 same_but_ranking (worker_performance db)
                    (worker_performance (fst (WorkerPerformanceFunction.handle env req db)))).
      { destruct (worker_performance_reads env req db Hp) as [[response H] | [Hg Ht]];
          [rewrite H; apply same_but_ranking_refl|].
        destruct (list_performance_result env req db Hg Ht) as [[e H] | (n & _ & _ & H)];
          [rewrite H; apply same_but_ranking_refl|].
        cbv zeta in H. rewrite H. simpl. apply map_rank_rows_same. }
      rewrite (same_but_ranking_ids _ _ H). exact Hnd.
Qed.

Lemma performance_ids_stay_distinct_witness :
  NoDup (map wp_id
           (worker_performance
              (fst (WorkerPerformanceFunction.handle Sample.env
                      (Sample.post_performance Sample.submitted) Sample.three_workers)))).
Proof.
  apply (proj2 (performance_ids_stay_distinct Sample.env Sample.three_workers
                  ltac:(repeat constructor; simpl; intuition discriminate))).
Defined.

(** X21: if no worker has more than one performance row for a day, this is
    still so after any request to counting-data and after any request to
    worker-performance other than a POST: counting-data creates a row for
    the worker and the day only when it finds none, and otherwise rewrites
    the one it finds; a listing changes rankings only. *)
Theorem one_row_per_day_is_kept :
  forall env db,
    (forall un d, (List.length (Store.day_rows un d db) <= 1)%nat) ->
    (forall (req : Request CountingDataFunction.CountBody) un d,
        (List.length (Store.day_rows un d (fst (CountingDataFunction.handle env req db)))
         <= 1)%nat)
    /\
    (forall (req : Request Store.PerformanceInsert) un d,
        method req <> "POST" ->
        (List.length (Store.day_rows un d (fst (WorkerPerformanceFunction.handle env req db)))
         <= 1)%nat).
Proof.
  intros env db Hone. split.
  - intros req un d.
    destruct (counting_data_performance_rows env req db)
      as [H | (s & w & q & db1 & db2 & Hwp1 & Hup & H)].
    { rewrite (day_rows_ext un d _ db H). apply Hone. }
    rewrite (day_rows_ext un d _ db2 H).
    destruct (update_performance_shape _ _ _ _ _ _ Hup)
      as [H2 | [(p & patch & _ & H2) | (r & Hnone & H2 & Hun & Hd & _)]].
    + rewrite (day_rows_ext un d db2 db) by congruence. apply Hone.
    + pose proof (Hone un d) as Hle. unfold Store.day_rows in *.
      rewrite H2, filter_map_same, length_map, Hwp1; [exact Hle|].
      intros x. destruct (wp_id x =? wp_id p)%string; reflexivity.
    + unfold Store.day_rows. rewrite H2, Hwp1, filter_app, length_app. simpl.
      rewrite Hun, Hd.
      destruct ((user_id w =? un)%string && (today env =? d)%string) eqn:Hkey; simpl.
      * apply andb_true_iff in Hkey. destruct Hkey as [E1 E2].
        apply String.eqb_eq in E1, E2. subst un d.
        unfold WorkerPerformanceFunction.today_row in Hnone.
        rewrite (day_rows_ext _ _ db1 db Hwp1) in Hnone.
        pose proof (Hone (user_id w) (today env)) as Hle.
        unfold Store.day_rows in *.
        destruct (filter _ (worker_performance db)) as [|x [|y l]];
          [simpl; lia | discriminate | simpl in Hle; lia].
      * pose proof (Hone un d) as Hle. unfold Store.day_rows in Hle. lia.
  - intros req un d Hp.
    assert (H : Forall2 same_but_ranking (worker_performance db)
                  (worker_performance (fst (WorkerPerformanceFunction.handle env req db)))).
    { destruct (worker_performance_reads env req db Hp) as [[response H] | [Hg Ht]];
        [rewrite H; apply same_but_ranking_refl|].
      destruct (list_performance_result env req db Hg Ht) as [[e H] | (n & _ & _ & H)];
        [rewrite H; apply same_but_ranking_refl|].
      cbv zeta in H. rewrite H. simpl. apply map_rank_rows_same. }
    assert (Hf : Forall2 same_but_ranking (Store.day_rows un d db)
                   (Store.day_rows un d (fst (WorkerPerformanceFunction.handle env req db)))).
    { unfold Store.day_rows. apply Forall2_filter_same; [|exact H].
      intros a b Hab. destruct Hab as (_ & _ & -> & -> & _). reflexivity. }
    rewrite <- (Forall2_length Hf). apply Hone.
Qed.

Lemma one_row_per_day_is_kept_witness :
  (List.length
     (Store.day_rows "workerW" (today Sample.env)
        (fst (CountingDataFunction.handle Sample.env (Sample.count "s-1" "BIN001" 10 10)
                Sample.started))) <= 1)%nat.
Proof.
  apply (proj1 (one_row_per_day_is_kept Sample.env Sample.started
                  ltac:(intros un d; simpl; lia))).
Defined.

(** ** The login form *)

Lemma skip_space_head (s : string) (c : ascii) (t : string) :
  JSNumber.skip_space s = String c t -> JSNumber.is_space c = false.
Proof.
  induction s as [|a s IH]; simpl; [discriminate|].
  destruct (JSNumber.is_space a) eqn:Ha; [exact IH|].
  intros H. injection H as <- _. exact Ha.
Qed.

Lemma skip_space_kept (c : ascii) (t : string) :
  JSNumber.is_space c = false -> JSNumber.skip_space (String c t) = String c t.
Proof. intros H. simpl. now rewrite H. Qed.

Lemma trim_end_head (c : ascii) (t : string) :
  JSNumber.is_space c = false -> exists t', JSString.trim_end (String c t) = String c t'.
Proof.
  intros H. simpl. rewrite H. destruct (JSString.trim_end t); eexists; reflexivity.
Qed.

Lemma trim_end_last (s t : string) (c : ascii) :
  JSString.trim_end s = t ++ String c "" -> JSNumber.is_space c = false.
Proof.
  revert t. induction s as [|a s IH]; intros t; simpl.
  - destruct t; discriminate.
  - destruct (JSString.trim_end s) as [|b r].
    + destruct (JSNumber.is_space a) eqn:Ha.
      * destruct t; discriminate.
      * destruct t as [|x t]; simpl; intros H.
        -- injection H as <-. exact Ha.
        -- injection H as _ H. destruct t; discriminate.
    + destruct t as [|x t]; simpl; intros H; [discriminate|].
      injection H as _ H. exact (IH t H).
Qed.

Lemma trim_end_idem (s : string) : JSString.trim_end (JSString.trim_end s) = JSString.trim_end s.
Proof.
  induction s as [|a s IH]; simpl; [reflexivity|].
  destruct (JSString.trim_end s) as [|b r] eqn:E.
  - destruct (JSNumber.is_space a) eqn:Ha; simpl; [reflexivity | now rewrite Ha].
  - cbn [JSString.trim_end] in IH |- *. rewrite IH. reflexivity.
Qed.

Lemma trim_idem (s : string) : JSString.trim (JSString.trim s) = JSString.trim s.
Proof.
  unfold JSString.trim at 2 3.
  destruct (JSNumber.skip_space s) as [|c t] eqn:E; [reflexivity|].
  pose proof (skip_space_head s c t E) as Hc.
  destruct (trim_end_head c t Hc) as [t' Ht]. rewrite Ht.
  unfold JSString.trim. rewrite (skip_space_kept c t' Hc), <- Ht.
  apply trim_end_idem.
Qed.

Lemma trim_head (s : string) (c : ascii) (t : string) :
  JSString.trim s = String c t -> JSNumber.is_space c = false.
Proof.
  unfold JSString.trim.
  destruct (JSNumber.skip_space s) as [|a r] eqn:E; [discriminate|].
  pose proof (skip_space_head s a r E) as Ha.
  destruct (trim_end_head a r Ha) as [r' Hr]. rewrite Hr.
  intros H. injection H as <- _. exact Ha.
Qed.

(** X22: on ASCII text, the login form calls onLogin only when the user id
    and the password are both non-blank, and then with the user id trimmed
    (it starts and ends with a character that is not white space, and
    trimming it again changes nothing) and the password exactly as typed. *)
Theorem login_is_attempted_with_a_trimmed_user_id :
  forall st,
    ascii_text (LoginForm.userId st) = true ->
    ascii_text (LoginForm.password st) = true ->
    match LoginForm.handleSubmit st with
    | None =>
        JSString.trim (LoginForm.userId st) = "" \/ JSString.trim (LoginForm.password st) = ""
    | Some (u, p) =>
        u = JSString.trim (LoginForm.userId st) /\ p = LoginForm.password st /\
        u <> "" /\ JSString.trim p <> "" /\
        JSString.trim u = u /\
        (forall c t, u = String c t -> JSNumber.is_space c = false) /\
        (forall t c, u = t ++ String c "" -> JSNumber.is_space c = false)
    end.
Proof.
  intros st _ _. unfold LoginForm.handleSubmit.
  destruct (JSString.trim (LoginForm.userId st) =? "")%string eqn:Hu; simpl.
  { left. now apply String.eqb_eq. }
  destruct (JSString.trim (LoginForm.password st) =? "")%string eqn:Hp; simpl.
  { right. now apply String.eqb_eq. }
  apply String.eqb_neq in Hu, Hp.
  repeat split; try assumption.
  - apply trim_idem.
  - intros c t H. exact (trim_head _ c t H).
  - intros t c H. exact (trim_end_last _ t c H).
Qed.

Lemma login_is_attempted_with_a_trimmed_user_id_witness :
  match LoginForm.handleSubmit
          {| LoginForm.userId := "  worker7 "; LoginForm.password := " pass word " |} with
  | None =>
      JSString.trim "  worker7 " = "" \/ JSString.trim " pass word " = ""
  | Some (u, p) =>
      u = JSString.trim "  worker7 " /\ p = " pass word " /\
      u <> "" /\ JSString.trim p <> "" /\
      JSString.trim u = u /\
      (forall c t, u = String c t -> JSNumber.is_space c = false) /\
      (forall t c, u = t ++ String c "" -> JSNumber.is_space c = false)
  end.
Proof.
  apply (login_is_attempted_with_a_trimmed_user_id
           {| LoginForm.userId := "  worker7 "; LoginForm.password := " pass word " |}
           eq_refl eq_refl).
Defined.
